(** * Dashcam analyzer: the data reconstruction pipeline of
      [dashcam_analyzer.py], embedded shallowly.

    The development follows the order of the Python class
    [DashcamAnalyzer]: text helpers, [read_and_parse_data],
    [clean_and_transform_data], the two exporters
    ([generate_data_file], [generate_standalone_html]) and [run_analysis].

    Conventions.
    - Text is a [string] of bytes; a file is the list of its lines.
    - An instant (pandas [Timestamp], second resolution here) is the number
      of seconds since 1970-01-01 00:00:00, a [Z].
    - Exceptions are values of [error]; a function that may raise returns a
      [result].
    - [print] calls only write diagnostics and are left out. *)

From Stdlib Require Import ZArith List String Ascii Bool Lia.
From Stdlib Require Import Permutation Sorted OrderedTypeEx DecimalString.
From Stdlib Require Import QArith Qabs Qround.
From Equations Require Import Equations.
Import ListNotations.

Local Open Scope string_scope.
Local Open Scope Z_scope.

(* ------------------------------------------------------------------ *)
(** ** Exceptions *)

Inductive error : Type :=
| ReadError                        (* "Erreur lors de la lecture du fichier : ..." *)
| NoValidDataInFile                (* "Aucune donnée valide trouvée dans le fichier" *)
| ColumnsMismatch (passed had : nat) (* pandas: "7 columns passed, passed data had 8 columns" *)
| NoValidDataInSelectedFiles       (* "Aucune donnée valide trouvée dans les fichiers sélectionnés." *)
| ConversionError (column : string) (* raised by pd.to_datetime / pd.to_numeric *).

Inductive result (A : Type) : Type :=
| Ok (a : A)
| Err (e : error).
Arguments Ok {A} a.
Arguments Err {A} e.

Definition bind {A B : Type} (r : result A) (k : A -> result B) : result B :=
  match r with
  | Ok a => k a
  | Err e => Err e
  end.

Notation "x <- r ;; k" := (bind r (fun x => k))
  (at level 61, r at next level, right associativity).

Definition of_option {A : Type} (e : error) (o : option A) : result A :=
  match o with
  | Some a => Ok a
  | None => Err e
  end.

Fixpoint mapM {A B : Type} (f : A -> result B) (l : list A) : result (list B) :=
  match l with
  | [] => Ok []
  | a :: r => b <- f a ;; bs <- mapM f r ;; Ok (b :: bs)
  end.

(* ------------------------------------------------------------------ *)
(** ** Python text helpers *)

Module Text.

(** Characters removed by [str.strip()] (the ASCII ones). *)
Definition is_space (c : ascii) : bool :=
  let n := nat_of_ascii c in
  ((n =? 32) || ((9 <=? n) && (n <=? 13)) || ((28 <=? n) && (n <=? 31)))%nat.

(** [\d], on ASCII text. *)
Definition is_digit (c : ascii) : bool :=
  let n := nat_of_ascii c in
  ((48 <=? n) && (n <=? 57))%nat.

Fixpoint lstrip (s : string) : string :=
  match s with
  | EmptyString => EmptyString
  | String c r => if is_space c then lstrip r else s
  end.

Fixpoint rstrip (s : string) : string :=
  match s with
  | EmptyString => EmptyString
  | String c r =>
      match rstrip r with
      | EmptyString => if is_space c then EmptyString else String c EmptyString
      | r' => String c r'
      end
  end.

(** [line.strip()] *)
Definition strip (s : string) : string := rstrip (lstrip s).

(** [line.startswith('#')] *)
Definition startswith_hash (s : string) : bool :=
  match s with
  | String c _ => Ascii.eqb c "#"
  | EmptyString => false
  end.

(** [line.split(',')]: never empty, [''.split(',') = ['']]. *)
Fixpoint split_comma (s : string) : list string :=
  match s with
  | EmptyString => [EmptyString]
  | String c r =>
      if Ascii.eqb c ","
      then EmptyString :: split_comma r
      else match split_comma r with
           | [] => [String c EmptyString]
           | hd :: tl => String c hd :: tl
           end
  end.

(** Consume [n] digits at the head of [s]; the rest when they are there. *)
Fixpoint eat_digits (n : nat) (s : string) : option string :=
  match n with
  | O => Some s
  | S n' =>
      match s with
      | String c r => if is_digit c then eat_digits n' r else None
      | EmptyString => None
      end
  end.

(** [re.match(r'^\d{14},', line)] *)
Definition match_timestamp (line : string) : bool :=
  match eat_digits 14 line with
  | Some (String c _) => Ascii.eqb c ","
  | _ => false
  end.

End Text.

(* ------------------------------------------------------------------ *)
(** ** [read_and_parse_data] *)

(** One row of the frame built by [read_and_parse_data]: the seven named
    columns. *)
Record RawRecord : Type := mkRaw {
  timestamp_str : string;
  lat : string;
  lat_indicator : string;
  lon : string;
  lon_indicator : string;
  data_1 : string;
  data_2 : string
}.

(** The loop body over the lines of the file: the list [data_lines] of the
    rows kept, each row being the whole result of [line.split(',')]. *)
Fixpoint collect_data_lines (lines : list string) : list (list string) :=
  match lines with
  | [] => []
  | raw :: rest =>
      let line := Text.strip raw in
      match line with
      | EmptyString => collect_data_lines rest
      | _ =>
          if Text.startswith_hash line then collect_data_lines rest
          else if Text.match_timestamp line then
            let parts := Text.split_comma line in
            if (7 <=? List.length parts)%nat
            then parts :: collect_data_lines rest
            else collect_data_lines rest
          else collect_data_lines rest
      end
  end.

Definition row_of_parts (parts : list string) : option RawRecord :=
  match parts with
  | [a; b; c; d; e; f; g] => Some (mkRaw a b c d e f g)
  | _ => None
  end.

Fixpoint rows_of_parts (data : list (list string)) : option (list RawRecord) :=
  match data with
  | [] => Some []
  | parts :: rest =>
      match row_of_parts parts, rows_of_parts rest with
      | Some r, Some rs => Some (r :: rs)
      | _, _ => None
      end
  end.

(** [pd.DataFrame(data_lines, columns=[...7 names...])]: pandas lays the
    rows out on as many columns as the widest row has, and raises
    [ValueError] when that is not the number of names passed.  Rows of
    [collect_data_lines] have at least seven cells, so when the widest has
    seven they all have exactly seven and no padding takes place. *)
Definition DataFrame (data_lines : list (list string)) : result (list RawRecord) :=
  let width := list_max (map (@List.length string) data_lines) in
  if (width =? 7)%nat
  then of_option (ColumnsMismatch 7 width) (rows_of_parts data_lines)
  else Err (ColumnsMismatch 7 width).

(** A file on disk: [None] when it cannot be opened or decoded, else its
    lines. *)
Definition file := option (list string).

Definition read_and_parse_data (f : file) : result (list RawRecord) :=
  match f with
  | None => Err ReadError
  | Some lines =>
      let data_lines := collect_data_lines lines in
      match data_lines with
      | [] => Err NoValidDataInFile
      | _ => DataFrame data_lines
      end
  end.

(* ------------------------------------------------------------------ *)
(** ** Calendar arithmetic and [strftime] *)

Module Calendar.

Definition is_leap (y : Z) : bool :=
  (y mod 4 =? 0) && (negb (y mod 100 =? 0) || (y mod 400 =? 0)).

Definition days_in_month (y m : Z) : Z :=
  if m =? 2 then (if is_leap y then 29 else 28)
  else if (m =? 4) || (m =? 6) || (m =? 9) || (m =? 11) then 30
  else 31.

(** Days between 1970-01-01 and the civil date [y]-[m]-[d]. *)
Definition days_from_civil (y m d : Z) : Z :=
  let y' := if m <=? 2 then y - 1 else y in
  let era := y' / 400 in
  let yoe := y' - era * 400 in
  let mp := (m + 9) mod 12 in
  let doy := (153 * mp + 2) / 5 + d - 1 in
  let doe := yoe * 365 + yoe / 4 - yoe / 100 + doy in
  era * 146097 + doe - 719468.

(** The civil date (year, month, day) of a day number. *)
Definition civil_from_days (n : Z) : Z * Z * Z :=
  let z := n + 719468 in
  let era := z / 146097 in
  let doe := z - era * 146097 in
  let yoe := (doe - doe / 1460 + doe / 36524 - doe / 146096) / 365 in
  let doy := doe - (365 * yoe + yoe / 4 - yoe / 100) in
  let mp := (5 * doy + 2) / 153 in
  let d := doy - (153 * mp + 2) / 5 + 1 in
  let m := if mp <? 10 then mp + 3 else mp - 9 in
  let y := yoe + era * 400 in
  ((if m <=? 2 then y + 1 else y), m, d).

Definition string_of_Z (z : Z) : string :=
  NilZero.string_of_int (Z.to_int z).

(** ["%02d"] and ["%04d"] on a non-negative number. *)
Definition pad2 (n : Z) : string :=
  if n <? 10 then "0" ++ string_of_Z n else string_of_Z n.

Definition pad4 (n : Z) : string :=
  if n <? 10 then "000" ++ string_of_Z n
  else if n <? 100 then "00" ++ string_of_Z n
  else if n <? 1000 then "0" ++ string_of_Z n
  else string_of_Z n.

(** [t.strftime('%H:%M:%S')] *)
Definition strftime_HMS (t : Z) : string :=
  let sod := t mod 86400 in
  pad2 (sod / 3600) ++ ":" ++ pad2 ((sod mod 3600) / 60) ++ ":" ++ pad2 (sod mod 60).

(** ['%Y'] of [strftime], which is the C library's: the year as it is,
    without zeros before a year below 1000. *)
Definition year_Y (y : Z) : string := string_of_Z y.

(** [t.strftime('%Y-%m-%d')] *)
Definition strftime_Ymd (t : Z) : string :=
  let '(y, m, d) := civil_from_days (t / 86400) in
  year_Y y ++ "-" ++ pad2 m ++ "-" ++ pad2 d.

(** [t.strftime('%d/%m/%Y')] *)
Definition strftime_dmY (t : Z) : string :=
  let '(y, m, d) := civil_from_days (t / 86400) in
  pad2 d ++ "/" ++ pad2 m ++ "/" ++ year_Y y.

(** [t.strftime('%Y-%m-%d %H:%M:%S')] *)
Definition strftime_Ymd_HMS (t : Z) : string :=
  strftime_Ymd t ++ " " ++ strftime_HMS t.

(** [t.strftime('%d/%m/%Y %H:%M:%S')] *)
Definition strftime_dmY_HMS (t : Z) : string :=
  strftime_dmY t ++ " " ++ strftime_HMS t.

(** [t.isoformat()] of an instant on a whole second; the year has four
    digits. *)
Definition isoformat (t : Z) : string :=
  let '(y, m, d) := civil_from_days (t / 86400) in
  pad4 y ++ "-" ++ pad2 m ++ "-" ++ pad2 d ++ "T" ++ strftime_HMS t.

End Calendar.

(* ------------------------------------------------------------------ *)
(** ** The numeric library

    The conversions of text and the float64 arithmetic come from pandas,
    numpy and [math]; they are taken as an interface.  A cell conversion
    returns [None] where the library raises. *)

Class PandasNum : Type := {
  F : Type;                               (* a float64 cell *)
  to_datetime : string -> option Z;       (* pd.to_datetime(_, format='%Y%m%d%H%M%S') *)
  to_numeric : string -> option F;        (* pd.to_numeric *)
  neg : F -> F;                           (* x * -1 *)
  round_str : nat -> F -> string;         (* x.round(n), then astype(str) *)
  is_nan : F -> bool;                     (* dropped by dropna() *)
  mean : list F -> F;                     (* Series.mean() *)
  of_int : Z -> F;                        (* an int used as a float *)
  fadd : F -> F -> F;
  fsub : F -> F -> F;
  fmul : F -> F -> F;
  fdiv : F -> F -> F;
  radians : F -> F;
  fsin : F -> F;
  fcos : F -> F;
  fasin : F -> F;
  fsqrt : F -> F;
  format_2f : F -> string                 (* f"{x:.2f}" *)
}.

(* ------------------------------------------------------------------ *)
(** ** Group keys ([groupby] sorts its keys) *)

Class OrdKey (K : Type) : Type := { cmp : K -> K -> comparison }.

#[export] Instance OrdKey_string : OrdKey string := {| cmp := String.compare |}.
#[export] Instance OrdKey_Z : OrdKey Z := {| cmp := Z.compare |}.

Definition key_eqb {K : Type} `{OrdKey K} (a b : K) : bool :=
  match cmp a b with
  | Eq => true
  | _ => false
  end.

Fixpoint insert_key {K : Type} `{OrdKey K} (k : K) (ks : list K) : list K :=
  match ks with
  | [] => [k]
  | k' :: rest =>
      match cmp k k' with
      | Lt => k :: ks
      | Eq => ks
      | Gt => k' :: insert_key k rest
      end
  end.

(** The distinct keys of a column, ascending. *)
Definition sorted_unique {K : Type} `{OrdKey K} (ks : list K) : list K :=
  fold_right insert_key [] ks.

(** [df.groupby(key)] (default [sort=True]) as it is iterated: one pair per
    distinct key, keys ascending, each with its rows in frame order. *)
Definition groupby {A K : Type} `{OrdKey K} (key : A -> K) (df : list A)
  : list (K * list A) :=
  map (fun k => (k, filter (fun r => key_eqb (key r) k) df))
      (sorted_unique (map key df)).

(** [Series.cumsum()] *)
Fixpoint cumsum_from (acc : Z) (l : list Z) : list Z :=
  match l with
  | [] => []
  | x :: r => (acc + x) :: cumsum_from (acc + x) r
  end.

Definition cumsum (l : list Z) : list Z := cumsum_from 0 l.

(** [Series.diff()]: the first cell has no predecessor. *)
Fixpoint diff_from (prev : Z) (l : list Z) : list (option Z) :=
  match l with
  | [] => []
  | x :: r => Some (x - prev) :: diff_from x r
  end.

Definition diff (l : list Z) : list (option Z) :=
  match l with
  | [] => []
  | x :: r => None :: diff_from x r
  end.

Definition fillna (d : Z) (l : list (option Z)) : list Z :=
  map (fun o => match o with Some v => v | None => d end) l.

(** [df.groupby(key)[col].transform(f)]: [f] runs on the column of each
    group, and each result cell goes back to the row it came from. *)
Definition transform {A K : Type} `{OrdKey K}
  (key : A -> K) (col : A -> Z) (f : list Z -> list Z) (df : list A) : list Z :=
  let indexed := combine (seq 0 (List.length df)) df in
  let placed :=
    flat_map (fun g => combine (map fst (snd g)) (f (map (fun ir => col (snd ir)) (snd g))))
             (groupby (fun ir => key (snd ir)) indexed) in
  map (fun i => match find (fun p => Nat.eqb (fst p) i) placed with
                | Some p => snd p
                | None => 0
                end)
      (seq 0 (List.length df)).

(** [arr.take(indexer)] *)
Definition take_rows {A : Type} (indexer : list nat) (l : list A) : list A :=
  flat_map (fun i => match nth_error l i with
                     | Some a => [a]
                     | None => []
                     end) indexer.

(** What [sort_values] (default [kind='quicksort']) asks of the argsort of
    its key column: a permutation of the positions that puts the keys in
    ascending order.  The order of equal keys is not part of it. *)
Definition argsort_ok (argsort : list Z -> list nat) : Prop :=
  forall keys,
    Permutation (argsort keys) (seq 0 (List.length keys))
    /\ Sorted Z.le (take_rows (argsort keys) keys).

(* ------------------------------------------------------------------ *)
(** ** Frames *)

(** A row of the merged frame of [run_analysis]: a parsed line and the
    [day_id] of the file it came from. *)
Record TaggedRecord : Type := mkTagged {
  raw_of : RawRecord;
  tag_day_id : string
}.

(** A row once the columns [datetime], [latitude], [longitude],
    [popup_info] are there and [data_1], [data_2] are numbers.  The frames
    are over the type [T] of a float cell. *)
Record Point (T : Type) : Type := mkPoint {
  raw : RawRecord;
  day_id : string;
  datetime : Z;
  latitude : T;
  longitude : T;
  data_1_num : T;
  data_2_num : T;
  popup_info : string
}.
Arguments mkPoint {T}.
Arguments raw {T}.
Arguments day_id {T}.
Arguments datetime {T}.
Arguments latitude {T}.
Arguments longitude {T}.
Arguments data_1_num {T}.
Arguments data_2_num {T}.
Arguments popup_info {T}.

(** A row of the frame [clean_and_transform_data] leaves in [self.df]. *)
Record Row (T : Type) : Type := mkRow {
  point : Point T;
  time_diff : Z;
  trip_id : Z
}.
Arguments mkRow {T}.
Arguments point {T}.
Arguments time_diff {T}.
Arguments trip_id {T}.

(** The structure that is serialised: days, trips, points, time groups. *)
Record PointOut (T : Type) : Type := mkPointOut {
  po_lat : T;
  po_lon : T;
  po_popup : string;
  po_time : string;
  po_datetime : string
}.
Arguments mkPointOut {T}.
Arguments po_lat {T}.
Arguments po_lon {T}.
Arguments po_popup {T}.
Arguments po_time {T}.
Arguments po_datetime {T}.

Record TimeGroup : Type := mkTimeGroup {
  tg_index : Z;
  tg_time : string
}.

Record TripOut (T : Type) : Type := mkTripOut {
  t_id : Z;
  t_points : list (PointOut T);
  t_time_groups : list TimeGroup;
  t_start_time_full : string;
  t_end_time_full : string;
  t_start_time : string;
  t_end_time : string;
  t_center : T * T;
  t_point_count : nat;
  t_duration_str : string;
  t_distance_km_str : string
}.
Arguments mkTripOut {T}.
Arguments t_id {T}.
Arguments t_points {T}.
Arguments t_time_groups {T}.
Arguments t_start_time_full {T}.
Arguments t_end_time_full {T}.
Arguments t_start_time {T}.
Arguments t_end_time {T}.
Arguments t_center {T}.
Arguments t_point_count {T}.
Arguments t_duration_str {T}.
Arguments t_distance_km_str {T}.

Record DayOut (T : Type) : Type := mkDayOut {
  d_day_id : string;
  d_trips : list (TripOut T)
}.
Arguments mkDayOut {T}.
Arguments d_day_id {T}.
Arguments d_trips {T}.

(** How a run of [run_analysis] ends. *)
Inductive outcome (T : Type) : Type :=
| Cancelled                            (* no file selected *)
| Failed (e : error)                   (* reported by the [except] clause *)
| Completed (days : list (DayOut T)).  (* map_visualisation.html written *)
Arguments Cancelled {T}.
Arguments Failed {T} e.
Arguments Completed {T} days.

(** [Series.min()] and [Series.max()] of a column of instants (a group is
    never empty; the empty column gives 0 here). *)
Definition series_min (l : list Z) : Z :=
  match l with
  | [] => 0
  | x :: r => fold_left Z.min r x
  end.

Definition series_max (l : list Z) : Z :=
  match l with
  | [] => 0
  | x :: r => fold_left Z.max r x
  end.

(** The loop [while current_time <= end_time] of the exporters: one group
    per pass, [current_time] 30 seconds further each time. *)
Equations? time_groups_loop (end_time current_time group_index : Z) : list TimeGroup
  by wf (Z.to_nat (end_time - current_time + 1)) lt :=
  time_groups_loop end_time current_time group_index
    with Z_le_gt_dec current_time end_time := {
    | left _ =>
        mkTimeGroup group_index (Calendar.strftime_HMS current_time)
        :: time_groups_loop end_time (current_time + 30) (group_index + 1)
    | right _ => []
    }.
Proof. lia. Qed.

(** [duration_str] from the two ends of a trip. *)
Definition duration_string (start_time end_time : Z) : string :=
  let total_seconds := end_time - start_time in
  let hours := total_seconds / 3600 in
  let minutes := (total_seconds mod 3600) / 60 in
  if 0 <? hours
  then Calendar.string_of_Z hours ++ "h " ++ Calendar.string_of_Z minutes ++ "min"
  else Calendar.string_of_Z minutes ++ "min".

Definition trip_threshold : Z := 30 * 60.

(** [(x > trip_threshold).cumsum()] *)
Definition count_breaks (x : list Z) : list Z :=
  cumsum (map (fun d => if d >? trip_threshold then 1 else 0) x).

Section Pipeline.

Context {L : PandasNum}.

(** The argsort behind [sort_values('datetime')]. *)
Variable argsort : list Z -> list nat.

(** *** [clean_and_transform_data] *)

(** A conversion applied to a whole column: it raises when one cell does. *)
Definition convert_column {A : Type} (name : string) (conv : string -> option A)
  (cell : RawRecord -> string) (df : list TaggedRecord) : result (list A) :=
  mapM (fun r => of_option (ConversionError name) (conv (cell (raw_of r)))) df.

(** [df.loc[df[indicator] == flag, column] *= -1] *)
Fixpoint negate_where (flag : string) (indicator : RawRecord -> string)
  (df : list TaggedRecord) (column : list F) : list F :=
  match df, column with
  | r :: df', x :: column' =>
      (if String.eqb (indicator (raw_of r)) flag then neg x else x)
      :: negate_where flag indicator df' column'
  | _, _ => []
  end.

(** The text of [popup_info] for a row, each number rendered as the float
    it is in a column of floats.  (A column whose cells are all integers is
    typed as integers by [pd.to_numeric], and pandas then renders it
    without a decimal part; this is not followed here.) *)
Definition popup (t : Z) (la lo d1 d2 : F) : string :=
  "<b>Horodatage:</b> " ++ Calendar.strftime_dmY_HMS t ++ "<br>" ++
  "<b>Latitude:</b> " ++ round_str 6 la ++ "°<br>" ++
  "<b>Longitude:</b> " ++ round_str 6 lo ++ "°<br>" ++
  "<b>Donnée 1:</b> " ++ round_str 3 d1 ++ "<br>" ++
  "<b>Donnée 2:</b> " ++ round_str 3 d2.

(** The rows of the frame, from its columns. *)
Fixpoint assemble (df : list TaggedRecord) (dts : list Z)
  (lats lons d1s d2s : list F) : list (Point F) :=
  match df, dts, lats, lons, d1s, d2s with
  | r :: df', t :: dts', la :: lats', lo :: lons', d1 :: d1s', d2 :: d2s' =>
      mkPoint (raw_of r) (tag_day_id r) t la lo d1 d2 (popup t la lo d1 d2)
      :: assemble df' dts' lats' lons' d1s' d2s'
  | _, _, _, _, _, _ => []
  end.

(** The conversions, up to [popup_info]. *)
Definition normalize (df : list TaggedRecord) : result (list (Point F)) :=
  dts <- convert_column "timestamp_str" to_datetime timestamp_str df ;;
  lats <- convert_column "lat" to_numeric lat df ;;
  let lats := negate_where "S" lat_indicator df lats in
  lons <- convert_column "lon" to_numeric lon df ;;
  let lons := negate_where "W" lon_indicator df lons in
  d1s <- convert_column "data_1" to_numeric data_1 df ;;
  d2s <- convert_column "data_2" to_numeric data_2 df ;;
  Ok (assemble df dts lats lons d1s d2s).

(** [df.sort_values('datetime').reset_index(drop=True)] *)
Definition sort_values (pts : list (Point F)) : list (Point F) :=
  take_rows (argsort (map datetime pts)) pts.

Fixpoint add_columns (pts : list (Point F)) (diffs ids : list Z) : list (Row F) :=
  match pts, diffs, ids with
  | p :: pts', d :: diffs', i :: ids' => mkRow p d i :: add_columns pts' diffs' ids'
  | _, _, _ => []
  end.

(** The sort and the detection of trips.  [time_diff] is computed on the
    whole sorted frame; only the running count is taken per [day_id]. *)
Definition detect_trips (has_day_id : bool) (pts : list (Point F)) : list (Row F) :=
  let sorted := sort_values pts in
  let time_diffs := fillna 0 (diff (map datetime sorted)) in
  let with_diff := combine sorted time_diffs in
  let trip_ids :=
    if has_day_id
    then transform (fun pd => day_id (fst pd)) snd count_breaks with_diff
    else count_breaks time_diffs in
  add_columns sorted time_diffs trip_ids.

Definition clean_and_transform_data (has_day_id : bool) (df : list TaggedRecord)
  : result (list (Row F)) :=
  pts <- normalize df ;;
  Ok (detect_trips has_day_id pts).

(** *** [_calculate_distance_for_df] *)

(** The functions of [math] are taken where they are defined.  On an
    infinite argument [math.sin] and [math.cos] raise a [ValueError], and
    so does [math.asin] outside of [-1, 1]; a run in which this happens
    fails in the program, and is not followed here. *)
Definition haversine (lon1 lat1 lon2 lat2 : F) : F :=
  let lon1 := radians lon1 in
  let lat1 := radians lat1 in
  let lon2 := radians lon2 in
  let lat2 := radians lat2 in
  let dlon := fsub lon2 lon1 in
  let dlat := fsub lat2 lat1 in
  let sq x := fmul x x in
  let a := fadd (sq (fsin (fdiv dlat (of_int 2))))
                (fmul (fmul (fcos lat1) (fcos lat2))
                      (sq (fsin (fdiv dlon (of_int 2))))) in
  let c := fmul (of_int 2) (fasin (fsqrt a)) in
  let r := of_int 6371 in
  fmul c r.

(** The loop [for i in range(1, len(df_numeric))]. *)
Fixpoint sum_legs (total : F) (prev : F * F) (rest : list (F * F)) : F :=
  match rest with
  | [] => total
  | cur :: rest' =>
      sum_legs (fadd total (haversine (fst prev) (snd prev) (fst cur) (snd cur)))
               cur rest'
  end.

Definition calculate_distance_for_df (df : list (Row F)) : F :=
  if (1 <? List.length df)%nat then
    let df_numeric :=
      filter (fun p => negb (is_nan (fst p) || is_nan (snd p)))
             (map (fun r => (longitude (point r), latitude (point r))) df) in
    match df_numeric with
    | [] => of_int 0
    | first :: rest => sum_legs (of_int 0) first rest
    end
  else of_int 0.

(** *** [generate_data_file] *)

Definition generate_data_file (df : list (Row F)) : list (DayOut F) :=
  map (fun day_group =>
    let day_df := snd day_group in
    let trips :=
      map (fun trip_group =>
        let trip_df := snd trip_group in
        let points :=
          map (fun row =>
                 mkPointOut (latitude (point row)) (longitude (point row))
                   (popup_info (point row))
                   (Calendar.strftime_HMS (datetime (point row)))
                   (Calendar.isoformat (datetime (point row))))
              trip_df in
        let start_time := series_min (map (fun r => datetime (point r)) trip_df) in
        let end_time := series_max (map (fun r => datetime (point r)) trip_df) in
        let distance_km := calculate_distance_for_df trip_df in
        let point_count := List.length trip_df in
        let duration_str := duration_string start_time end_time in
        let time_groups := time_groups_loop end_time start_time 0 in
        mkTripOut (fst trip_group) points time_groups
          (Calendar.strftime_Ymd_HMS start_time)
          (Calendar.strftime_Ymd_HMS end_time)
          (Calendar.strftime_HMS start_time)
          (Calendar.strftime_HMS end_time)
          (mean (map (fun r => latitude (point r)) trip_df),
           mean (map (fun r => longitude (point r)) trip_df))
          point_count duration_str
          (format_2f distance_km ++ " km"))
        (groupby trip_id day_df) in
    mkDayOut (fst day_group) trips)
    (groupby (fun r => day_id (point r)) df).

(** *** [generate_standalone_html] (the hierarchy it embeds) *)

Definition standalone_trip (trip_id : Z) (trip_df : list (Row F)) : TripOut F :=
  let points :=
    map (fun row =>
           {| po_lat := latitude (point row);
              po_lon := longitude (point row);
              po_popup := popup_info (point row);
              po_time := Calendar.strftime_HMS (datetime (point row));
              po_datetime := Calendar.isoformat (datetime (point row)) |})
        trip_df in
  let start_time := series_min (map (fun r => datetime (point r)) trip_df) in
  let end_time := series_max (map (fun r => datetime (point r)) trip_df) in
  let distance_km := calculate_distance_for_df trip_df in
  let point_count := List.length trip_df in
  let duration_str := duration_string start_time end_time in
  let time_groups := time_groups_loop end_time start_time 0 in
  {| t_id := trip_id;
     t_points := points;
     t_time_groups := time_groups;
     t_start_time_full := Calendar.strftime_Ymd_HMS start_time;
     t_end_time_full := Calendar.strftime_Ymd_HMS end_time;
     t_start_time := Calendar.strftime_HMS start_time;
     t_end_time := Calendar.strftime_HMS end_time;
     t_center := (mean (map (fun r => latitude (point r)) trip_df),
                  mean (map (fun r => longitude (point r)) trip_df));
     t_point_count := point_count;
     t_duration_str := duration_str;
     t_distance_km_str := format_2f distance_km ++ " km" |}.

Fixpoint standalone_trips (groups : list (Z * list (Row F))) : list (TripOut F) :=
  match groups with
  | [] => []
  | (trip_id, trip_df) :: rest => standalone_trip trip_id trip_df :: standalone_trips rest
  end.

Fixpoint standalone_days (groups : list (string * list (Row F))) : list (DayOut F) :=
  match groups with
  | [] => []
  | (day_id, day_df) :: rest =>
      {| d_day_id := day_id; d_trips := standalone_trips (groupby trip_id day_df) |}
      :: standalone_days rest
  end.

Definition generate_standalone_html (df : list (Row F)) : list (DayOut F) :=
  standalone_days (groupby (fun r => day_id (point r)) df).

(** *** [run_analysis] *)

(** The files on disk, and the [day_id] of a path: its base name without
    extension, as ["DD/MM/YYYY"] when it reads as a [%Y%m%d] date. *)
Variable fs : string -> file.
Variable day_id_of_path : string -> string.

(** The loop over [file_paths], which fills [all_dfs].  An exception of
    [read_and_parse_data] leaves the loop. *)
Fixpoint load_files (file_paths : list string) : result (list (list TaggedRecord)) :=
  match file_paths with
  | [] => Ok []
  | file_path :: rest =>
      let day_id_formatted := day_id_of_path file_path in
      df <- read_and_parse_data (fs file_path) ;;
      let loaded :=
        match df with
        | [] => []
        | _ => [map (fun r => mkTagged r day_id_formatted) df]
        end in
      others <- load_files rest ;;
      Ok (loaded ++ others)%list
  end.

(** The body of the [try], up to the page it writes: the loop, the merge,
    the conversions and the hierarchy.  The lines printed after the page,
    with the total distance, are left out, and so is a [ValueError] of
    [math] in a distance (see [haversine]). *)
Definition run_analysis_body (file_paths : list string) : result (list (DayOut F)) :=
  all_dfs <- load_files file_paths ;;
  match all_dfs with
  | [] => Err NoValidDataInSelectedFiles
  | _ =>
      let df := List.concat all_dfs in
      rows <- clean_and_transform_data true df ;;
      Ok (generate_standalone_html rows)
  end.

Definition run_analysis (file_paths : list string) : outcome F :=
  match file_paths with
  | [] => Cancelled
  | _ =>
      match run_analysis_body file_paths with
      | Ok days => Completed days
      | Err e => Failed e
      end
  end.

End Pipeline.


(* ------------------------------------------------------------------ *)
(** ** Two argsorts

    Both sort the pairs (key, position) by insertion; they differ on equal
    keys only.  [stable_argsort] is [kind='stable']; the other one is as
    good an argsort for [sort_values] and puts equal keys in reverse. *)

Fixpoint insert_by (leb : Z * nat -> Z * nat -> bool) (x : Z * nat)
  (l : list (Z * nat)) : list (Z * nat) :=
  match l with
  | [] => [x]
  | y :: r => if leb x y then x :: l else y :: insert_by leb x r
  end.

Definition isort_by (leb : Z * nat -> Z * nat -> bool) (l : list (Z * nat))
  : list (Z * nat) :=
  fold_right (insert_by leb) [] l.

Definition argsort_by (leb : Z * nat -> Z * nat -> bool) (keys : list Z) : list nat :=
  map snd (isort_by leb (combine keys (seq 0 (List.length keys)))).

Definition stable_leb (a b : Z * nat) : bool :=
  (fst a <? fst b) || ((fst a =? fst b) && (snd a <=? snd b)%nat).

Definition reversing_leb (a b : Z * nat) : bool :=
  (fst a <? fst b) || ((fst a =? fst b) && (snd b <=? snd a)%nat).

Definition stable_argsort : list Z -> list nat := argsort_by stable_leb.

Definition tie_reversing_argsort : list Z -> list nat := argsort_by reversing_leb.

(* ------------------------------------------------------------------ *)
(** ** A library on rationals, to run the pipeline on examples

    Text conversions are exact: a decimal is the rational it writes.
    Rationals have no transcendental functions; this instance takes the
    first terms of their series, to eighteen decimals, which is accurate
    for points that are close.  The theorems below hold for every library;
    this one provides the concrete runs. *)

Module Rational.

Definition digit_val (c : ascii) : option Z :=
  if Text.is_digit c then Some (Z.of_nat (nat_of_ascii c) - 48) else None.

Fixpoint digits_val (acc : Z) (s : string) : option Z :=
  match s with
  | EmptyString => Some acc
  | String c r =>
      match digit_val c with
      | Some d => digits_val (10 * acc + d) r
      | None => None
      end
  end.

Definition number (s : string) : option Z :=
  match s with
  | EmptyString => None
  | _ => digits_val 0 s
  end.

(** Fourteen digits read as year, month, day, hour, minute, second. *)
Definition parse_datetime (s : string) : option Z :=
  if (String.length s =? 14)%nat then
    match number (substring 0 4 s), number (substring 4 2 s),
          number (substring 6 2 s), number (substring 8 2 s),
          number (substring 10 2 s), number (substring 12 2 s) with
    | Some y, Some m, Some d, Some hh, Some mm, Some ss =>
        if (1 <=? y) && (1 <=? m) && (m <=? 12) && (1 <=? d)
           && (d <=? Calendar.days_in_month y m)
           && (hh <=? 23) && (mm <=? 59) && (ss <=? 59)
        then Some (Calendar.days_from_civil y m d * 86400 + hh * 3600 + mm * 60 + ss)
        else None
    | _, _, _, _, _, _ => None
    end
  else None.

Fixpoint split_dot (s : string) : string * option string :=
  match s with
  | EmptyString => (EmptyString, None)
  | String c r =>
      if Ascii.eqb c "." then (EmptyString, Some r)
      else let '(a, b) := split_dot r in (String c a, b)
  end.

Definition unsigned_decimal (s : string) : option Q :=
  let '(ip, fp) := split_dot s in
  match number ip, fp with
  | Some i, None => Some (inject_Z i)
  | Some i, Some f =>
      match digits_val 0 f with
      | Some fv =>
          let scale := Pos.pow 10 (Pos.of_nat (String.length f)) in
          match f with
          | EmptyString => Some (inject_Z i)
          | _ => Some (Qmake (i * Zpos scale + fv) scale)
          end
      | None => None
      end
  | None, _ => None
  end.

(** A plain signed decimal. *)
Definition parse_decimal (s : string) : option Q :=
  match s with
  | String "-" r => option_map Qopp (unsigned_decimal r)
  | String "+" r => unsigned_decimal r
  | _ => unsigned_decimal s
  end.

(** [x] times [10^n], rounded to the nearest integer, ties to even. *)
Definition scaled_round (n : nat) (x : Q) : Z :=
  let num := Qnum x * 10 ^ Z.of_nat n in
  let den := Zpos (Qden x) in
  let q := num / den in
  let r2 := 2 * (num mod den) in
  if r2 <? den then q
  else if den <? r2 then q + 1
  else if Z.even q then q else q + 1.

Fixpoint pad_left (n : nat) (s : string) : string :=
  if (n <=? String.length s)%nat then s
  else match n with
       | O => s
       | S n' => "0" ++ pad_left n' s
       end.

Fixpoint strip_zeros (s : string) : string :=
  match s with
  | EmptyString => EmptyString
  | String c r =>
      match strip_zeros r with
      | EmptyString => if Ascii.eqb c "0" then EmptyString else String c EmptyString
      | r' => String c r'
      end
  end.

Definition fixed (n : nat) (x : Q) : string * string * string :=
  let v := scaled_round n x in
  let a := Z.abs v in
  ((if v <? 0 then "-" else ""),
   Calendar.string_of_Z (a / 10 ^ Z.of_nat n),
   match n with
   | O => ""
   | _ => pad_left n (Calendar.string_of_Z (a mod 10 ^ Z.of_nat n))
   end).

Definition render_round (n : nat) (x : Q) : string :=
  let '(sign, ip, fp) := fixed n x in
  sign ++ ip ++ "." ++ match strip_zeros fp with
                       | EmptyString => "0"
                       | f => f
                       end.

Definition render_2f (x : Q) : string :=
  let '(sign, ip, fp) := fixed 2 x in
  sign ++ ip ++ "." ++ fp.

Definition average (l : list Q) : Q :=
  match l with
  | [] => 0%Q
  | _ => Qred (fold_left Qplus l 0%Q / inject_Z (Z.of_nat (List.length l)))
  end.

(** Eighteen decimals are kept. *)
Definition precision : positive := 1000000000000000000.

Definition approx (x : Q) : Q :=
  Qred (Qmake (Qfloor (x * inject_Z (Zpos precision))) precision).

Definition pi : Q := Qmake 3141592653589793238 precision.

Definition to_radians (x : Q) : Q := approx (x * pi / 180).
Definition sin5 (x : Q) : Q := approx (x - x * x * x / 6 + x * x * x * x * x / 120).
Definition cos4 (x : Q) : Q := approx (1 - x * x / 2 + x * x * x * x / 24).
Definition asin3 (x : Q) : Q := approx (x + x * x * x / 6).

Definition sqrt18 (x : Q) : Q :=
  Qred (Qmake (Z.sqrt (Qfloor (x * inject_Z (Zpos (precision * precision))))) precision).

#[export] Instance lib : PandasNum := {|
  F := Q;
  to_datetime := parse_datetime;
  to_numeric := parse_decimal;
  neg := Qopp;
  round_str := render_round;
  is_nan := fun _ => false;
  mean := average;
  of_int := inject_Z;
  fadd := fun a b => Qred (a + b);
  fsub := fun a b => Qred (a - b);
  fmul := fun a b => Qred (a * b);
  fdiv := fun a b => Qred (a / b);
  radians := to_radians;
  fsin := sin5;
  fcos := cos4;
  fasin := asin3;
  fsqrt := sqrt18;
  format_2f := render_2f
|}.

(** [os.path.basename] then [os.path.splitext(...)[0]], on POSIX paths. *)
Fixpoint basename (s : string) : string :=
  match s with
  | EmptyString => EmptyString
  | String c r =>
      if existsb (Ascii.eqb "/") (list_ascii_of_string r) then basename r
      else if Ascii.eqb c "/" then r else s
  end.

Fixpoint drop_ext (s : string) : string :=
  match s with
  | EmptyString => EmptyString
  | String c r =>
      if Ascii.eqb c "." && negb (existsb (Ascii.eqb ".") (list_ascii_of_string r))
      then EmptyString
      else String c (drop_ext r)
  end.

Fixpoint skip_leading_dots (s : string) : string :=
  match s with
  | String "." r => String "." (skip_leading_dots r)
  | _ => drop_ext s
  end.

Definition stem (path : string) : string := skip_leading_dots (basename path).

(** The day id of a path whose stem is eight digits or is not a date. *)
Definition day_id_of_path (path : string) : string :=
  let s := stem path in
  match parse_datetime (s ++ "000000") with
  | Some t => Calendar.strftime_dmY t
  | None => s
  end.

(** A directory as a list of (path, lines). *)
Fixpoint disk (files : list (string * list string)) (path : string) : file :=
  match files with
  | [] => None
  | (p, lines) :: rest => if String.eqb p path then Some lines else disk rest path
  end.

End Rational.

(* ------------------------------------------------------------------ *)
(** ** Statements of the specification, as definitions *)

(** The time groups as the specification describes them: one group for
    each [k] from 0 with [start + 30 k] not after [end], carrying [k] and
    the time of day of [start + 30 k]. *)
Definition expected_time_groups (start_time end_time : Z) : list TimeGroup :=
  map (fun k => mkTimeGroup (Z.of_nat k)
                  (Calendar.strftime_HMS (start_time + 30 * Z.of_nat k)))
      (seq 0 (S (Z.to_nat ((end_time - start_time) / 30)))).

(** The distinct values of a column in the order they are first met. *)
Fixpoint first_encountered_from (seen : list string) (l : list string) : list string :=
  match l with
  | [] => []
  | x :: r =>
      if existsb (String.eqb x) seen then first_encountered_from seen r
      else x :: first_encountered_from (x :: seen) r
  end.

Definition first_encountered (l : list string) : list string :=
  first_encountered_from [] l.

(** The column of instants of a frame, and the ascending order of rows. *)
Definition instants {T : Type} (trip_df : list (Row T)) : list Z :=
  map (fun r => datetime (point r)) trip_df.

Definition instant_le {T : Type} (a b : Row T) : Prop :=
  datetime (point a) <= datetime (point b).

(** The rows of a day at an instant, in the order of the frame. *)
Definition at_day_and_instant {T : Type} (day : string) (t : Z)
  (pts : list (Point T)) : list (Point T) :=
  filter (fun p => String.eqb (day_id p) day && (datetime p =? t)) pts.

(** The sort keeps the order of equal instants: at every day and instant,
    the rows come out in the order they came in. *)
Definition keeps_order_of_equal_instants {L : PandasNum}
  (argsort : list Z -> list nat) : Prop :=
  forall (df : list TaggedRecord) (pts : list (Point F)) (rows : list (Row F)),
    normalize df = Ok pts ->
    clean_and_transform_data argsort true df = Ok rows ->
    forall day t,
      at_day_and_instant day t (map point rows) = at_day_and_instant day t pts.

(** Reading a magnitude and a hemisphere back from a signed coordinate
    takes the absolute value and the sign of a float. *)
Record SignOps (L : PandasNum) : Type := mkSignOps {
  fabs : F -> F;
  signbit : F -> bool
}.
Arguments fabs {L} s x.
Arguments signbit {L} s x.

(** What is used of them: a value whose sign is clear is its own magnitude
    and the magnitude of its opposite, and the opposite of such a value has
    its sign set, unless the value is its own opposite. *)
Definition sign_laws {L : PandasNum} (S : SignOps L) : Prop :=
  (forall x, signbit S x = false -> fabs S x = x)
  /\ (forall x, signbit S x = false -> fabs S (neg x) = x)
  /\ (forall x, signbit S x = false -> neg x <> x -> signbit S (neg x) = true).

(** A coordinate of a point, against the text and the flag it comes from:
    negated exactly when the flag is [flag]; and the magnitude and the
    hemisphere read back from it are those of the record. *)
Definition signed_by_flag {L : PandasNum} (S : SignOps L)
  (text indicator flag : string) (coordinate : F) : Prop :=
  exists magnitude : F,
    to_numeric text = Some magnitude
    /\ coordinate = (if String.eqb indicator flag then neg magnitude else magnitude)
    /\ (signbit S magnitude = false ->
        fabs S coordinate = magnitude
        /\ (neg magnitude <> magnitude ->
            signbit S coordinate = String.eqb indicator flag)).

Definition signed_by_flags {L : PandasNum} (S : SignOps L) (p : Point F) : Prop :=
  signed_by_flag S (lat (raw p)) (lat_indicator (raw p)) "S" (latitude p)
  /\ signed_by_flag S (lon (raw p)) (lon_indicator (raw p)) "W" (longitude p).

(** Every cell of a row converts. *)
Definition converts {L : PandasNum} (r : TaggedRecord) : Prop :=
  to_datetime (timestamp_str (raw_of r)) <> None
  /\ to_numeric (lat (raw_of r)) <> None
  /\ to_numeric (lon (raw_of r)) <> None
  /\ to_numeric (data_1 (raw_of r)) <> None
  /\ to_numeric (data_2 (raw_of r)) <> None.

(** What segmentation decides for each row: its day, its timestamp text,
    the gap attributed to it and its trip index. *)
Definition trip_table {T : Type} (rows : list (Row T))
  : list (string * string * Z * Z) :=
  map (fun r => (day_id (point r), timestamp_str (raw (point r)), time_diff r, trip_id r))
      rows.

(** The trip indices of each exported day. *)
Definition trip_ids_by_day {T : Type} (days : list (DayOut T)) : list (string * list Z) :=
  map (fun d => (d_day_id d, map t_id (d_trips d))) days.

(** The membership of the trips: which record is in which trip of which
    day. *)
Definition membership {T : Type} (rows : list (Row T))
  : list (RawRecord * string * Z) :=
  map (fun r => (raw (point r), day_id (point r), trip_id r)) rows.

(** The gaps between consecutive rows of a trip. *)
Fixpoint gaps (ts : list Z) : list Z :=
  match ts with
  | a :: (b :: _) as rest => (b - a) :: gaps rest
  | _ => []
  end.

(** For each day and each of its trips, the gaps between consecutive rows
    of the trip. *)
Definition gaps_by_trip {T : Type} (rows : list (Row T))
  : list (string * list (Z * list Z)) :=
  map (fun day_group =>
         (fst day_group,
          map (fun trip_group => (fst trip_group, gaps (instants (snd trip_group))))
              (groupby trip_id (snd day_group))))
      (groupby (fun r => day_id (point r)) rows).

(** For each exported day and each of its trips, the times of its points. *)
Definition times_by_trip {T : Type} (days : list (DayOut T))
  : list (string * list (Z * list string)) :=
  map (fun d => (d_day_id d, map (fun t => (t_id t, map po_time (t_points t))) (d_trips d)))
      days.

(** A view of the frame [clean_and_transform_data] returns, and of the
    days a run exports. *)
Definition segmented {L : PandasNum} {A : Type} (argsort : list Z -> list nat)
  (df : list TaggedRecord) (view : list (Row F) -> A) : result A :=
  rows <- clean_and_transform_data argsort true df ;;
  Ok (view rows).

Definition exported {T A : Type} (o : outcome T) (view : list (DayOut T) -> A)
  : option A :=
  match o with
  | Completed days => Some (view days)
  | _ => None
  end.

(* ------------------------------------------------------------------ *)
(** ** Example inputs *)

Module Examples.

(** A source with no data line next to a source with one. *)
Definition disk_with_empty_source : string -> file :=
  Rational.disk
    [("notes.dat", ["# dashcam log"; ""]);
     ("20240101.dat", ["20240101080000,48.8566,N,2.3522,E,10.5,0.0"])].

(** The frame [run_analysis] hands to [clean_and_transform_data]. *)
Definition merged_frame (fs : string -> file) (file_paths : list string)
  : result (list TaggedRecord) :=
  all_dfs <- load_files fs Rational.day_id_of_path file_paths ;;
  Ok (List.concat all_dfs).

(** The 2nd of January and the 1st of February, selected in that order. *)
Definition jan_feb_disk : string -> file :=
  Rational.disk
    [("20240102.dat", ["20240102080000,48.8566,N,2.3522,E,10.5,0.0"]);
     ("20240201.dat", ["20240201080000,48.8570,N,2.3530,E,11.0,0.0"])].

Definition jan_feb_paths : list string := ["20240102.dat"; "20240201.dat"].

Definition jan_feb_merged : list TaggedRecord :=
  [mkTagged (mkRaw "20240102080000" "48.8566" "N" "2.3522" "E" "10.5" "0.0") "02/01/2024";
   mkTagged (mkRaw "20240201080000" "48.8570" "N" "2.3530" "E" "11.0" "0.0") "01/02/2024"].

(** Two lines of one file with the same timestamp. *)
Definition same_instant_merged : list TaggedRecord :=
  [mkTagged (mkRaw "20240101080000" "48.1" "N" "2.1" "E" "1.0" "0.0") "01/01/2024";
   mkTagged (mkRaw "20240101080000" "48.2" "N" "2.2" "E" "2.0" "0.0") "01/01/2024"].

(** Both hemispheres, and flags that are neither: lower case, empty. *)
Definition hemispheres_merged : list TaggedRecord :=
  [mkTagged (mkRaw "20240101080000" "48.8566" "N" "2.3522" "E" "10.5" "0.0") "01/01/2024";
   mkTagged (mkRaw "20240101080100" "33.8688" "S" "151.2093" "E" "1.0" "0.0") "01/01/2024";
   mkTagged (mkRaw "20240101080200" "40.7128" "N" "74.0060" "W" "2.0" "0.0") "01/01/2024";
   mkTagged (mkRaw "20240101080300" "34.6037" "s" "58.3816" "" "3.0" "0.0") "01/01/2024"].

(** Sign and absolute value of a rational. *)
Definition rational_signs : SignOps Rational.lib :=
  mkSignOps Rational.lib Qabs (fun x => Qnum x <? 0).

(** Two days, one line each, 24 hours apart. *)
Definition two_days_disk : string -> file :=
  Rational.disk
    [("20240101.dat", ["20240101080000,48.8566,N,2.3522,E,10.5,0.0"]);
     ("20240102.dat", ["20240102080000,48.8570,N,2.3530,E,11.0,0.0"])].

Definition two_days_paths : list string := ["20240101.dat"; "20240102.dat"].

Definition two_days_merged : list TaggedRecord :=
  [mkTagged (mkRaw "20240101080000" "48.8566" "N" "2.3522" "E" "10.5" "0.0") "01/01/2024";
   mkTagged (mkRaw "20240102080000" "48.8570" "N" "2.3530" "E" "11.0" "0.0") "02/01/2024"].

(** Two sources over the same hour: [front] at 08:00:00 and 08:41:40,
    [rear] at 08:16:40. *)
Definition overlap_disk : string -> file :=
  Rational.disk
    [("front.dat", ["20240101080000,48.8566,N,2.3522,E,10.5,0.0";
                    "20240101084140,48.8600,N,2.3600,E,10.5,0.0"]);
     ("rear.dat", ["20240101081640,48.8570,N,2.3530,E,11.0,0.0"])].

Definition overlap_paths : list string := ["front.dat"; "rear.dat"].

Definition overlap_merged : list TaggedRecord :=
  [mkTagged (mkRaw "20240101080000" "48.8566" "N" "2.3522" "E" "10.5" "0.0") "front";
   mkTagged (mkRaw "20240101084140" "48.8600" "N" "2.3600" "E" "10.5" "0.0") "front";
   mkTagged (mkRaw "20240101081640" "48.8570" "N" "2.3530" "E" "11.0" "0.0") "rear"].

(** Three points: [P] and [X] of day ["a"], [Y] of day ["b"], with [X] and
    [Y] at the same instant, 5000 seconds after [P]; and the two orders in
    which they are merged. *)
Definition point_P : TaggedRecord :=
  mkTagged (mkRaw "20240101080000" "48.8566" "N" "2.3522" "E" "10.5" "0.0") "a".
Definition point_X : TaggedRecord :=
  mkTagged (mkRaw "20240101092320" "48.8600" "N" "2.3600" "E" "10.5" "0.0") "a".
Definition point_Y : TaggedRecord :=
  mkTagged (mkRaw "20240101092320" "48.8570" "N" "2.3530" "E" "11.0" "0.0") "b".

Definition tie_disk : string -> file :=
  Rational.disk
    [("d1/a.dat", ["20240101080000,48.8566,N,2.3522,E,10.5,0.0"]);
     ("d2/a.dat", ["20240101092320,48.8600,N,2.3600,E,10.5,0.0"]);
     ("b.dat", ["20240101092320,48.8570,N,2.3530,E,11.0,0.0"])].

Definition tie_paths_1 : list string := ["d1/a.dat"; "d2/a.dat"; "b.dat"].
Definition tie_paths_2 : list string := ["d1/a.dat"; "b.dat"; "d2/a.dat"].

Definition tie_merged_1 : list TaggedRecord := [point_P; point_X; point_Y].
Definition tie_merged_2 : list TaggedRecord := [point_P; point_Y; point_X].

(** A segmented frame of one trip: two rows 100 seconds apart. *)
Definition short_trip_frame : list (Row Q) :=
  [mkRow (mkPoint (mkRaw "20240101080000" "48.8566" "N" "2.3522" "E" "10.5" "0.0")
            "01/01/2024" 1704096000 48.8566%Q 2.3522%Q 10.5%Q 0.0%Q "") 0 0;
   mkRow (mkPoint (mkRaw "20240101080140" "48.8570" "N" "2.3530" "E" "11.0" "0.0")
            "01/01/2024" 1704096100 48.8570%Q 2.3530%Q 11.0%Q 0.0%Q "") 100 0].

(** The two scenarios of the specification: a file [20240101.dat] of two
    lines, 2100 seconds apart, then 300 seconds apart. *)
Definition scenario_far_disk : string -> file :=
  Rational.disk
    [("20240101.dat", ["20240101080000,48.8566,N,2.3522,E,10.5,0.0";
                       "20240101083500,48.8570,N,2.3530,E,11.0,0.0"])].

Definition scenario_near_disk : string -> file :=
  Rational.disk
    [("20240101.dat", ["20240101080000,48.8566,N,2.3522,E,10.5,0.0";
                       "20240101080500,48.8570,N,2.3530,E,11.0,0.0"])].

End Examples.

(* ------------------------------------------------------------------ *)
(** ** Lines and records *)

(** [','.join(parts)] *)
Fixpoint join_comma (parts : list string) : string :=
  match parts with
  | [] => EmptyString
  | [a] => a
  | a :: rest => a ++ "," ++ join_comma rest
  end.

(** The seven columns of a row, as a list. *)
Definition fields (r : RawRecord) : list string :=
  [timestamp_str r; lat r; lat_indicator r; lon r; lon_indicator r; data_1 r; data_2 r].

(** The lines [read_and_parse_data] keeps: once stripped they start with a
    timestamp and have at least seven fields. *)
Definition is_kept_line (raw_line : string) : bool :=
  let line := Text.strip raw_line in
  Text.match_timestamp line && (7 <=? List.length (Text.split_comma line))%nat.

Definition all_digits (s : string) : bool :=
  forallb Text.is_digit (list_ascii_of_string s).

Definition has_comma (s : string) : bool :=
  existsb (Ascii.eqb ",") (list_ascii_of_string s).

(** ** Rows and legs of a distance *)

Section Legs.

Context {L : PandasNum}.

(** A row [dropna] keeps: neither coordinate is NaN. *)
Definition has_coordinates (r : Row F) : bool :=
  negb (is_nan (longitude (point r)) || is_nan (latitude (point r))).

(** The leg between two rows. *)
Definition leg (a b : Row F) : F :=
  haversine (longitude (point a)) (latitude (point a))
            (longitude (point b)) (latitude (point b)).

(** The legs summed over rows that all have coordinates. *)
Definition distance_over (kept : list (Row F)) : F :=
  match map (fun r => (longitude (point r), latitude (point r))) kept with
  | [] => of_int 0
  | first :: rest => sum_legs (of_int 0) first rest
  end.

End Legs.

(** ** The hierarchy, flattened *)

Section Flattened.

Context {L : PandasNum}.

(** The entry of [points] made of a row. *)
Definition exported_point (row : Row F) : PointOut F :=
  mkPointOut (latitude (point row)) (longitude (point row))
    (popup_info (point row))
    (Calendar.strftime_HMS (datetime (point row)))
    (Calendar.isoformat (datetime (point row))).

(** All the trips of the hierarchy, day after day, and all their points. *)
Definition all_trips (days : list (DayOut F)) : list (TripOut F) :=
  flat_map d_trips days.

Definition all_points (days : list (DayOut F)) : list (PointOut F) :=
  flat_map t_points (all_trips days).

End Flattened.

(** ** Sources that loaded *)

(** A source that loaded, as it stands in [all_dfs]: its rows, each with
    the [day_id] of the file. *)
Definition loaded_as (fs : string -> file) (day_id_of_path : string -> string)
  (file_path : string) (tagged : list TaggedRecord) : Prop :=
  exists df, read_and_parse_data (fs file_path) = Ok df
             /\ df <> []
             /\ tagged = map (fun r => mkTagged r (day_id_of_path file_path)) df.

(** ** The script of the page

    [generate_standalone_html] writes the hierarchy into the page as
    [window.trajectoryData], with a script that draws the trip the user
    selects and the points up to the time the slider is on. *)

Module Page.

Definition digit_of (c : ascii) : option Z :=
  if Text.is_digit c then Some (Z.of_nat (nat_of_ascii c) - 48) else None.

Definition two_digits (a b : ascii) : option Z :=
  match digit_of a, digit_of b with
  | Some x, Some y => Some (10 * x + y)
  | _, _ => None
  end.

(** [new Date(`1970-01-01T${time}Z`).getTime()]: the milliseconds from
    midnight to the time of day ["HH:MM:SS"]; NaN, here [None], when the
    string is not a time of day. *)
Definition get_time (time : string) : option Z :=
  match time with
  | String h1 (String h2 (String ":" (String m1 (String m2 (String ":"
      (String s1 (String s2 EmptyString))))))) =>
      match two_digits h1 h2, two_digits m1 m2, two_digits s1 s2 with
      | Some h, Some m, Some s =>
          if ((h <=? 23) && (m <=? 59) && (s <=? 59))
             || ((h =? 24) && (m =? 0) && (s =? 0))
          then Some (((h * 60 + m) * 60 + s) * 1000)
          else None
      | _, _, _ => None
      end
  | _ => None
  end.

(** [a <= b] on numbers: false when one of them is NaN. *)
Definition le_time (a b : option Z) : bool :=
  match a, b with
  | Some x, Some y => x <=? y
  | _, _ => false
  end.

(** [Math.abs(pointTime - targetTime)] *)
Definition abs_diff (a b : option Z) : option Z :=
  match a, b with
  | Some x, Some y => Some (Z.abs (x - y))
  | _, _ => None
  end.

(** [timeDiff < minTimeDiff], where [minTimeDiff] starts as [Infinity],
    here [None]. *)
Definition closer (timeDiff minTimeDiff : option Z) : bool :=
  match timeDiff, minTimeDiff with
  | None, _ => false
  | Some _, None => true
  | Some d, Some m => d <? m
  end.

Record Marker (T : Type) : Type := mkMarker {
  m_point : PointOut T;
  m_highlighted : bool
}.
Arguments mkMarker {T}.
Arguments m_point {T}.
Arguments m_highlighted {T}.

(** What [updateMapDisplay] leaves on the map and in [current-time]. *)
Record Display (T : Type) : Type := mkDisplay {
  currentMarkers : list (Marker T);
  currentPolyline : option (list (T * T));
  current_time : string
}.
Arguments mkDisplay {T}.
Arguments currentMarkers {T}.
Arguments currentPolyline {T}.
Arguments current_time {T}.

(** A call of the script returns early, throws a [TypeError], or draws. *)
Inductive update (T : Type) : Type :=
| Returned
| Thrown
| Drawn (d : Display T).
Arguments Returned {T}.
Arguments Thrown {T}.
Arguments Drawn {T}.

Section Script.

Context {T : Type}.

(** [window.trajectoryData.days] *)
Variable days : list (DayOut T).

(** [data.days.find(d => d.day_id === dayId)]; [currentDayId] and
    [currentTripId] are [null], here [None], until a trip is selected. *)
Definition find_day (dayId : option string) : option (DayOut T) :=
  find (fun d => match dayId with
                 | Some i => String.eqb (d_day_id d) i
                 | None => false
                 end) days.

Definition find_trip (dayData : DayOut T) (tripId : option Z) : option (TripOut T) :=
  find (fun t => match tripId with
                 | Some i => t_id t =? i
                 | None => false
                 end) (d_trips dayData).

(** The loop that looks for [closestPoint]. *)
Definition closest_point (targetTime : option Z) (visiblePoints : list (PointOut T))
  : option (PointOut T) :=
  fst (fold_left
         (fun state point =>
            let pointTime := get_time (po_time point) in
            let timeDiff := abs_diff pointTime targetTime in
            if closer timeDiff (snd state) then (Some point, timeDiff) else state)
         visiblePoints (None, None)).

Definition updateMapDisplay (currentDayId : option string) (currentTripId : option Z)
  (sliderValue : nat) : update T :=
  match find_day currentDayId with
  | None => Returned
  | Some dayData =>
      match find_trip dayData currentTripId with
      | None => Returned
      | Some tripData =>
          match nth_error (t_time_groups tripData) sliderValue with
          | None => Thrown
          | Some group =>
              let targetTimeStr := tg_time group in
              let targetTime := get_time targetTimeStr in
              let visiblePoints :=
                filter (fun p => le_time (get_time (po_time p)) targetTime)
                       (t_points tripData) in
              let closestPoint := closest_point targetTime visiblePoints in
              let greenPointsCoords := map (fun p => (po_lat p, po_lon p)) visiblePoints in
              let markers :=
                map (fun point =>
                       let isHighlighted :=
                         match closestPoint with
                         | Some c => String.eqb (po_datetime point) (po_datetime c)
                         | None => false
                         end in
                       mkMarker point isHighlighted)
                    visiblePoints in
              Drawn (mkDisplay markers
                       (if (1 <? List.length greenPointsCoords)%nat
                        then Some greenPointsCoords else None)
                       targetTimeStr)
          end
      end
  end.

(** [selectTrip(dayId, tripId)], as to the markers, the green line and
    [current-time]: it ends with [updateMapDisplay(0)].  The grey line
    through all the points of the trip and the slider it sets up are left
    out. *)
Definition selectTrip (dayId : string) (tripId : Z) : update T :=
  match find_day (Some dayId) with
  | None => Thrown
  | Some dayData =>
      match find_trip dayData (Some tripId) with
      | None => Returned
      | Some tripData => updateMapDisplay (Some dayId) (Some tripId) 0
      end
  end.

(** The [max] of the slider [updateSliderUI] makes for a trip. *)
Definition slider_max (tripData : TripOut T) : Z :=
  Z.of_nat (List.length (t_time_groups tripData)) - 1.

End Script.

End Page.

(** ** [add_timeslider] *)

(** An entry of [time_groups]: the rows of a window of 30 seconds. *)
Record SliderGroup (T : Type) : Type := mkSliderGroup {
  sg_index : Z;
  sg_time : Z;
  sg_time_str : string;
  sg_data : list (Row T)
}.
Arguments mkSliderGroup {T}.
Arguments sg_index {T}.
Arguments sg_time {T}.
Arguments sg_time_str {T}.
Arguments sg_data {T}.

(** The rows [df[(df['datetime'] >= current_time) & (df['datetime'] < next_time)]]. *)
Definition window {T : Type} (df : list (Row T)) (current_time next_time : Z)
  : list (Row T) :=
  filter (fun r => (current_time <=? datetime (point r))
                   && (datetime (point r) <? next_time)) df.

(** The loop [while current_time <= end_time]: an entry for each window
    that holds a row. *)
Equations? slider_groups_loop {T : Type} (df : list (Row T))
  (end_time current_time group_index : Z) : list (SliderGroup T)
  by wf (Z.to_nat (end_time - current_time + 1)) lt :=
  slider_groups_loop df end_time current_time group_index
    with Z_le_gt_dec current_time end_time := {
    | left _ with window df current_time (current_time + 30) := {
      | [] => slider_groups_loop df end_time (current_time + 30) group_index
      | r :: group_data =>
          mkSliderGroup group_index current_time
            (Calendar.strftime_HMS current_time) (r :: group_data)
          :: slider_groups_loop df end_time (current_time + 30) (group_index + 1)
      }
    | right _ => []
    }.
Proof. all: lia. Qed.

(** What [add_timeslider] keeps: the time groups, the rows of the start
    and end markers, and the [max] of the slider. *)
Record Slider (T : Type) : Type := mkSlider {
  time_groups : list (SliderGroup T);
  start_row : Row T;
  end_row : Row T;
  timeslider_max : Z
}.
Arguments mkSlider {T}.
Arguments time_groups {T}.
Arguments start_row {T}.
Arguments end_row {T}.
Arguments timeslider_max {T}.

(** On a frame without rows the start and end times are [NaT] and the
    function raises: [None]. *)
Definition add_timeslider {T : Type} (df : list (Row T)) : option (Slider T) :=
  match df with
  | [] => None
  | first :: rest =>
      let start_time := series_min (map (fun r => datetime (point r)) df) in
      let end_time := series_max (map (fun r => datetime (point r)) df) in
      let groups := slider_groups_loop df end_time start_time 0 in
      Some (mkSlider groups first (last rest first)
              (Z.of_nat (List.length groups) - 1))
  end.

(** ** The sort [sort_values] runs

    [sort_values('datetime')] hands the key column, an array of
    [datetime64], to [numpy.argsort] with [kind='quicksort'].  For this
    type numpy runs its introsort on an array of positions,
    [aquicksort_<datetime_tag>] of [npysort/quicksort.cpp]: a median of
    three and a partition while the range has more than 17 positions, an
    insertion sort on what is left, and a heap sort, [aheapsort_], once
    the depth limit is spent. *)

Module Numpy.

(** [tosort], the array of positions, read and written at a position. *)
Definition read (tosort : list nat) (p : Z) : nat := nth (Z.to_nat p) tosort 0%nat.

Fixpoint write_at (tosort : list nat) (i : nat) (x : nat) : list nat :=
  match tosort, i with
  | [], _ => []
  | _ :: rest, O => x :: rest
  | y :: rest, S i' => y :: write_at rest i' x
  end.

Definition write (tosort : list nat) (p : Z) (x : nat) : list nat :=
  if p <? 0 then tosort else write_at tosort (Z.to_nat p) x.

Definition INTP_SWAP (tosort : list nat) (p q : Z) : list nat :=
  let x := read tosort p in
  let y := read tosort q in
  write (write tosort p y) q x.

Definition SMALL_QUICKSORT : Z := 16.

(** [npy_get_msb] *)
Definition npy_get_msb (num : Z) : Z := Z.log2 num.

Section Sort.

(** The keys, none of them [NaT]. *)
Variable v : list Z.

Definition less (a b : Z) : bool := a <? b.

(** [v[*p]] *)
Definition key (tosort : list nat) (p : Z) : Z := nth (read tosort p) v 0.

(** [do ++pi; while (less(v[*pi], vp));] *)
Fixpoint scan_up (fuel : nat) (tosort : list nat) (vp : Z) (pi : Z) : Z :=
  let pi := pi + 1 in
  match fuel with
  | O => pi
  | S fuel' => if less (key tosort pi) vp then scan_up fuel' tosort vp pi else pi
  end.

(** [do --pj; while (less(vp, v[*pj]));] *)
Fixpoint scan_down (fuel : nat) (tosort : list nat) (vp : Z) (pj : Z) : Z :=
  let pj := pj - 1 in
  match fuel with
  | O => pj
  | S fuel' => if less vp (key tosort pj) then scan_down fuel' tosort vp pj else pj
  end.

(** The loop [for (;;)] of the partition. *)
Fixpoint partition_loop (fuel : nat) (tosort : list nat) (vp : Z) (pi pj : Z)
  : list nat * Z :=
  match fuel with
  | O => (tosort, pi)
  | S fuel' =>
      let pi := scan_up (List.length tosort) tosort vp pi in
      let pj := scan_down (List.length tosort) tosort vp pj in
      if pi >=? pj then (tosort, pi)
      else partition_loop fuel' (INTP_SWAP tosort pi pj) vp pi pj
  end.

(** One pass of [while ((pr - pl) > SMALL_QUICKSORT)], up to the pushes:
    the array and the place [pi] of the pivot. *)
Definition partition (tosort : list nat) (pl pr : Z) : list nat * Z :=
  let pm := pl + Z.shiftr (pr - pl) 1 in
  let tosort := if less (key tosort pm) (key tosort pl)
                then INTP_SWAP tosort pm pl else tosort in
  let tosort := if less (key tosort pr) (key tosort pm)
                then INTP_SWAP tosort pr pm else tosort in
  let tosort := if less (key tosort pm) (key tosort pl)
                then INTP_SWAP tosort pm pl else tosort in
  let vp := key tosort pm in
  let pi := pl in
  let pj := pr - 1 in
  let tosort := INTP_SWAP tosort pm pj in
  let '(tosort, pi) := partition_loop (List.length tosort) tosort vp pi pj in
  let pk := pr - 1 in
  (INTP_SWAP tosort pi pk, pi).

(** [while (pj > pl && less(vp, v[*pk])) { *pj-- = *pk--; }] *)
Fixpoint shift_right (fuel : nat) (tosort : list nat) (pl : Z) (vp : Z) (pj : Z)
  : list nat * Z :=
  match fuel with
  | O => (tosort, pj)
  | S fuel' =>
      let pk := pj - 1 in
      if (pj >? pl) && less vp (key tosort pk)
      then shift_right fuel' (write tosort pj (read tosort pk)) pl vp (pj - 1)
      else (tosort, pj)
  end.

(** The insertion sort: [for (pi = pl + 1; pi <= pr; ++pi)]. *)
Fixpoint insertion_loop (fuel : nat) (tosort : list nat) (pl pr pi : Z) : list nat :=
  match fuel with
  | O => tosort
  | S fuel' =>
      if pi <=? pr then
        let vi := read tosort pi in
        let vp := nth vi v 0 in
        let '(tosort, pj) := shift_right (List.length tosort) tosort pl vp pi in
        insertion_loop fuel' (write tosort pj vi) pl pr (pi + 1)
      else tosort
  end.

Definition insertion_sort (tosort : list nat) (pl pr : Z) : list nat :=
  insertion_loop (List.length tosort) tosort pl pr (pl + 1).

(** [aheapsort_]: the loop [for (i = ..., j = ...; j <= n;)] that sinks
    [tmp] from [i]; [a[k]] is the position [base + k] of the array. *)
Fixpoint sink (fuel : nat) (tosort : list nat) (base n : Z) (tmp : nat) (i j : Z)
  : list nat :=
  match fuel with
  | O => write tosort (base + i) tmp
  | S fuel' =>
      if j <=? n then
        let j := if (j <? n) && less (key tosort (base + j)) (key tosort (base + j + 1))
                 then j + 1 else j in
        if less (nth tmp v 0) (key tosort (base + j))
        then sink fuel' (write tosort (base + i) (read tosort (base + j)))
                  base n tmp j (j + j)
        else write tosort (base + i) tmp
      else write tosort (base + i) tmp
  end.

(** [for (l = n >> 1; l > 0; --l)] *)
Fixpoint heapify (fuel : nat) (tosort : list nat) (base n l : Z) : list nat :=
  match fuel with
  | O => tosort
  | S fuel' =>
      if l >? 0 then
        let tmp := read tosort (base + l) in
        heapify fuel' (sink (List.length tosort) tosort base n tmp l (Z.shiftl l 1))
                base n (l - 1)
      else tosort
  end.

(** [for (; n > 1;)] *)
Fixpoint drain (fuel : nat) (tosort : list nat) (base n : Z) : list nat :=
  match fuel with
  | O => tosort
  | S fuel' =>
      if n >? 1 then
        let tmp := read tosort (base + n) in
        let tosort := write tosort (base + n) (read tosort (base + 1)) in
        let n := n - 1 in
        drain fuel' (sink (List.length tosort) tosort base n tmp 1 2) base n
      else tosort
  end.

Definition aheapsort (tosort : list nat) (pl n : Z) : list nat :=
  let base := pl - 1 in
  let tosort := heapify (List.length tosort) tosort base n (Z.shiftr n 1) in
  drain (List.length tosort) tosort base n.

(** The loop [while ((pr - pl) > SMALL_QUICKSORT)]: it partitions, pushes
    the larger part with the depth left, and goes on with the smaller. *)
Fixpoint partition_while (fuel : nat) (tosort : list nat) (pl pr : Z)
  (stack : list (Z * Z * Z)) (cdepth : Z)
  : list nat * Z * Z * list (Z * Z * Z) * Z :=
  match fuel with
  | O => (tosort, pl, pr, stack, cdepth)
  | S fuel' =>
      if pr - pl >? SMALL_QUICKSORT then
        let '(tosort, pi) := partition tosort pl pr in
        if pi - pl <? pr - pi
        then partition_while fuel' tosort pl (pi - 1)
               ((pi + 1, pr, cdepth - 1) :: stack) (cdepth - 1)
        else partition_while fuel' tosort (pi + 1) pr
               ((pl, pi - 1, cdepth - 1) :: stack) (cdepth - 1)
      else (tosort, pl, pr, stack, cdepth)
  end.

(** The loop [while (1)], left at [stack_pop] when the stack is empty. *)
Fixpoint sort_loop (fuel : nat) (tosort : list nat) (pl pr : Z)
  (stack : list (Z * Z * Z)) (cdepth : Z) : list nat :=
  match fuel with
  | O => tosort
  | S fuel' =>
      let '(tosort, stack) :=
        if cdepth <? 0 then (aheapsort tosort pl (pr - pl + 1), stack)
        else
          let '(tosort, pl, pr, stack, _) :=
            partition_while (List.length tosort) tosort pl pr stack cdepth in
          (insertion_sort tosort pl pr, stack) in
      match stack with
      | [] => tosort
      | (pl, pr, cdepth) :: stack => sort_loop fuel' tosort pl pr stack cdepth
      end
  end.

End Sort.

(** [aquicksort_] on the positions [0 .. num - 1].  Each pass of a loop
    fixes a position or moves a bound, so [num + 1] passes are enough. *)
Definition aquicksort (v : list Z) : list nat :=
  let num := List.length v in
  sort_loop v (S num) (seq 0 num) 0 (Z.of_nat num - 1) []
            (npy_get_msb (Z.of_nat num) * 2).

(** [keys.argsort(kind='quicksort')] *)
Definition argsort (keys : list Z) : list nat := aquicksort keys.

End Numpy.

(** ** Eighteen lines at the same instant *)

Module Tied.

(** The latitudes of the lines, in the order of the file. *)
Definition lats : list string :=
  ["48.01"; "48.02"; "48.03"; "48.04"; "48.05"; "48.06";
   "48.07"; "48.08"; "48.09"; "48.10"; "48.11"; "48.12";
   "48.13"; "48.14"; "48.15"; "48.16"; "48.17"; "48.18"].

Definition line_of (lat : string) : string :=
  "20240101080000," ++ lat ++ ",N,2.3522,E,10.5,0.0".

(** A file [20240101.dat] of eighteen lines with the same timestamp. *)
Definition disk : string -> file :=
  Rational.disk [("20240101.dat", map line_of lats)].

Definition paths : list string := ["20240101.dat"].

Definition merged : list TaggedRecord :=
  map (fun lat => mkTagged (mkRaw "20240101080000" lat "N" "2.3522" "E" "10.5" "0.0")
                    "01/01/2024")
      lats.

(** The latitudes in the order in which numpy's quicksort leaves eighteen
    equal keys: the second to the sixteenth are reversed. *)
Definition lats_sorted : list string :=
  ["48.01"; "48.16"; "48.15"; "48.14"; "48.13"; "48.12";
   "48.11"; "48.10"; "48.09"; "48.08"; "48.07"; "48.06";
   "48.05"; "48.04"; "48.03"; "48.02"; "48.17"; "48.18"].

End Tied.

(** ** A line with a negative latitude *)

Module Negative.

(** A file whose line gives the latitude of Sydney with its sign, and the
    flag [S] as well. *)
Definition disk : string -> file :=
  Rational.disk
    [("20240101.dat", ["20240101080000,-33.8688,S,151.2093,E,1.0,0.0"])].

Definition paths : list string := ["20240101.dat"].

Definition merged : list TaggedRecord :=
  [mkTagged (mkRaw "20240101080000" "-33.8688" "S" "151.2093" "E" "1.0" "0.0")
     "01/01/2024"].

End Negative.

(** ** Lines of ASCII text *)

(** A line of characters below 128.  On such lines [str.strip()] removes
    the characters of [Text.is_space] and [\d] matches those of
    [Text.is_digit]; outside ASCII both have more. *)
Definition is_ascii_text (line : string) : bool :=
  forallb (fun c => (nat_of_ascii c <? 128)%nat) (list_ascii_of_string line).

Definition ascii_lines (lines : list string) : Prop :=
  Forall (fun line => is_ascii_text line = true) lines.

Definition ascii_file (f : file) : Prop :=
  match f with
  | Some lines => ascii_lines lines
  | None => True
  end.

(** ** Segmented frames of the examples *)

Module Segmented.

(** [Examples.tie_merged_2] once segmented, with the stable argsort: [P],
    then [Y] of the other day, then [X]. *)
Definition row_P : Row Q :=
  mkRow (mkPoint (mkRaw "20240101080000" "48.8566" "N" "2.3522" "E" "10.5" "0.0")
           "a" 1704096000 48.8566%Q 2.3522%Q 10.5%Q 0.0%Q
           "<b>Horodatage:</b> 01/01/2024 08:00:00<br><b>Latitude:</b> 48.8566°<br><b>Longitude:</b> 2.3522°<br><b>Donnée 1:</b> 10.5<br><b>Donnée 2:</b> 0.0")
        0 0.

Definition row_Y : Row Q :=
  mkRow (mkPoint (mkRaw "20240101092320" "48.8570" "N" "2.3530" "E" "11.0" "0.0")
           "b" 1704101000 48.8570%Q 2.3530%Q 11.0%Q 0.0%Q
           "<b>Horodatage:</b> 01/01/2024 09:23:20<br><b>Latitude:</b> 48.857°<br><b>Longitude:</b> 2.353°<br><b>Donnée 1:</b> 11.0<br><b>Donnée 2:</b> 0.0")
        5000 1.

Definition row_X : Row Q :=
  mkRow (mkPoint (mkRaw "20240101092320" "48.8600" "N" "2.3600" "E" "10.5" "0.0")
           "a" 1704101000 48.8600%Q 2.3600%Q 10.5%Q 0.0%Q
           "<b>Horodatage:</b> 01/01/2024 09:23:20<br><b>Latitude:</b> 48.86°<br><b>Longitude:</b> 2.36°<br><b>Donnée 1:</b> 10.5<br><b>Donnée 2:</b> 0.0")
        0 0.

Definition tie_rows : list (Row Q) := [row_P; row_Y; row_X].

(** The same frame when [day_id] is not a column: one trip index for the
    whole frame. *)
Definition row_Y_whole : Row Q :=
  mkRow (point row_Y) 5000 1.

Definition row_X_whole : Row Q :=
  mkRow (point row_X) 0 1.

Definition tie_rows_whole : list (Row Q) := [row_P; row_Y_whole; row_X_whole].

(** The file of [Examples.scenario_far_disk], merged and segmented: two
    rows of one day, 2100 seconds apart. *)
Definition far_merged : list TaggedRecord :=
  [mkTagged (mkRaw "20240101080000" "48.8566" "N" "2.3522" "E" "10.5" "0.0") "01/01/2024";
   mkTagged (mkRaw "20240101083500" "48.8570" "N" "2.3530" "E" "11.0" "0.0") "01/01/2024"].

Definition far_row_0 : Row Q :=
  mkRow (mkPoint (mkRaw "20240101080000" "48.8566" "N" "2.3522" "E" "10.5" "0.0")
           "01/01/2024" 1704096000 48.8566%Q 2.3522%Q 10.5%Q 0.0%Q
           "<b>Horodatage:</b> 01/01/2024 08:00:00<br><b>Latitude:</b> 48.8566°<br><b>Longitude:</b> 2.3522°<br><b>Donnée 1:</b> 10.5<br><b>Donnée 2:</b> 0.0")
        0 0.

Definition far_row_1 : Row Q :=
  mkRow (mkPoint (mkRaw "20240101083500" "48.8570" "N" "2.3530" "E" "11.0" "0.0")
           "01/01/2024" 1704098100 48.8570%Q 2.3530%Q 11.0%Q 0.0%Q
           "<b>Horodatage:</b> 01/01/2024 08:35:00<br><b>Latitude:</b> 48.857°<br><b>Longitude:</b> 2.353°<br><b>Donnée 1:</b> 11.0<br><b>Donnée 2:</b> 0.0")
        2100 1.

Definition far_rows : list (Row Q) := [far_row_0; far_row_1].

End Segmented.

(* ================================================================== *)
(** * Properties *)

(* ------------------------------------------------------------------ *)
(** ** The result monad *)

Lemma bind_Ok_inv {A B : Type} (r : result A) (k : A -> result B) (b : B) :
  bind r k = Ok b -> exists a, r = Ok a /\ k a = Ok b.
Proof.
  destruct r as [a|e]; simpl; intros H.
  - exists a. split; [reflexivity | exact H].
  - discriminate H.
Qed.

Lemma mapM_Ok_Forall2 {A B : Type} (f : A -> result B) (l : list A) (bs : list B) :
  mapM f l = Ok bs -> Forall2 (fun a b => f a = Ok b) l bs.
Proof.
  revert bs. induction l as [|a l IH]; simpl; intros bs H.
  - inversion H. constructor.
  - apply bind_Ok_inv in H. destruct H as [b [Hb H]].
    apply bind_Ok_inv in H. destruct H as [bs' [Hbs H]].
    inversion H; subst. constructor; [exact Hb | apply IH; exact Hbs].
Qed.

Lemma mapM_Ok_of_Forall {A B : Type} (f : A -> result B) (l : list A) :
  Forall (fun a => exists b, f a = Ok b) l -> exists bs, mapM f l = Ok bs.
Proof.
  induction 1 as [|a l [b Hb] _ [bs Hbs]]; simpl.
  - exists []. reflexivity.
  - exists (b :: bs). rewrite Hb. simpl. rewrite Hbs. reflexivity.
Qed.

Lemma mapM_Err_inv {A B : Type} (f : A -> result B) (l : list A) (e : error) :
  mapM f l = Err e -> exists a, In a l /\ f a = Err e.
Proof.
  induction l as [|a l IH]; simpl; intros H; [discriminate|].
  destruct (f a) as [b|e1] eqn:Ha; simpl in H.
  - destruct (mapM f l) as [bs|e2]; simpl in H; [discriminate|].
    inversion H; subst. destruct (IH eq_refl) as [a' [Hin Ha']].
    exists a'. split; [right; exact Hin | exact Ha'].
  - inversion H; subst. exists a. split; [left; reflexivity | exact Ha].
Qed.

(* ------------------------------------------------------------------ *)
(** ** [read_and_parse_data] *)

Lemma collect_data_lines_width (lines : list string) :
  Forall (fun parts => (7 <= List.length parts)%nat) (collect_data_lines lines).
Proof.
  induction lines as [|raw rest IH]; [constructor|].
  cbn -[Nat.leb Text.strip Text.match_timestamp Text.split_comma Text.startswith_hash].
  destruct (Text.strip raw) as [|c s] eqn:Hs; [exact IH|].
  destruct (Text.startswith_hash (String c s)); [exact IH|].
  destruct (Text.match_timestamp (String c s)); [|exact IH].
  destruct (7 <=? List.length (Text.split_comma (String c s)))%nat eqn:Hw; [|exact IH].
  constructor; [|exact IH]. apply Nat.leb_le. exact Hw.
Qed.

Lemma list_max_ge (l : list nat) (n : nat) : In n l -> (n <= list_max l)%nat.
Proof.
  induction l as [|m l IH]; simpl; intros H; [contradiction|].
  destruct H as [->|H]; [lia|]. specialize (IH H). lia.
Qed.

(** A kept line with more than seven fields makes the construction of the
    frame raise. *)
Lemma wide_row_raises (lines : list string) (parts : list string) :
  In parts (collect_data_lines lines) ->
  (7 < List.length parts)%nat ->
  exists w, (7 < w)%nat /\ read_and_parse_data (Some lines) = Err (ColumnsMismatch 7 w).
Proof.
  intros Hin Hlen. unfold read_and_parse_data.
  destruct (collect_data_lines lines) as [|p ps] eqn:Hc; [contradiction|].
  unfold DataFrame.
  set (w := list_max (map (@List.length string) (p :: ps))).
  assert (Hw : (7 < w)%nat).
  { assert (H := list_max_ge (map (@List.length string) (p :: ps)) (List.length parts)
                   (in_map _ _ _ Hin)).
    fold w in H. lia. }
  exists w. split; [exact Hw|].
  destruct (w =? 7)%nat eqn:E; [apply Nat.eqb_eq in E; lia | reflexivity].
Qed.

Lemma rows_of_parts_length (data : list (list string)) (rs : list RawRecord) :
  rows_of_parts data = Some rs -> List.length rs = List.length data.
Proof.
  revert rs. induction data as [|p data IH]; simpl; intros rs H.
  - inversion H. reflexivity.
  - destruct (row_of_parts p); [|discriminate].
    destruct (rows_of_parts data) as [rs'|]; [|discriminate].
    inversion H; subst. simpl. f_equal. apply IH. reflexivity.
Qed.

(** [read_and_parse_data] never returns an empty frame. *)
Lemma read_and_parse_data_nonempty (f : file) (df : list RawRecord) :
  read_and_parse_data f = Ok df -> df <> [].
Proof.
  unfold read_and_parse_data. destruct f as [lines|]; [|discriminate].
  destruct (collect_data_lines lines) as [|p ps]; [discriminate|].
  unfold DataFrame.
  destruct (_ =? 7)%nat; [|discriminate].
  destruct (rows_of_parts (p :: ps)) as [rs|] eqn:Hr; simpl; [|discriminate].
  intros H. inversion H; subst. apply rows_of_parts_length in Hr.
  destruct df; [discriminate Hr | discriminate].
Qed.

(** C3 (as the code behaves).  A source whose only data line has an eighth
    field: the line passes both tests, all eight fields are kept in
    [data_lines], and the construction of the seven-column frame raises;
    the source does not load. *)
Theorem C3_line_with_extra_field_does_not_load :
  let line := "20240101080000,48.8566,N,2.3522,E,10.5,0.0,extra" in
  Text.match_timestamp line = true
  /\ collect_data_lines [line]
     = [["20240101080000"; "48.8566"; "N"; "2.3522"; "E"; "10.5"; "0.0"; "extra"]]
  /\ read_and_parse_data (Some [line]) = Err (ColumnsMismatch 7 8)
  /\ read_and_parse_data (Some ["20240101080000,48.8566,N,2.3522,E,10.5,0.0"])
     = Ok [mkRaw "20240101080000" "48.8566" "N" "2.3522" "E" "10.5" "0.0"].
Proof. repeat split; reflexivity. Qed.

Example split_comma_of_a_line :
  Text.split_comma "20240101080000,48.8566,N,2.3522,E,10.5,0.0"
  = ["20240101080000"; "48.8566"; "N"; "2.3522"; "E"; "10.5"; "0.0"].
Proof. reflexivity. Qed.

(** A comment, a blank line, a line in spaces and a line that does not
    start with a timestamp. *)
Example read_skips_and_strips :
  read_and_parse_data
    (Some ["# header"; ""; "  20240101080000,48.8566,N,2.3522,E,10.5,0.0  "; "short,1,2"])
  = Ok [mkRaw "20240101080000" "48.8566" "N" "2.3522" "E" "10.5" "0.0"].
Proof. reflexivity. Qed.

(** A line of six fields is dropped and the file still loads. *)
Example read_drops_six_fields :
  read_and_parse_data
    (Some ["20240101075900,48.8566,N,2.3522,E,10.5";
           "20240101080000,48.8566,N,2.3522,E,10.5,0.0"])
  = Ok [mkRaw "20240101080000" "48.8566" "N" "2.3522" "E" "10.5" "0.0"].
Proof. reflexivity. Qed.

(** A file of comments and blank lines has no usable data. *)
Example read_only_comments :
  read_and_parse_data (Some ["# a"; "   "; "#b"]) = Err NoValidDataInFile.
Proof. reflexivity. Qed.

(* ------------------------------------------------------------------ *)
(** ** [run_analysis] and failing sources *)

Section RunAnalysis.

Context {L : PandasNum}.
Variable argsort : list Z -> list nat.
Variable fs : string -> file.
Variable day_id_of_path : string -> string.

Lemma load_files_nonempty (file_paths : list string) (all_dfs : list (list TaggedRecord)) :
  load_files fs day_id_of_path file_paths = Ok all_dfs ->
  file_paths <> [] -> all_dfs <> [].
Proof.
  destruct file_paths as [|p rest]; [congruence|]. simpl. intros H _.
  apply bind_Ok_inv in H. destruct H as [df [Hdf H]].
  apply bind_Ok_inv in H. destruct H as [others [_ H]].
  inversion H; subst. apply read_and_parse_data_nonempty in Hdf.
  destruct df; [congruence | discriminate].
Qed.

(** The first source that fails ends the loop with its own error. *)
Lemma load_files_first_failure (before : list string) (bad : string)
  (after : list string) (e : error) :
  Forall (fun p => exists df, read_and_parse_data (fs p) = Ok df) before ->
  read_and_parse_data (fs bad) = Err e ->
  load_files fs day_id_of_path (before ++ bad :: after) = Err e.
Proof.
  intros Hb Hbad. induction Hb as [|p before [df Hp] _ IH]; simpl.
  - rewrite Hbad. reflexivity.
  - rewrite Hp. simpl. rewrite IH. reflexivity.
Qed.

Lemma load_files_fails (file_paths : list string) (bad : string) (e : error) :
  In bad file_paths ->
  read_and_parse_data (fs bad) = Err e ->
  exists e', load_files fs day_id_of_path file_paths = Err e'.
Proof.
  intros Hin Hbad. induction file_paths as [|p paths IH]; [contradiction|].
  simpl. destruct (read_and_parse_data (fs p)) as [df|e1] eqn:Hp; simpl.
  - destruct Hin as [->|Hin]; [congruence|].
    destruct (IH Hin) as [e' He']. rewrite He'. exists e'. reflexivity.
  - exists e1. reflexivity.
Qed.

(** One failing source is enough for the run to fail, whatever the other
    sources hold. *)
Lemma run_analysis_fails_on_any_failing_source (file_paths : list string)
  (bad : string) (e : error) :
  In bad file_paths ->
  read_and_parse_data (fs bad) = Err e ->
  exists e', run_analysis argsort fs day_id_of_path file_paths = Failed e'.
Proof.
  intros Hin Hbad.
  destruct (load_files_fails _ _ _ Hin Hbad) as [e' He']. exists e'.
  unfold run_analysis, run_analysis_body.
  destruct file_paths; [contradiction|]. rewrite He'. reflexivity.
Qed.

Lemma convert_column_Err {A : Type} (name : string) (conv : string -> option A)
  (cell : RawRecord -> string) (df : list TaggedRecord) (e : error) :
  convert_column name conv cell df = Err e -> e = ConversionError name.
Proof.
  unfold convert_column. intros H. apply mapM_Err_inv in H.
  destruct H as [r [_ Hr]]. destruct (conv (cell (raw_of r))); simpl in Hr.
  - discriminate Hr.
  - inversion Hr. reflexivity.
Qed.

(** [clean_and_transform_data] only raises conversion errors. *)
Lemma clean_and_transform_data_Err (has_day_id : bool) (df : list TaggedRecord) (e : error) :
  clean_and_transform_data argsort has_day_id df = Err e ->
  exists name, e = ConversionError name.
Proof.
  unfold clean_and_transform_data, normalize. intros H.
  destruct (convert_column "timestamp_str" to_datetime timestamp_str df) eqn:E1; simpl in H;
    [| inversion H; subst; eexists; eapply convert_column_Err; exact E1 ].
  destruct (convert_column "lat" to_numeric lat df) eqn:E2; simpl in H;
    [| inversion H; subst; eexists; eapply convert_column_Err; exact E2 ].
  destruct (convert_column "lon" to_numeric lon df) eqn:E3; simpl in H;
    [| inversion H; subst; eexists; eapply convert_column_Err; exact E3 ].
  destruct (convert_column "data_1" to_numeric data_1 df) eqn:E4; simpl in H;
    [| inversion H; subst; eexists; eapply convert_column_Err; exact E4 ].
  destruct (convert_column "data_2" to_numeric data_2 df) eqn:E5; simpl in H;
    [| inversion H; subst; eexists; eapply convert_column_Err; exact E5 ].
  discriminate H.
Qed.

Lemma read_and_parse_data_Err (f : file) (e : error) :
  read_and_parse_data f = Err e -> e <> NoValidDataInSelectedFiles.
Proof.
  unfold read_and_parse_data. destruct f as [lines|]; [|intros H; inversion H; discriminate].
  destruct (collect_data_lines lines); [intros H; inversion H; discriminate|].
  unfold DataFrame. destruct (_ =? 7)%nat; [|intros H; inversion H; discriminate].
  destruct (rows_of_parts _); simpl; intros H; inversion H; discriminate.
Qed.

Lemma load_files_Err (file_paths : list string) (e : error) :
  load_files fs day_id_of_path file_paths = Err e -> e <> NoValidDataInSelectedFiles.
Proof.
  induction file_paths as [|q paths IH]; simpl; [discriminate|].
  destruct (read_and_parse_data (fs q)) as [df|e1] eqn:Hq; simpl.
  - destruct (load_files fs day_id_of_path paths); simpl; [discriminate|].
    intros H; inversion H; subst. apply IH. reflexivity.
  - intros H; inversion H; subst. eapply read_and_parse_data_Err. exact Hq.
Qed.

(** The aggregate error of [run_analysis] is never the outcome: a source
    that loads is never empty, and one that does not load has already
    ended the run. *)
Lemma run_analysis_never_aggregate_error (file_paths : list string) :
  run_analysis argsort fs day_id_of_path file_paths <> Failed NoValidDataInSelectedFiles.
Proof.
  unfold run_analysis. destruct file_paths as [|p rest]; [discriminate|].
  unfold run_analysis_body.
  destruct (load_files fs day_id_of_path (p :: rest)) as [all_dfs|e] eqn:Hl.
  - pose proof (load_files_nonempty _ _ Hl ltac:(discriminate)) as Hne.
    cbn [bind]. destruct all_dfs as [|d ds]; [congruence|].
    destruct (clean_and_transform_data argsort true (List.concat (d :: ds))) as [rows|e] eqn:Hc;
      cbn [bind]; [discriminate|].
    apply clean_and_transform_data_Err in Hc. destruct Hc as [name ->]. discriminate.
  - cbn [bind]. intros H. inversion H; subst. eapply load_files_Err; [exact Hl | reflexivity].
Qed.

End RunAnalysis.

(** C4 (as the code behaves).  Two sources are selected; one has no data
    line (or cannot be read), the other has a valid line.  Whatever the
    order, the run fails, with the error of the failing source and not the
    aggregate one. *)
Theorem C4_one_source_without_data_aborts_the_batch :
  forall (L : PandasNum) (argsort : list Z -> list nat) (day_id_of_path : string -> string),
    read_and_parse_data (Examples.disk_with_empty_source "20240101.dat")
    = Ok [mkRaw "20240101080000" "48.8566" "N" "2.3522" "E" "10.5" "0.0"]
    /\ run_analysis argsort Examples.disk_with_empty_source day_id_of_path
         ["notes.dat"; "20240101.dat"] = Failed NoValidDataInFile
    /\ run_analysis argsort Examples.disk_with_empty_source day_id_of_path
         ["20240101.dat"; "notes.dat"] = Failed NoValidDataInFile
    /\ run_analysis argsort Examples.disk_with_empty_source day_id_of_path
         ["20240101.dat"; "missing.dat"] = Failed ReadError.
Proof. intros. repeat split; reflexivity. Qed.

(* ------------------------------------------------------------------ *)
(** ** The two exporters *)

Section Exporters.

Context {L : PandasNum}.

Lemma standalone_trips_map (groups : list (Z * list (Row F))) :
  standalone_trips groups = map (fun g => standalone_trip (fst g) (snd g)) groups.
Proof.
  induction groups as [|[i d] groups IH]; simpl; [reflexivity|]. now rewrite IH.
Qed.

Lemma standalone_days_map (groups : list (string * list (Row F))) :
  standalone_days groups
  = map (fun g => mkDayOut (fst g) (standalone_trips (groupby trip_id (snd g)))) groups.
Proof.
  induction groups as [|[i d] groups IH]; simpl; [reflexivity|]. now rewrite IH.
Qed.

Lemma generate_standalone_html_map (df : list (Row F)) :
  generate_standalone_html df
  = map (fun g => mkDayOut (fst g)
                    (map (fun t => standalone_trip (fst t) (snd t))
                         (groupby trip_id (snd g))))
        (groupby (fun r => day_id (point r)) df).
Proof.
  unfold generate_standalone_html. rewrite standalone_days_map.
  apply map_ext. intros g. now rewrite standalone_trips_map.
Qed.

End Exporters.

(* ------------------------------------------------------------------ *)
(** ** Group keys and [groupby] *)

Class OrdKeyLaws (K : Type) `{OrdKey K} : Prop := {
  cmp_eq_iff : forall a b : K, cmp a b = Eq <-> a = b;
  cmp_antisym : forall a b : K, cmp b a = CompOpp (cmp a b);
  cmp_lt_trans : forall a b c : K, cmp a b = Lt -> cmp b c = Lt -> cmp a c = Lt
}.

#[export] Instance OrdKeyLaws_Z : OrdKeyLaws Z.
Proof.
  split; simpl.
  - intros a b. apply Z.compare_eq_iff.
  - intros a b. apply Z.compare_antisym.
  - intros a b c Hab Hbc. rewrite Z.compare_lt_iff in *. lia.
Qed.

#[export] Instance OrdKeyLaws_string : OrdKeyLaws string.
Proof.
  split; simpl.
  - intros a b. split.
    + apply String.compare_eq_iff.
    + intros ->. pose proof (String.compare_antisym b b) as H.
      destruct (String.compare b b); simpl in H; congruence.
  - intros a b. apply String.compare_antisym.
  - intros a b c Hab Hbc.
    apply String_as_OT.cmp_lt. apply String_as_OT.cmp_lt in Hab, Hbc.
    eapply String_as_OT.lt_trans; eassumption.
Qed.

Section GroupBy.

Context {K : Type} `{OrdKeyLaws K}.

Definition key_lt (a b : K) : Prop := cmp a b = Lt.

Lemma key_eqb_eq (a b : K) : key_eqb a b = true <-> a = b.
Proof.
  unfold key_eqb. rewrite <- cmp_eq_iff. destruct (cmp a b); split; congruence.
Qed.

Lemma In_insert_key (x k : K) (ks : list K) :
  In x (insert_key k ks) <-> x = k \/ In x ks.
Proof.
  induction ks as [|k' ks IH]; simpl.
  - intuition.
  - destruct (cmp k k') eqn:E; simpl.
    + apply cmp_eq_iff in E. subst k'. intuition.
    + intuition.
    + rewrite IH. intuition.
Qed.

Lemma In_sorted_unique (x : K) (ks : list K) :
  In x (sorted_unique ks) <-> In x ks.
Proof.
  unfold sorted_unique. induction ks as [|k ks IH]; simpl.
  - reflexivity.
  - rewrite In_insert_key, IH. intuition.
Qed.

Lemma insert_key_sorted (k : K) (ks : list K) :
  StronglySorted key_lt ks -> StronglySorted key_lt (insert_key k ks).
Proof.
  induction 1 as [|k' ks Hs IH Hall]; simpl.
  - repeat constructor.
  - destruct (cmp k k') eqn:E.
    + constructor; assumption.
    + constructor; [constructor; assumption|].
      constructor; [exact E|].
      eapply Forall_impl; [|exact Hall]. intros c Hc. eapply cmp_lt_trans; eassumption.
    + constructor; [exact IH|].
      apply Forall_forall. intros x Hx. apply In_insert_key in Hx.
      destruct Hx as [->|Hx].
      * unfold key_lt. rewrite cmp_antisym, E. reflexivity.
      * rewrite Forall_forall in Hall. apply Hall. exact Hx.
Qed.

Lemma sorted_unique_sorted (ks : list K) : StronglySorted key_lt (sorted_unique ks).
Proof.
  unfold sorted_unique. induction ks as [|k ks IH]; simpl.
  - constructor.
  - apply insert_key_sorted. exact IH.
Qed.

Lemma groupby_keys {A : Type} (key : A -> K) (df : list A) :
  map fst (groupby key df) = sorted_unique (map key df).
Proof.
  unfold groupby. rewrite map_map. simpl. apply map_id.
Qed.

(** A group holds the rows of its key, in frame order, and is not empty. *)
Lemma groupby_group {A : Type} (key : A -> K) (df : list A) (k : K) (g : list A) :
  In (k, g) (groupby key df) ->
  g = filter (fun r => key_eqb (key r) k) df
  /\ g <> []
  /\ (forall r, In r g <-> In r df /\ key r = k).
Proof.
  unfold groupby. intros Hin. apply in_map_iff in Hin.
  destruct Hin as [k' [Heq Hk]]. inversion Heq; subst k' g. clear Heq.
  split; [reflexivity|].
  assert (Hmem : forall r, In r (filter (fun r => key_eqb (key r) k) df) <-> In r df /\ key r = k).
  { intros r. rewrite filter_In, key_eqb_eq. reflexivity. }
  split; [|exact Hmem].
  apply (proj1 (In_sorted_unique _ _)) in Hk.
  apply in_map_iff in Hk. destruct Hk as [r [Hr Hin]].
  intros Hnil. assert (Hr' : In r (filter (fun r => key_eqb (key r) k) df)).
  { apply Hmem. split; assumption. }
  rewrite Hnil in Hr'. exact Hr'.
Qed.

End GroupBy.

(* ------------------------------------------------------------------ *)
(** ** Time groups *)

Lemma series_min_le_max (l : list Z) : series_min l <= series_max l.
Proof.
  destruct l as [|x r]; simpl; [lia|].
  assert (Hmin : forall r x, fold_left Z.min r x <= x).
  { clear. induction r as [|y r IH]; simpl; intros x; [lia|].
    specialize (IH (Z.min x y)). lia. }
  assert (Hmax : forall r x, x <= fold_left Z.max r x).
  { clear. induction r as [|y r IH]; simpl; intros x; [lia|].
    specialize (IH (Z.max x y)). lia. }
  specialize (Hmin r x). specialize (Hmax r x). lia.
Qed.

Lemma time_groups_loop_step (end_time current_time group_index : Z) :
  current_time <= end_time ->
  time_groups_loop end_time current_time group_index
  = mkTimeGroup group_index (Calendar.strftime_HMS current_time)
    :: time_groups_loop end_time (current_time + 30) (group_index + 1).
Proof.
  intros H. rewrite time_groups_loop_equation_1.
  destruct (Z_le_gt_dec current_time end_time) as [Hle|Hgt]; [reflexivity | lia].
Qed.

Lemma time_groups_loop_stop (end_time current_time group_index : Z) :
  end_time < current_time ->
  time_groups_loop end_time current_time group_index = [].
Proof.
  intros H. rewrite time_groups_loop_equation_1.
  destruct (Z_le_gt_dec current_time end_time) as [Hle|Hgt]; [lia | reflexivity].
Qed.

(** The loop ends, after [floor ((end - current) / 30) + 1] passes. *)
Lemma time_groups_loop_spec (n : nat) :
  forall end_time current_time group_index,
    current_time <= end_time ->
    Z.to_nat ((end_time - current_time) / 30) = n ->
    time_groups_loop end_time current_time group_index
    = map (fun k => mkTimeGroup (group_index + Z.of_nat k)
                      (Calendar.strftime_HMS (current_time + 30 * Z.of_nat k)))
          (seq 0 (S n)).
Proof.
  induction n as [|n IH]; intros end_time cur idx Hle Hn.
  - rewrite time_groups_loop_step by exact Hle.
    rewrite time_groups_loop_stop.
    + simpl. now rewrite Z.add_0_r, Z.add_0_r.
    + assert (0 <= (end_time - cur) / 30) by (apply Z.div_pos; lia).
      assert ((end_time - cur) / 30 = 0) by lia.
      pose proof (Z.mul_succ_div_gt (end_time - cur) 30 ltac:(lia)). lia.
  - rewrite time_groups_loop_step by exact Hle.
    assert (Hq : (end_time - cur) / 30 = Z.of_nat (S n)) by lia.
    assert (Hlo : 30 * ((end_time - cur) / 30) <= end_time - cur)
      by (apply Z.mul_div_le; lia).
    assert (Hshift : (end_time - (cur + 30)) / 30 = (end_time - cur) / 30 - 1).
    { replace (end_time - (cur + 30)) with ((end_time - cur) + (-1) * 30) by lia.
      rewrite Z.div_add by lia. lia. }
    rewrite (IH end_time (cur + 30) (idx + 1)) by lia.
    change (seq 0 (S (S n))) with (0%nat :: seq 1 (S n)).
    rewrite <- seq_shift, map_cons, map_map. f_equal.
    + now rewrite Z.add_0_r, Z.add_0_r.
    + apply map_ext. intros k. f_equal; [lia | f_equal; lia].
Qed.

Lemma time_groups_loop_expected (start_time end_time : Z) :
  start_time <= end_time ->
  time_groups_loop end_time start_time 0 = expected_time_groups start_time end_time.
Proof.
  intros H. rewrite (time_groups_loop_spec _ end_time start_time 0 H eq_refl).
  unfold expected_time_groups. apply map_ext. intros k. reflexivity.
Qed.

Lemma In_expected_time_groups (start_time end_time k : Z) :
  start_time <= end_time -> 0 <= k ->
  (start_time + 30 * k <= end_time
   <-> In (mkTimeGroup k (Calendar.strftime_HMS (start_time + 30 * k)))
          (expected_time_groups start_time end_time)).
Proof.
  intros Hle Hk. unfold expected_time_groups.
  assert (Hq : 0 <= (end_time - start_time) / 30) by (apply Z.div_pos; lia).
  assert (Hlo : 30 * ((end_time - start_time) / 30) <= end_time - start_time)
    by (apply Z.mul_div_le; lia).
  pose proof (Z.mul_succ_div_gt (end_time - start_time) 30 ltac:(lia)) as Hhi.
  rewrite in_map_iff. split.
  - intros Hin. exists (Z.to_nat k). split.
    + now rewrite Z2Nat.id by exact Hk.
    + apply in_seq. split; [lia|]. simpl.
      assert (k <= (end_time - start_time) / 30) by (apply Z.div_le_lower_bound; lia).
      lia.
  - intros [j [Hj Hin]]. inversion Hj as [[Hidx Htime]]. subst k.
    apply in_seq in Hin. lia.
Qed.

Section TimeGroups.

Context {L : PandasNum}.

(** The trips of the exported days come from the groups of the frame. *)
Lemma exported_trip_group (df : list (Row F)) (day : DayOut F) (trip : TripOut F) :
  In day (generate_standalone_html df) ->
  In trip (d_trips day) ->
  exists trip_df : list (Row F),
    trip = standalone_trip (t_id trip) trip_df
    /\ trip_df <> []
    /\ (forall r, In r trip_df <->
                  In r df /\ day_id (point r) = d_day_id day /\ trip_id r = t_id trip).
Proof.
  rewrite generate_standalone_html_map. intros Hday Htrip.
  apply in_map_iff in Hday. destruct Hday as [[d day_df] [Hd Hgd]]. subst day.
  simpl in Htrip |- *.
  apply in_map_iff in Htrip. destruct Htrip as [[i trip_df] [Ht Hgt]]. subst trip.
  simpl. apply groupby_group in Hgd. destruct Hgd as [_ [_ Hday_rows]].
  apply groupby_group in Hgt. destruct Hgt as [_ [Hne Htrip_rows]].
  exists trip_df. split; [reflexivity|]. split; [exact Hne|].
  intros r. rewrite Htrip_rows, Hday_rows. tauto.
Qed.

End TimeGroups.



(* ------------------------------------------------------------------ *)
(** ** The order of the days *)

Lemma exported_day_ids {L : PandasNum} (df : list (Row F)) :
  map d_day_id (generate_standalone_html df)
  = sorted_unique (map (fun r => day_id (point r)) df).
Proof.
  rewrite generate_standalone_html_map, map_map. simpl.
  rewrite <- groupby_keys. reflexivity.
Qed.

Lemma generate_data_file_as_standalone {L : PandasNum} (df : list (Row F)) :
  generate_data_file df = generate_standalone_html df.
Proof.
  rewrite generate_standalone_html_map. unfold generate_data_file.
  apply map_ext. intros day_group. f_equal.
Qed.

(** C2, the claim as stated fails: the 2nd of January is selected, merged
    and sorted before the 1st of February, and the hierarchy lists
    ["01/02/2024"] first. *)
Lemma C2_days_not_in_first_encountered_order :
  Examples.merged_frame Examples.jan_feb_disk Examples.jan_feb_paths
  = Ok Examples.jan_feb_merged
  /\ first_encountered (map tag_day_id Examples.jan_feb_merged)
     = ["02/01/2024"; "01/02/2024"]
  /\ segmented (L := Rational.lib) stable_argsort Examples.jan_feb_merged
       (fun rows => first_encountered (map (fun r => day_id (point r)) rows))
     = Ok ["02/01/2024"; "01/02/2024"]
  /\ segmented (L := Rational.lib) stable_argsort Examples.jan_feb_merged
       (fun rows => map d_day_id (generate_standalone_html rows))
     = Ok ["01/02/2024"; "02/01/2024"]
  /\ segmented (L := Rational.lib) stable_argsort Examples.jan_feb_merged
       (fun rows => map d_day_id (generate_data_file rows))
     = Ok ["01/02/2024"; "02/01/2024"]
  /\ exported (run_analysis (L := Rational.lib) stable_argsort Examples.jan_feb_disk
                 Rational.day_id_of_path Examples.jan_feb_paths)
       (map d_day_id)
     = Some ["01/02/2024"; "02/01/2024"]
  /\ exported (run_analysis (L := Rational.lib) stable_argsort Examples.jan_feb_disk
                 Rational.day_id_of_path Examples.jan_feb_paths)
       (map d_day_id)
     <> Some (first_encountered (map tag_day_id Examples.jan_feb_merged)).
Proof.
  repeat split; try (vm_compute; reflexivity).
  vm_compute. discriminate.
Qed.

(** C2, amended.  Both exporters list the days in ascending order of the
    day-id strings (the order of [String.compare], character by character),
    each day id of the frame once, whatever the order of the rows. *)
Theorem C2_days_in_ascending_day_id_order :
  forall (L : PandasNum) (df : list (Row F)),
    let days := map d_day_id (generate_standalone_html df) in
    map d_day_id (generate_data_file df) = days
    /\ StronglySorted (fun a b => String.compare a b = Lt) days
    /\ (forall d, In d days <-> exists r, In r df /\ day_id (point r) = d).
Proof.
  intros L df days. subst days.
  split; [now rewrite generate_data_file_as_standalone|].
  rewrite exported_day_ids. split.
  - exact (sorted_unique_sorted (map (fun r => day_id (point r)) df)).
  - intros d. rewrite In_sorted_unique, in_map_iff.
    split; intros [r [H1 H2]]; exists r; tauto.
Qed.

(** C10.  On every segmented frame, [generate_data_file] and
    [generate_standalone_html] build the same hierarchy: the same days in
    the same order, and in each the same trips, field by field. *)
Theorem C10_exporters_agree :
  forall (L : PandasNum) (df : list (Row F)),
    generate_data_file df = generate_standalone_html df.
Proof.
  intros L df. unfold generate_data_file, generate_standalone_html.
  induction (groupby (fun r => day_id (point r)) df) as [|[day_id day_df] days IH].
  - reflexivity.
  - cbn [map standalone_days fst snd]. rewrite IH. f_equal. f_equal.
    induction (groupby trip_id day_df) as [|[trip_id trip_df] trips IHt].
    + reflexivity.
    + cbn [map standalone_trips fst snd]. rewrite IHt. reflexivity.
Qed.

(* ------------------------------------------------------------------ *)
(** ** [take] and the argsorts *)

Lemma take_rows_map {A B : Type} (f : A -> B) (indexer : list nat) (l : list A) :
  map f (take_rows indexer l) = take_rows indexer (map f l).
Proof.
  unfold take_rows. induction indexer as [|i indexer IH]; simpl; [reflexivity|].
  rewrite map_app, IH, nth_error_map. destruct (nth_error l i); reflexivity.
Qed.

Lemma take_rows_shift {A : Type} (a : A) (indexer : list nat) (l : list A) :
  take_rows (map S indexer) (a :: l) = take_rows indexer l.
Proof.
  unfold take_rows. induction indexer as [|i indexer IH]; simpl; [reflexivity|].
  now rewrite IH.
Qed.

Lemma take_rows_all {A : Type} (l : list A) :
  take_rows (seq 0 (List.length l)) l = l.
Proof.
  induction l as [|a l IH]; [reflexivity|].
  cbn [List.length seq]. rewrite <- seq_shift.
  change (take_rows (0%nat :: map S (seq 0 (List.length l))) (a :: l))
    with (a :: take_rows (map S (seq 0 (List.length l))) (a :: l)).
  now rewrite take_rows_shift, IH.
Qed.

Lemma take_rows_Permutation {A : Type} (indexer : list nat) (l : list A) :
  Permutation indexer (seq 0 (List.length l)) ->
  Permutation (take_rows indexer l) l.
Proof.
  intros H. rewrite <- (take_rows_all l) at 2.
  unfold take_rows. apply Permutation_flat_map. exact H.
Qed.

Lemma take_rows_length {A : Type} (indexer : list nat) (l : list A) :
  Permutation indexer (seq 0 (List.length l)) ->
  List.length (take_rows indexer l) = List.length l.
Proof.
  intros H. apply Permutation_length. apply take_rows_Permutation. exact H.
Qed.

Lemma Sorted_map {A B : Type} (R : A -> A -> Prop) (R' : B -> B -> Prop)
  (f : A -> B) (l : list A) :
  (forall a b, R a b -> R' (f a) (f b)) -> Sorted R l -> Sorted R' (map f l).
Proof.
  intros Hf. induction 1 as [|a l Hs IH Hhd]; simpl; constructor.
  - exact IH.
  - destruct Hhd; simpl; constructor. apply Hf. assumption.
Qed.

Lemma StronglySorted_filter {A : Type} (R : A -> A -> Prop) (f : A -> bool) (l : list A) :
  StronglySorted R l -> StronglySorted R (filter f l).
Proof.
  induction 1 as [|a l Hs IH Hall]; simpl; [constructor|].
  destruct (f a); [|exact IH]. constructor; [exact IH|].
  apply Forall_forall. intros x Hx. apply filter_In in Hx.
  rewrite Forall_forall in Hall. apply Hall. tauto.
Qed.

Lemma Permutation_filter_same {A : Type} (f : A -> bool) (l l' : list A) :
  Permutation l l' -> Permutation (filter f l) (filter f l').
Proof.
  induction 1 as [|x l l' _ IH|x y l|l l' l'' _ IH1 _ IH2]; simpl.
  - constructor.
  - destruct (f x); [constructor|]; exact IH.
  - destruct (f x), (f y); try reflexivity. constructor.
  - etransitivity; eassumption.
Qed.

Section InsertionArgsort.

Variable leb : Z * nat -> Z * nat -> bool.
Hypothesis leb_total : forall a b, leb a b = true \/ leb b a = true.
Hypothesis leb_key : forall a b, leb a b = true -> fst a <= fst b.

Lemma insert_by_Permutation (x : Z * nat) (l : list (Z * nat)) :
  Permutation (insert_by leb x l) (x :: l).
Proof.
  induction l as [|y l IH]; simpl; [reflexivity|].
  destruct (leb x y); [reflexivity|].
  rewrite IH. constructor.
Qed.

Lemma isort_by_Permutation (l : list (Z * nat)) : Permutation (isort_by leb l) l.
Proof.
  unfold isort_by. induction l as [|x l IH]; simpl; [reflexivity|].
  rewrite insert_by_Permutation. constructor. exact IH.
Qed.

Lemma insert_by_Sorted (x : Z * nat) (l : list (Z * nat)) :
  Sorted (fun a b => leb a b = true) l ->
  Sorted (fun a b => leb a b = true) (insert_by leb x l).
Proof.
  induction 1 as [|y l Hs IH Hhd]; simpl.
  - repeat constructor.
  - destruct (leb x y) eqn:E.
    + constructor; [constructor; assumption|]. constructor. exact E.
    + constructor; [exact IH|].
      assert (Hyx : leb y x = true) by (destruct (leb_total x y); congruence).
      destruct Hhd as [|z l Hyz]; simpl.
      * constructor. exact Hyx.
      * destruct (leb x z); constructor; assumption.
Qed.

Lemma isort_by_Sorted (l : list (Z * nat)) :
  Sorted (fun a b => leb a b = true) (isort_by leb l).
Proof.
  unfold isort_by. induction l as [|x l IH]; simpl; [constructor|].
  apply insert_by_Sorted. exact IH.
Qed.

Lemma In_combine_seq (keys : list Z) (start : nat) (k : Z) (i : nat) :
  In (k, i) (combine keys (seq start (List.length keys))) ->
  (start <= i)%nat /\ nth_error keys (i - start) = Some k.
Proof.
  revert start. induction keys as [|k' keys IH]; simpl; intros start H; [contradiction|].
  destruct H as [H|H].
  - inversion H; subst. split; [lia|]. now rewrite Nat.sub_diag.
  - apply IH in H. destruct H as [Hle Hn]. split; [lia|].
    replace (i - start)%nat with (S (i - S start)) by lia. exact Hn.
Qed.

Lemma take_rows_positions (keys : list Z) (ps : list (Z * nat)) :
  Forall (fun p => nth_error keys (snd p) = Some (fst p)) ps ->
  take_rows (map snd ps) keys = map fst ps.
Proof.
  unfold take_rows. induction 1 as [|p ps Hp _ IH]; simpl; [reflexivity|].
  now rewrite Hp, IH.
Qed.

Lemma map_snd_combine_seq (keys : list Z) (start : nat) :
  map snd (combine keys (seq start (List.length keys))) = seq start (List.length keys).
Proof.
  revert start. induction keys as [|k keys IH]; simpl; intros start; [reflexivity|].
  now rewrite IH.
Qed.

Lemma argsort_by_ok : argsort_ok (argsort_by leb).
Proof.
  intros keys. unfold argsort_by.
  set (pairs := combine keys (seq 0 (List.length keys))).
  split.
  - rewrite <- (map_snd_combine_seq keys 0). fold pairs.
    apply Permutation_map. apply isort_by_Permutation.
  - rewrite take_rows_positions.
    + eapply Sorted_map; [|apply isort_by_Sorted]. exact leb_key.
    + apply Forall_forall. intros [k i] Hin.
      apply (Permutation_in _ (isort_by_Permutation pairs)) in Hin.
      apply In_combine_seq in Hin. simpl. destruct Hin as [_ Hn].
      now rewrite Nat.sub_0_r in Hn.
Qed.

End InsertionArgsort.

Lemma stable_argsort_ok : argsort_ok stable_argsort.
Proof.
  apply argsort_by_ok; unfold stable_leb.
  - intros [k1 i1] [k2 i2]. simpl.
    destruct (Z.ltb_spec k1 k2), (Z.ltb_spec k2 k1), (Z.eqb_spec k1 k2), (Z.eqb_spec k2 k1),
      (Nat.leb_spec i1 i2), (Nat.leb_spec i2 i1); simpl; auto; lia.
  - intros [k1 i1] [k2 i2]. simpl.
    destruct (Z.ltb_spec k1 k2), (Z.eqb_spec k1 k2); simpl; intros; try lia; discriminate.
Qed.

Lemma tie_reversing_argsort_ok : argsort_ok tie_reversing_argsort.
Proof.
  apply argsort_by_ok; unfold reversing_leb.
  - intros [k1 i1] [k2 i2]. simpl.
    destruct (Z.ltb_spec k1 k2), (Z.ltb_spec k2 k1), (Z.eqb_spec k1 k2), (Z.eqb_spec k2 k1),
      (Nat.leb_spec i1 i2), (Nat.leb_spec i2 i1); simpl; auto; lia.
  - intros [k1 i1] [k2 i2]. simpl.
    destruct (Z.ltb_spec k1 k2), (Z.eqb_spec k1 k2); simpl; intros; try lia; discriminate.
Qed.

(* ------------------------------------------------------------------ *)
(** ** The sorted frame *)

Lemma diff_from_length (prev : Z) (l : list Z) :
  List.length (diff_from prev l) = List.length l.
Proof.
  revert prev. induction l as [|x l IH]; simpl; intros prev; [reflexivity|].
  now rewrite IH.
Qed.

Lemma time_diffs_length (l : list Z) : List.length (fillna 0 (diff l)) = List.length l.
Proof.
  unfold fillna. rewrite length_map. destruct l as [|x l]; simpl; [reflexivity|].
  now rewrite diff_from_length.
Qed.

Lemma cumsum_from_length (acc : Z) (l : list Z) :
  List.length (cumsum_from acc l) = List.length l.
Proof.
  revert acc. induction l as [|x l IH]; simpl; intros acc; [reflexivity|].
  now rewrite IH.
Qed.

Lemma count_breaks_length (x : list Z) : List.length (count_breaks x) = List.length x.
Proof.
  unfold count_breaks, cumsum. now rewrite cumsum_from_length, length_map.
Qed.

Lemma transform_length {A K : Type} `{OrdKey K} (key : A -> K) (col : A -> Z)
  (f : list Z -> list Z) (df : list A) :
  List.length (transform key col f df) = List.length df.
Proof.
  unfold transform. now rewrite length_map, length_seq.
Qed.

Section SortedFrame.

Context {L : PandasNum}.
Variable argsort : list Z -> list nat.
Hypothesis argsort_contract : argsort_ok argsort.

Lemma add_columns_points (pts : list (Point F)) (diffs ids : list Z) :
  List.length diffs = List.length pts ->
  List.length ids = List.length pts ->
  map point (add_columns pts diffs ids) = pts.
Proof.
  revert diffs ids. induction pts as [|p pts IH]; intros diffs ids Hd Hi; [reflexivity|].
  destruct diffs as [|d diffs]; [discriminate|].
  destruct ids as [|i ids]; [discriminate|].
  simpl. f_equal. apply IH; simpl in *; lia.
Qed.

Lemma sort_values_Permutation (pts : list (Point F)) :
  Permutation (sort_values argsort pts) pts.
Proof.
  unfold sort_values. apply take_rows_Permutation.
  destruct (argsort_contract (map datetime pts)) as [Hperm _].
  now rewrite length_map in Hperm.
Qed.

Lemma sort_values_Sorted (pts : list (Point F)) :
  Sorted Z.le (map datetime (sort_values argsort pts)).
Proof.
  unfold sort_values. rewrite take_rows_map.
  apply (argsort_contract (map datetime pts)).
Qed.

Lemma detect_trips_points (has_day_id : bool) (pts : list (Point F)) :
  map point (detect_trips argsort has_day_id pts) = sort_values argsort pts.
Proof.
  unfold detect_trips.
  assert (Hd : List.length (fillna 0 (diff (map datetime (sort_values argsort pts))))
               = List.length (sort_values argsort pts)).
  { now rewrite time_diffs_length, length_map. }
  apply add_columns_points; [exact Hd|].
  destruct has_day_id.
  - rewrite transform_length, length_combine, Hd. lia.
  - now rewrite count_breaks_length.
Qed.

Lemma detect_trips_sorted (has_day_id : bool) (pts : list (Point F)) :
  StronglySorted instant_le (detect_trips argsort has_day_id pts).
Proof.
  pose proof (sort_values_Sorted pts) as Hs.
  rewrite <- (detect_trips_points has_day_id) in Hs. rewrite map_map in Hs.
  apply Sorted_StronglySorted in Hs; [|intros a b c; apply Z.le_trans].
  induction (detect_trips argsort has_day_id pts) as [|r rows IH]; [constructor|].
  simpl in Hs. apply StronglySorted_inv in Hs. destruct Hs as [Hs Hall].
  constructor; [apply IH; exact Hs|].
  rewrite Forall_map in Hall. exact Hall.
Qed.

Lemma map_point_filter (f : Point F -> bool) (rows : list (Row F)) :
  map point (filter (fun r => f (point r)) rows) = filter f (map point rows).
Proof.
  induction rows as [|r rows IH]; simpl; [reflexivity|].
  destruct (f (point r)); simpl; now rewrite IH.
Qed.

End SortedFrame.




(* ------------------------------------------------------------------ *)
(** ** The conversions *)

Lemma of_option_Ok {A : Type} (e : error) (o : option A) (a : A) :
  of_option e o = Ok a -> o = Some a.
Proof. destruct o; simpl; intros H; inversion H; reflexivity. Qed.

Lemma Forall2_In_right {A B : Type} (R : A -> B -> Prop) (l : list A) (l' : list B) (b : B) :
  Forall2 R l l' -> In b l' -> exists a, In a l /\ R a b.
Proof.
  induction 1 as [|a b' l l' Hab _ IH]; intros Hin; [contradiction|].
  destruct Hin as [<-|Hin].
  - exists a. split; [left; reflexivity | exact Hab].
  - destruct (IH Hin) as [a' [Ha' Hr]]. exists a'. split; [right; exact Ha' | exact Hr].
Qed.

Lemma In_take_rows {A : Type} (indexer : list nat) (l : list A) (x : A) :
  In x (take_rows indexer l) -> In x l.
Proof.
  unfold take_rows. intros H. apply in_flat_map in H.
  destruct H as [i [_ Hi]]. destruct (nth_error l i) as [a|] eqn:E; [|contradiction].
  destruct Hi as [->|[]]. eapply nth_error_In. exact E.
Qed.

Lemma In_add_columns {L : PandasNum} (pts : list (Point F)) (diffs ids : list Z) (row : Row F) :
  In row (add_columns pts diffs ids) -> In (point row) pts.
Proof.
  revert diffs ids. induction pts as [|p pts IH]; intros diffs ids H; [contradiction|].
  destruct diffs as [|d diffs]; [contradiction|].
  destruct ids as [|i ids]; [contradiction|].
  simpl in H. destruct H as [<-|H]; [left; reflexivity | right; eapply IH; exact H].
Qed.

Section Conversions.

Context {L : PandasNum}.

(** What [normalize] makes of a row. *)
Definition normalized (r : TaggedRecord) (p : Point F) : Prop :=
  raw p = raw_of r
  /\ day_id p = tag_day_id r
  /\ to_datetime (timestamp_str (raw_of r)) = Some (datetime p)
  /\ (exists m, to_numeric (lat (raw_of r)) = Some m
                /\ latitude p = if String.eqb (lat_indicator (raw_of r)) "S" then neg m else m)
  /\ (exists m, to_numeric (lon (raw_of r)) = Some m
                /\ longitude p = if String.eqb (lon_indicator (raw_of r)) "W" then neg m else m)
  /\ to_numeric (data_1 (raw_of r)) = Some (data_1_num p)
  /\ to_numeric (data_2 (raw_of r)) = Some (data_2_num p)
  /\ popup_info p
     = popup (datetime p) (latitude p) (longitude p) (data_1_num p) (data_2_num p).

Lemma convert_column_Forall2 {A : Type} (name : string) (conv : string -> option A)
  (cell : RawRecord -> string) (df : list TaggedRecord) (col : list A) :
  convert_column name conv cell df = Ok col ->
  Forall2 (fun r a => conv (cell (raw_of r)) = Some a) df col.
Proof.
  unfold convert_column. intros H. apply mapM_Ok_Forall2 in H.
  eapply Forall2_impl; [|exact H]. intros r a Ha. eapply of_option_Ok. exact Ha.
Qed.

Lemma normalize_rows (df : list TaggedRecord) (pts : list (Point F)) :
  normalize df = Ok pts -> Forall2 normalized df pts.
Proof.
  unfold normalize. intros H.
  apply bind_Ok_inv in H. destruct H as [dts [Hdts H]].
  apply bind_Ok_inv in H. destruct H as [lats [Hlats H]].
  apply bind_Ok_inv in H. destruct H as [lons [Hlons H]].
  apply bind_Ok_inv in H. destruct H as [d1s [Hd1s H]].
  apply bind_Ok_inv in H. destruct H as [d2s [Hd2s H]].
  inversion H; subst pts. clear H.
  apply convert_column_Forall2 in Hdts, Hlats, Hlons, Hd1s, Hd2s.
  revert dts lats lons d1s d2s Hdts Hlats Hlons Hd1s Hd2s.
  induction df as [|r df IH]; intros dts lats lons d1s d2s Hdts Hlats Hlons Hd1s Hd2s.
  - inversion Hdts; subst. constructor.
  - inversion Hdts; subst. inversion Hlats; subst. inversion Hlons; subst.
    inversion Hd1s; subst. inversion Hd2s; subst.
    cbn [negate_where assemble]. constructor.
    + unfold normalized.
      cbn [raw day_id datetime latitude longitude data_1_num data_2_num popup_info].
      repeat split; try assumption; try reflexivity;
        eexists; split; try eassumption; reflexivity.
    + apply IH; assumption.
Qed.

Lemma normalize_total (df : list TaggedRecord) :
  Forall converts df -> exists pts, normalize df = Ok pts.
Proof.
  intros Hall. unfold normalize.
  assert (Hcol : forall (A : Type) name (conv : string -> option A) cell,
             (forall r, In r df -> conv (cell (raw_of r)) <> None) ->
             exists col, convert_column name conv cell df = Ok col).
  { intros A name conv cell Hc. unfold convert_column. apply mapM_Ok_of_Forall.
    apply Forall_forall. intros r Hr. specialize (Hc r Hr).
    destruct (conv (cell (raw_of r))) as [a|]; [|congruence]. exists a. reflexivity. }
  rewrite Forall_forall in Hall.
  destruct (Hcol Z "timestamp_str" to_datetime timestamp_str) as [dts ->];
    [intros r Hr; apply (Hall r Hr)|].
  destruct (Hcol F "lat" to_numeric lat) as [lats ->]; [intros r Hr; apply (Hall r Hr)|].
  destruct (Hcol F "lon" to_numeric lon) as [lons ->]; [intros r Hr; apply (Hall r Hr)|].
  destruct (Hcol F "data_1" to_numeric data_1) as [d1s ->]; [intros r Hr; apply (Hall r Hr)|].
  destruct (Hcol F "data_2" to_numeric data_2) as [d2s ->]; [intros r Hr; apply (Hall r Hr)|].
  simpl. eexists. reflexivity.
Qed.

Lemma In_detect_trips (argsort : list Z -> list nat) (has_day_id : bool)
  (pts : list (Point F)) (row : Row F) :
  In row (detect_trips argsort has_day_id pts) -> In (point row) pts.
Proof.
  unfold detect_trips. intros H. apply In_add_columns in H.
  unfold sort_values in H. eapply In_take_rows. exact H.
Qed.

Lemma normalized_signed_by_flags (S : SignOps L) (r : TaggedRecord) (p : Point F) :
  sign_laws S -> normalized r p -> signed_by_flags S p.
Proof.
  intros [Habs [Habs_neg Hsign]] [Hraw [_ [_ [[mlat [Hlat Hla]] [[mlon [Hlon Hlo]] _]]]]].
  unfold signed_by_flags. rewrite Hraw. split.
  - exists mlat. split; [exact Hlat|]. split; [exact Hla|]. intros Hm. rewrite Hla.
    destruct (String.eqb (lat_indicator (raw_of r)) "S"); split; auto.
  - exists mlon. split; [exact Hlon|]. split; [exact Hlo|]. intros Hm. rewrite Hlo.
    destruct (String.eqb (lon_indicator (raw_of r)) "W"); split; auto.
Qed.

End Conversions.

Lemma rational_sign_laws : sign_laws Examples.rational_signs.
Proof.
  unfold sign_laws, Examples.rational_signs. cbn [fabs signbit neg Rational.lib].
  repeat split.
  - intros [a b]. simpl. intros Ha. apply Z.ltb_ge in Ha. now rewrite Z.abs_eq.
  - intros [a b]. simpl. intros Ha. apply Z.ltb_ge in Ha.
    now rewrite Z.abs_opp, Z.abs_eq.
  - intros [a b]. simpl. intros Ha Hne. apply Z.ltb_ge in Ha. apply Z.ltb_lt.
    assert (a <> 0) by (intros ->; apply Hne; reflexivity). lia.
Qed.

(** C8.  A row is converted without regard to its flags (only the text of
    its cells can make a conversion raise).  In the frame, latitude is the
    opposite of the number read from [lat] exactly when [lat_indicator] is
    ["S"], and that number unchanged for any other flag; likewise longitude
    with ["W"].  So the magnitude read back from the coordinate is the
    number of the record, and the sign read back is set exactly for
    ["S"] (["W"]). *)
Theorem C8_hemisphere_flags_set_the_sign :
  forall (L : PandasNum) (S : SignOps L) (argsort : list Z -> list nat)
         (df : list TaggedRecord),
    sign_laws S ->
    (Forall converts df ->
     exists rows, clean_and_transform_data argsort true df = Ok rows)
    /\ (forall pts, normalize df = Ok pts ->
        Forall2 (fun r p => raw p = raw_of r /\ signed_by_flags S p) df pts)
    /\ (forall rows, clean_and_transform_data argsort true df = Ok rows ->
        forall row, In row rows -> signed_by_flags S (point row)).
Proof.
  intros L S argsort df Hlaws. split; [|split].
  - intros Hall. destruct (normalize_total df Hall) as [pts Hpts].
    unfold clean_and_transform_data. rewrite Hpts. simpl. eexists. reflexivity.
  - intros pts Hpts. apply normalize_rows in Hpts.
    eapply Forall2_impl; [|exact Hpts]. intros r p Hn. split.
    + apply Hn.
    + eapply normalized_signed_by_flags; eassumption.
  - intros rows Hclean row Hrow. unfold clean_and_transform_data in Hclean.
    apply bind_Ok_inv in Hclean. destruct Hclean as [pts [Hpts Hrows]].
    inversion Hrows; subst rows. apply In_detect_trips in Hrow.
    apply normalize_rows in Hpts.
    destruct (Forall2_In_right _ _ _ _ Hpts Hrow) as [r [_ Hn]].
    eapply normalized_signed_by_flags; eassumption.
Qed.

(** The run of [C8_hemisphere_flags_set_the_sign] on rows of both
    hemispheres and on flags that are neither, with rationals. *)
Lemma C8_hemisphere_flags_witness :
  sign_laws Examples.rational_signs
  /\ segmented (L := Rational.lib) stable_argsort Examples.hemispheres_merged
       (map (fun r => (lat_indicator (raw (point r)), latitude (point r),
                       lon_indicator (raw (point r)), longitude (point r))))
     = Ok [("N", 48.8566%Q, "E", 2.3522%Q);
           ("S", (-33.8688)%Q, "E", 151.2093%Q);
           ("N", 40.7128%Q, "W", (-74.0060)%Q);
           ("s", 34.6037%Q, "", 58.3816%Q)]
  /\ ((Forall (converts (L := Rational.lib)) Examples.hemispheres_merged ->
       exists rows,
         clean_and_transform_data (L := Rational.lib) stable_argsort true
           Examples.hemispheres_merged = Ok rows)
      /\ (forall pts, normalize (L := Rational.lib) Examples.hemispheres_merged = Ok pts ->
          Forall2 (fun r p => raw p = raw_of r
                              /\ signed_by_flags Examples.rational_signs p)
                  Examples.hemispheres_merged pts)
      /\ (forall rows,
            clean_and_transform_data (L := Rational.lib) stable_argsort true
              Examples.hemispheres_merged = Ok rows ->
            forall row, In row rows ->
                        signed_by_flags Examples.rational_signs (point row))).
Proof.
  split; [exact rational_sign_laws|].
  split; [vm_compute; reflexivity|].
  exact (C8_hemisphere_flags_set_the_sign Rational.lib Examples.rational_signs
           stable_argsort Examples.hemispheres_merged rational_sign_laws).
Defined.

(** C8, the claim as stated fails on a record the code accepts: a line
    whose latitude text is negative and whose flag is [S].  The latitude
    is negated as for every [S], and comes out positive: the sign read
    back from the point is that of the northern hemisphere, and the
    magnitude read back is not the number of the record. *)
Lemma C8_negative_latitude_with_flag_S_reads_back_north :
  Examples.merged_frame Negative.disk Negative.paths = Ok Negative.merged
  /\ sign_laws Examples.rational_signs
  /\ Forall (converts (L := Rational.lib)) Negative.merged
  /\ segmented (L := Rational.lib) Numpy.argsort Negative.merged
       (map (fun r => (lat (raw (point r)), lat_indicator (raw (point r)),
                       latitude (point r),
                       signbit Examples.rational_signs (latitude (point r)),
                       fabs Examples.rational_signs (latitude (point r)))))
     = Ok [("-33.8688", "S", 33.8688%Q, false, 33.8688%Q)]
  /\ (exists (p : Point Q) (magnitude : Q),
        normalize (L := Rational.lib) Negative.merged = Ok [p]
        /\ @to_numeric Rational.lib (lat (raw p)) = Some magnitude
        /\ magnitude = (-33.8688)%Q
        /\ latitude p = @neg Rational.lib magnitude
        /\ signbit Examples.rational_signs (latitude p)
           <> String.eqb (lat_indicator (raw p)) "S"
        /\ fabs Examples.rational_signs (latitude p) <> magnitude)
  /\ exported (run_analysis (L := Rational.lib) Numpy.argsort Negative.disk
                 Rational.day_id_of_path Negative.paths)
       (fun days => map po_lat (all_points (L := Rational.lib) days))
     = Some [33.8688%Q].
Proof.
  split; [vm_compute; reflexivity|].
  split; [exact rational_sign_laws|].
  split.
  { repeat constructor; vm_compute; discriminate. }
  split; [vm_compute; reflexivity|].
  split.
  { eexists. eexists.
    split; [vm_compute; reflexivity|].
    split; [vm_compute; reflexivity|].
    split; [reflexivity|].
    split; [vm_compute; reflexivity|].
    split; vm_compute; discriminate. }
  vm_compute. reflexivity.
Qed.

(* ------------------------------------------------------------------ *)
(** ** What the argsort is free to do *)

Lemma sorted_distinct_unique (l1 l2 : list Z) :
  StronglySorted Z.lt l1 -> StronglySorted Z.lt l2 ->
  (forall x, In x l1 <-> In x l2) -> l1 = l2.
Proof.
  intros H1. revert l2. induction H1 as [|a l1 Hs1 IH Ha]; intros l2 H2 Hin.
  - destruct l2 as [|b l2]; [reflexivity|].
    exfalso. apply (Hin b). left. reflexivity.
  - destruct H2 as [|b l2 Hs2 Hb].
    + exfalso. apply (Hin a). left. reflexivity.
    + rewrite Forall_forall in Ha, Hb.
      assert (Hab : a = b).
      { destruct (proj1 (Hin a) (or_introl eq_refl)) as [Hba|Ha2]; [now symmetry|].
        destruct (proj2 (Hin b) (or_introl eq_refl)) as [Hab|Hb1]; [exact Hab|].
        specialize (Ha b Hb1). specialize (Hb a Ha2). lia. }
      subst b. f_equal. apply IH; [exact Hs2|].
      intros x. split; intros Hx.
      * destruct (proj1 (Hin x) (or_intror Hx)) as [Heq|Hx2]; [|exact Hx2].
        specialize (Ha x Hx). lia.
      * destruct (proj2 (Hin x) (or_intror Hx)) as [Heq|Hx1]; [|exact Hx1].
        specialize (Hb x Hx). lia.
Qed.

Lemma Sorted_le_NoDup_lt (l : list Z) :
  Sorted Z.le l -> NoDup l -> StronglySorted Z.lt l.
Proof.
  intros Hs Hnd. apply Sorted_StronglySorted in Hs; [|intros a b c; apply Z.le_trans].
  induction Hs as [|a l Hs IH Ha]; [constructor|].
  apply NoDup_cons_iff in Hnd. destruct Hnd as [Hnotin Hnd].
  constructor; [apply IH; exact Hnd|].
  rewrite Forall_forall in *. intros x Hx. specialize (Ha x Hx).
  assert (x <> a) by (intros ->; contradiction). lia.
Qed.

Lemma take_rows_valid (keys : list Z) (indexer : list nat) :
  Forall (fun i => (i < List.length keys)%nat) indexer ->
  take_rows indexer keys = map (fun i => nth i keys 0) indexer.
Proof.
  unfold take_rows. induction 1 as [|i indexer Hi _ IH]; simpl; [reflexivity|].
  rewrite IH. destruct (nth_error keys i) as [k|] eqn:E.
  - simpl. f_equal. symmetry. apply nth_error_nth. exact E.
  - apply nth_error_None in E. lia.
Qed.

Lemma indexer_in_range (indexer : list nat) (n : nat) :
  Permutation indexer (seq 0 n) -> Forall (fun i => (i < n)%nat) indexer.
Proof.
  intros H. apply Forall_forall. intros i Hi.
  apply (Permutation_in _ H) in Hi. apply in_seq in Hi. lia.
Qed.

Lemma take_rows_injective (keys : list Z) (i1 i2 : list nat) :
  NoDup keys ->
  Forall (fun i => (i < List.length keys)%nat) i1 ->
  Forall (fun i => (i < List.length keys)%nat) i2 ->
  take_rows i1 keys = take_rows i2 keys -> i1 = i2.
Proof.
  intros Hnd H1 H2. rewrite (take_rows_valid _ _ H1), (take_rows_valid _ _ H2).
  clear -Hnd H1 H2. revert i2 H2.
  induction H1 as [|a i1 Ha _ IH]; intros i2 H2 Heq.
  - destruct i2; [reflexivity | discriminate].
  - destruct H2 as [|b i2 Hb H2]; [discriminate|].
    simpl in Heq. inversion Heq as [[Hab Hrest]].
    f_equal.
    + eapply (proj1 (NoDup_nth keys 0) Hnd); eassumption.
    + apply IH; assumption.
Qed.

(** On distinct keys every argsort that meets the contract of
    [sort_values] returns the same indexer. *)
Lemma argsort_unique (a b : list Z -> list nat) (keys : list Z) :
  argsort_ok a -> argsort_ok b -> NoDup keys -> a keys = b keys.
Proof.
  intros Ha Hb Hnd.
  destruct (Ha keys) as [Pa Sa]. destruct (Hb keys) as [Pb Sb].
  pose proof (take_rows_Permutation _ _ Pa) as Qa.
  pose proof (take_rows_Permutation _ _ Pb) as Qb.
  apply (take_rows_injective keys); try exact Hnd;
    try (apply indexer_in_range; assumption).
  apply sorted_distinct_unique.
  - apply Sorted_le_NoDup_lt; [exact Sa|].
    eapply Permutation_NoDup; [symmetry; exact Qa | exact Hnd].
  - apply Sorted_le_NoDup_lt; [exact Sb|].
    eapply Permutation_NoDup; [symmetry; exact Qb | exact Hnd].
  - intros x. split; intros Hx.
    + eapply Permutation_in; [symmetry; exact Qb|].
      eapply Permutation_in; [exact Qa | exact Hx].
    + eapply Permutation_in; [symmetry; exact Qa|].
      eapply Permutation_in; [exact Qb | exact Hx].
Qed.

Section Indexer.

Context {L : PandasNum}.

(** Only the indexer of the column of instants matters. *)
Lemma clean_and_transform_data_indexer (a b : list Z -> list nat) (has_day_id : bool)
  (df : list TaggedRecord) :
  (forall pts, normalize df = Ok pts -> a (map datetime pts) = b (map datetime pts)) ->
  clean_and_transform_data a has_day_id df = clean_and_transform_data b has_day_id df.
Proof.
  intros H. unfold clean_and_transform_data.
  destruct (normalize df) as [pts|e]; [|reflexivity].
  cbn [bind]. unfold detect_trips, sort_values. now rewrite (H pts eq_refl).
Qed.

Lemma run_analysis_indexer (a b : list Z -> list nat) (fs : string -> file)
  (day_id_of_path : string -> string) (file_paths : list string) :
  (forall all_dfs pts,
      load_files fs day_id_of_path file_paths = Ok all_dfs ->
      normalize (List.concat all_dfs) = Ok pts ->
      a (map datetime pts) = b (map datetime pts)) ->
  run_analysis a fs day_id_of_path file_paths
  = run_analysis b fs day_id_of_path file_paths.
Proof.
  intros H. unfold run_analysis, run_analysis_body.
  destruct file_paths as [|p rest]; [reflexivity|].
  destruct (load_files fs day_id_of_path (p :: rest)) as [all_dfs|e]; [|reflexivity].
  cbn [bind]. destruct all_dfs as [|d ds]; [reflexivity|].
  rewrite (clean_and_transform_data_indexer a b true (List.concat (d :: ds))).
  - reflexivity.
  - intros pts Hpts. eapply H; [reflexivity | exact Hpts].
Qed.

End Indexer.

(** The six orders of three positions. *)
Lemma indexer_of_three (indexer : list nat) :
  Permutation indexer [0; 1; 2]%nat ->
  In indexer [[0; 1; 2]; [0; 2; 1]; [1; 0; 2]; [1; 2; 0]; [2; 0; 1]; [2; 1; 0]]%nat.
Proof.
  intros H. pose proof (Permutation_length H) as Hlen.
  destruct indexer as [|i [|j [|k [|x rest]]]]; try discriminate Hlen.
  assert (Hnd : NoDup [i; j; k]).
  { eapply Permutation_NoDup; [symmetry; exact H|]. apply (seq_NoDup 3 0). }
  assert (Hi : In i [0; 1; 2]%nat) by (eapply Permutation_in; [exact H | simpl; auto]).
  assert (Hj : In j [0; 1; 2]%nat) by (eapply Permutation_in; [exact H | simpl; auto]).
  assert (Hk : In k [0; 1; 2]%nat) by (eapply Permutation_in; [exact H | simpl; auto]).
  apply NoDup_cons_iff in Hnd. destruct Hnd as [Hij Hnd].
  apply NoDup_cons_iff in Hnd. destruct Hnd as [Hjk _].
  simpl in Hi, Hj, Hk, Hij, Hjk |- *.
  destruct Hi as [<-|[<-|[<-|[]]]]; destruct Hj as [<-|[<-|[<-|[]]]];
    destruct Hk as [<-|[<-|[<-|[]]]]; tauto.
Qed.

Lemma Sorted_le_cons_cons (a b : Z) (l : list Z) : Sorted Z.le (a :: b :: l) -> a <= b.
Proof.
  intros H. apply Sorted_inv in H. destruct H as [_ H]. now apply HdRel_inv in H.
Qed.

(** A key followed by two equal, larger keys: the indexer either keeps the
    two in place or swaps them. *)
Lemma argsort_of_tie (argsort : list Z -> list nat) (t0 t1 : Z) :
  argsort_ok argsort -> t0 < t1 ->
  argsort [t0; t1; t1] = [0; 1; 2]%nat \/ argsort [t0; t1; t1] = [0; 2; 1]%nat.
Proof.
  intros Hok Hlt. destruct (Hok [t0; t1; t1]) as [Hp Hs].
  apply indexer_of_three in Hp. simpl in Hp.
  destruct Hp as [E|[E|[E|[E|[E|[E|[]]]]]]]; rewrite <- E in Hs |- *; auto;
    exfalso; cbn in Hs.
  - apply Sorted_le_cons_cons in Hs. lia.
  - apply Sorted_inv in Hs. destruct Hs as [Hs _]. apply Sorted_le_cons_cons in Hs. lia.
  - apply Sorted_le_cons_cons in Hs. lia.
  - apply Sorted_inv in Hs. destruct Hs as [Hs _]. apply Sorted_le_cons_cons in Hs. lia.
Qed.

(* ------------------------------------------------------------------ *)
(** ** When the order of the merged frame does not matter *)

Lemma Forall2_Permutation {A B : Type} (R : A -> B -> Prop) (l1 l2 : list A) :
  Permutation l1 l2 ->
  forall m1, Forall2 R l1 m1 -> exists m2, Forall2 R l2 m2 /\ Permutation m1 m2.
Proof.
  induction 1 as [|x l1 l2 _ IH|x y l|l1 l2 l3 _ IH1 _ IH2]; intros m1 H1.
  - inversion H1; subst. exists []. split; constructor.
  - inversion H1 as [|? b ? m1' Hxb Hrest]; subst.
    destruct (IH m1' Hrest) as [m2 [H2 Hp]].
    exists (b :: m2). split; constructor; assumption.
  - inversion H1 as [|? b ? m1' Hyb Hrest]; subst.
    inversion Hrest as [|? c ? m1'' Hxc Hrest']; subst.
    exists (c :: b :: m1''). split; [repeat constructor; assumption | constructor].
  - destruct (IH1 m1 H1) as [m2 [H2 Hp2]]. destruct (IH2 m2 H2) as [m3 [H3 Hp3]].
    exists m3. split; [exact H3 | etransitivity; eassumption].
Qed.

Lemma Forall2_functional {A B : Type} (R : A -> B -> Prop) (l : list A) (m m' : list B) :
  (forall a b b', R a b -> R a b' -> b = b') ->
  Forall2 R l m -> Forall2 R l m' -> m = m'.
Proof.
  intros Hfun H. revert m'. induction H as [|a b l m Hab _ IH]; intros m' H'.
  - inversion H'. reflexivity.
  - inversion H' as [|? b' ? m'' Hab' Hrest]; subst.
    f_equal; [eapply Hfun; eassumption | apply IH; exact Hrest].
Qed.

(** Rows sorted by a key that no two of them share: one order only. *)
Lemma sorted_points_unique {T : Type} (l1 l2 : list (Point T)) :
  Permutation l1 l2 ->
  Sorted Z.le (map datetime l1) -> Sorted Z.le (map datetime l2) ->
  NoDup (map datetime l1) ->
  l1 = l2.
Proof.
  intros Hperm S1 S2 Hnd.
  assert (Hkeys : map datetime l1 = map datetime l2).
  { apply sorted_distinct_unique.
    - apply Sorted_le_NoDup_lt; assumption.
    - apply Sorted_le_NoDup_lt; [exact S2|].
      eapply Permutation_NoDup; [apply Permutation_map; exact Hperm | exact Hnd].
    - intros x. split; apply Permutation_in;
        [apply Permutation_map; exact Hperm
        | apply Permutation_map; symmetry; exact Hperm]. }
  clear S1 S2. revert l2 Hperm Hkeys.
  induction l1 as [|p l1 IH]; intros l2 Hperm Hkeys.
  - destruct l2; [reflexivity | discriminate].
  - destruct l2 as [|q l2]; [discriminate|].
    simpl in Hkeys. inversion Hkeys as [[Hpq Hrest]].
    simpl in Hnd. apply NoDup_cons_iff in Hnd. destruct Hnd as [Hnotin Hnd].
    assert (Heq : p = q).
    { assert (Hq : In q (p :: l1))
        by (eapply Permutation_in; [symmetry; exact Hperm | left; reflexivity]).
      destruct Hq as [Hq|Hq]; [exact Hq|].
      exfalso. apply Hnotin. rewrite Hpq. apply in_map. exact Hq. }
    subst q. f_equal. apply IH; [exact Hnd | | exact Hrest].
    eapply Permutation_cons_inv. exact Hperm.
Qed.

Section OrderOfTheFrame.

Context {L : PandasNum}.
Variable argsort : list Z -> list nat.
Hypothesis argsort_contract : argsort_ok argsort.

Lemma normalized_functional (r : TaggedRecord) (p p' : Point F) :
  normalized r p -> normalized r p' -> p = p'.
Proof.
  intros [Hraw [Hday [Hdt [[m [Hm Hla]] [[n [Hn Hlo]] [Hd1 [Hd2 Hpop]]]]]]]
         [Hraw' [Hday' [Hdt' [[m' [Hm' Hla']] [[n' [Hn' Hlo']] [Hd1' [Hd2' Hpop']]]]]]].
  destruct p as [r0 d0 t0 la0 lo0 a0 b0 pop0].
  destruct p' as [r1 d1 t1 la1 lo1 a1 b1 pop1].
  cbn [raw day_id datetime latitude longitude data_1_num data_2_num popup_info] in *.
  assert (t0 = t1) by congruence.
  assert (m = m') by congruence. assert (n = n') by congruence.
  assert (a0 = a1) by congruence. assert (b0 = b1) by congruence.
  subst. reflexivity.
Qed.

Lemma normalized_converts (r : TaggedRecord) (p : Point F) :
  normalized r p -> converts r.
Proof.
  intros [_ [_ [Hdt [[m [Hm _]] [[n [Hn _]] [Hd1 [Hd2 _]]]]]]].
  unfold converts. repeat split; congruence.
Qed.

Lemma normalize_Permutation (df1 df2 : list TaggedRecord) (pts1 : list (Point F)) :
  Permutation df1 df2 ->
  normalize df1 = Ok pts1 ->
  exists pts2, normalize df2 = Ok pts2 /\ Permutation pts1 pts2.
Proof.
  intros Hperm H1. apply normalize_rows in H1.
  destruct (Forall2_Permutation normalized df1 df2 Hperm pts1 H1) as [pts2' [H2' Hp]].
  assert (Hconv : Forall converts df2).
  { apply Forall_forall. intros r Hr.
    clear - H2' Hr. induction H2' as [|r' p l m Hrp _ IH]; [contradiction|].
    destruct Hr as [<-|Hr]; [eapply normalized_converts; exact Hrp | apply IH; exact Hr]. }
  destruct (normalize_total df2 Hconv) as [pts2 H2]. exists pts2. split; [exact H2|].
  apply normalize_rows in H2.
  rewrite (Forall2_functional normalized df2 pts2 pts2' normalized_functional H2 H2').
  exact Hp.
Qed.

(** When no two rows of the frame share an instant, the frame that
    [clean_and_transform_data] returns does not depend on the order in
    which the rows were merged. *)
Lemma distinct_instants_ignore_merge_order (has_day_id : bool)
  (df1 df2 : list TaggedRecord) (rows : list (Row F)) :
  Permutation df1 df2 ->
  clean_and_transform_data argsort has_day_id df1 = Ok rows ->
  NoDup (instants rows) ->
  clean_and_transform_data argsort has_day_id df2 = Ok rows.
Proof.
  intros Hperm Hclean Hnd. unfold clean_and_transform_data in *.
  apply bind_Ok_inv in Hclean. destruct Hclean as [pts1 [Hn1 Hrows]].
  inversion Hrows; subst rows. clear Hrows.
  destruct (normalize_Permutation df1 df2 pts1 Hperm Hn1) as [pts2 [Hn2 Hp]].
  rewrite Hn2. cbn [bind]. f_equal.
  assert (Hsorted : sort_values argsort pts2 = sort_values argsort pts1).
  { symmetry. apply sorted_points_unique.
    - rewrite (sort_values_Permutation argsort argsort_contract pts1).
      rewrite (sort_values_Permutation argsort argsort_contract pts2). exact Hp.
    - apply sort_values_Sorted. exact argsort_contract.
    - apply sort_values_Sorted. exact argsort_contract.
    - unfold instants in Hnd. rewrite <- map_map in Hnd.
      rewrite (detect_trips_points argsort) in Hnd. exact Hnd. }
  unfold detect_trips. rewrite Hsorted. reflexivity.
Qed.

(** Every trip of every day is in ascending order of the instants. *)
Lemma trips_in_ascending_instant_order (has_day_id : bool) (df : list TaggedRecord)
  (rows : list (Row F)) (day : string) (day_df : list (Row F))
  (trip : Z) (trip_df : list (Row F)) :
  clean_and_transform_data argsort has_day_id df = Ok rows ->
  In (day, day_df) (groupby (fun r => day_id (point r)) rows) ->
  In (trip, trip_df) (groupby trip_id day_df) ->
  StronglySorted instant_le trip_df.
Proof.
  intros Hclean Hday Htrip. unfold clean_and_transform_data in Hclean.
  apply bind_Ok_inv in Hclean. destruct Hclean as [pts [_ Hrows]].
  inversion Hrows; subst rows.
  apply groupby_group in Hday. destruct Hday as [-> _].
  apply groupby_group in Htrip. destruct Htrip as [-> _].
  apply StronglySorted_filter. apply StronglySorted_filter.
  apply detect_trips_sorted. exact argsort_contract.
Qed.

End OrderOfTheFrame.

(* ------------------------------------------------------------------ *)
(** ** Gaps and trip indices across days *)

Ltac distinct_instants :=
  repeat (constructor; [cbn; intuition discriminate|]); constructor.

Ltac same_indexer Hok :=
  let pts := fresh "pts" in
  let Hpts := fresh "Hpts" in
  intros pts Hpts; vm_compute in Hpts; inversion Hpts; subst pts;
  apply argsort_unique; [exact Hok | exact stable_argsort_ok |];
  cbn [map datetime]; distinct_instants.

(** C1 (as the code behaves).  Two days, one line each, 24 hours apart.
    The gap of the first point of the second day is measured to the last
    point of the first day: 86400 seconds, not 0.  It exceeds the
    threshold, so the first (and only) trip of ["02/01/2024"] gets
    index 1.  This holds for every argsort [sort_values] may use. *)
Theorem C1_first_trip_of_a_later_day_has_index_1 :
  forall argsort : list Z -> list nat,
    argsort_ok argsort ->
    Examples.merged_frame Examples.two_days_disk Examples.two_days_paths
    = Ok Examples.two_days_merged
    /\ segmented (L := Rational.lib) argsort Examples.two_days_merged trip_table
       = Ok [("01/01/2024", "20240101080000", 0, 0);
             ("02/01/2024", "20240102080000", 86400, 1)]
    /\ exported (run_analysis (L := Rational.lib) argsort Examples.two_days_disk
                   Rational.day_id_of_path Examples.two_days_paths)
         trip_ids_by_day
       = Some [("01/01/2024", [0]); ("02/01/2024", [1])].
Proof.
  intros argsort Hok. split; [vm_compute; reflexivity|]. split.
  - unfold segmented.
    rewrite (clean_and_transform_data_indexer argsort stable_argsort).
    + vm_compute. reflexivity.
    + same_indexer Hok.
  - rewrite (run_analysis_indexer argsort stable_argsort).
    + vm_compute. reflexivity.
    + intros all_dfs pts Hload. vm_compute in Hload. inversion Hload; subst all_dfs.
      revert pts. same_indexer Hok.
Qed.

(** The run of [C1_first_trip_of_a_later_day_has_index_1] under the
    stable argsort. *)
Lemma C1_first_trip_witness :
  argsort_ok stable_argsort
  /\ (Examples.merged_frame Examples.two_days_disk Examples.two_days_paths
      = Ok Examples.two_days_merged
      /\ segmented (L := Rational.lib) stable_argsort Examples.two_days_merged trip_table
         = Ok [("01/01/2024", "20240101080000", 0, 0);
               ("02/01/2024", "20240102080000", 86400, 1)]
      /\ exported (run_analysis (L := Rational.lib) stable_argsort Examples.two_days_disk
                     Rational.day_id_of_path Examples.two_days_paths)
           trip_ids_by_day
         = Some [("01/01/2024", [0]); ("02/01/2024", [1])]).
Proof.
  split; [exact stable_argsort_ok|].
  exact (C1_first_trip_of_a_later_day_has_index_1 stable_argsort stable_argsort_ok).
Defined.

(** C5 (as the code behaves).  Two sources over the same hour.  The gaps
    are measured in the sorted frame of both: 1000 seconds to the point of
    [rear], then 1500 seconds to the second point of [front].  Neither
    exceeds 1800, so the two points of [front], 2500 seconds apart, are in
    one trip.  This holds for every argsort [sort_values] may use. *)
Theorem C5_gap_inside_a_trip_exceeds_the_threshold :
  forall argsort : list Z -> list nat,
    argsort_ok argsort ->
    Examples.merged_frame Examples.overlap_disk Examples.overlap_paths
    = Ok Examples.overlap_merged
    /\ trip_threshold = 1800
    /\ segmented (L := Rational.lib) argsort Examples.overlap_merged trip_table
       = Ok [("front", "20240101080000", 0, 0);
             ("rear", "20240101081640", 1000, 0);
             ("front", "20240101084140", 1500, 0)]
    /\ segmented (L := Rational.lib) argsort Examples.overlap_merged gaps_by_trip
       = Ok [("front", [(0, [2500])]); ("rear", [(0, [])])]
    /\ exported (run_analysis (L := Rational.lib) argsort Examples.overlap_disk
                   Rational.day_id_of_path Examples.overlap_paths)
         times_by_trip
       = Some [("front", [(0, ["08:00:00"; "08:41:40"])]);
               ("rear", [(0, ["08:16:40"])])].
Proof.
  intros argsort Hok. split; [vm_compute; reflexivity|].
  split; [reflexivity|].
  assert (Hclean : clean_and_transform_data (L := Rational.lib) argsort true
                     Examples.overlap_merged
                   = clean_and_transform_data (L := Rational.lib) stable_argsort true
                       Examples.overlap_merged).
  { apply clean_and_transform_data_indexer. same_indexer Hok. }
  split; [|split].
  - unfold segmented. rewrite Hclean. vm_compute. reflexivity.
  - unfold segmented. rewrite Hclean. vm_compute. reflexivity.
  - rewrite (run_analysis_indexer argsort stable_argsort).
    + vm_compute. reflexivity.
    + intros all_dfs pts Hload. vm_compute in Hload. inversion Hload; subst all_dfs.
      revert pts. same_indexer Hok.
Qed.

(** The run of [C5_gap_inside_a_trip_exceeds_the_threshold] under the
    stable argsort. *)
Lemma C5_gap_inside_a_trip_witness :
  argsort_ok stable_argsort
  /\ (Examples.merged_frame Examples.overlap_disk Examples.overlap_paths
      = Ok Examples.overlap_merged
      /\ trip_threshold = 1800
      /\ segmented (L := Rational.lib) stable_argsort Examples.overlap_merged trip_table
         = Ok [("front", "20240101080000", 0, 0);
               ("rear", "20240101081640", 1000, 0);
               ("front", "20240101084140", 1500, 0)]
      /\ segmented (L := Rational.lib) stable_argsort Examples.overlap_merged gaps_by_trip
         = Ok [("front", [(0, [2500])]); ("rear", [(0, [])])]
      /\ exported (run_analysis (L := Rational.lib) stable_argsort Examples.overlap_disk
                     Rational.day_id_of_path Examples.overlap_paths)
           times_by_trip
         = Some [("front", [(0, ["08:00:00"; "08:41:40"])]);
                 ("rear", [(0, ["08:16:40"])])]).
Proof.
  split; [exact stable_argsort_ok|].
  exact (C5_gap_inside_a_trip_exceeds_the_threshold stable_argsort stable_argsort_ok).
Defined.

(** C7 (as the code behaves).  The same three points merged in two
    orders: [P] and [X] of day ["a"], [Y] of day ["b"], [X] and [Y] at the
    same instant 5000 seconds after [P].  The gap of 5000 seconds goes to
    whichever of [X] and [Y] the sort puts first, and the other one gets 0.
    An argsort sees the instants only, so it orders the two frames by the
    same positions, and the memberships of the two runs differ, whatever
    the argsort. *)
Theorem C7_same_points_in_another_order_other_trips :
  forall argsort : list Z -> list nat,
    argsort_ok argsort ->
    Permutation Examples.tie_merged_1 Examples.tie_merged_2
    /\ Examples.merged_frame Examples.tie_disk Examples.tie_paths_1
       = Ok Examples.tie_merged_1
    /\ Examples.merged_frame Examples.tie_disk Examples.tie_paths_2
       = Ok Examples.tie_merged_2
    /\ exists m1 m2,
         segmented (L := Rational.lib) argsort Examples.tie_merged_1 membership = Ok m1
         /\ segmented (L := Rational.lib) argsort Examples.tie_merged_2 membership = Ok m2
         /\ ~ Permutation m1 m2.
Proof.
  intros argsort Hok.
  split; [unfold Examples.tie_merged_1, Examples.tie_merged_2; repeat constructor|].
  split; [vm_compute; reflexivity|].
  split; [vm_compute; reflexivity|].
  assert (Hcases :
    forall df,
      (forall pts, normalize (L := Rational.lib) df = Ok pts ->
                   map datetime pts = [1704096000; 1704101000; 1704101000]) ->
      (argsort [1704096000; 1704101000; 1704101000] = [0; 1; 2]%nat ->
       clean_and_transform_data (L := Rational.lib) argsort true df
       = clean_and_transform_data (L := Rational.lib) stable_argsort true df)
      /\ (argsort [1704096000; 1704101000; 1704101000] = [0; 2; 1]%nat ->
          clean_and_transform_data (L := Rational.lib) argsort true df
          = clean_and_transform_data (L := Rational.lib) tie_reversing_argsort true df)).
  { intros df Hkeys. split; intros E; apply clean_and_transform_data_indexer;
      intros pts Hpts; rewrite (Hkeys pts Hpts), E; reflexivity. }
  assert (H1 : forall pts, normalize (L := Rational.lib) Examples.tie_merged_1 = Ok pts ->
                           map datetime pts = [1704096000; 1704101000; 1704101000]).
  { intros pts Hpts. vm_compute in Hpts. inversion Hpts; subst pts. reflexivity. }
  assert (H2 : forall pts, normalize (L := Rational.lib) Examples.tie_merged_2 = Ok pts ->
                           map datetime pts = [1704096000; 1704101000; 1704101000]).
  { intros pts Hpts. vm_compute in Hpts. inversion Hpts; subst pts. reflexivity. }
  destruct (Hcases _ H1) as [S1 R1]. destruct (Hcases _ H2) as [S2 R2].
  unfold segmented.
  destruct (argsort_of_tie argsort 1704096000 1704101000 Hok ltac:(lia)) as [E|E].
  - rewrite (S1 E), (S2 E). eexists. eexists.
    split; [vm_compute; reflexivity|]. split; [vm_compute; reflexivity|].
    intros Hperm.
    assert (Hin := Permutation_in
                     (raw_of Examples.point_X, "a", 1) Hperm
                     (or_intror (or_introl eq_refl))).
    simpl in Hin. unfold Examples.point_X in Hin. simpl in Hin.
    destruct Hin as [Hin|[Hin|[Hin|[]]]]; discriminate Hin.
  - rewrite (R1 E), (R2 E). eexists. eexists.
    split; [vm_compute; reflexivity|]. split; [vm_compute; reflexivity|].
    intros Hperm.
    assert (Hin := Permutation_in
                     (raw_of Examples.point_X, "a", 0) Hperm
                     (or_intror (or_intror (or_introl eq_refl)))).
    simpl in Hin. unfold Examples.point_X in Hin. simpl in Hin.
    destruct Hin as [Hin|[Hin|[Hin|[]]]]; discriminate Hin.
Qed.

(** The run of [C7_same_points_in_another_order_other_trips] under the
    stable argsort, with what segmentation decides in each order. *)
Lemma C7_same_points_witness :
  argsort_ok stable_argsort
  /\ segmented (L := Rational.lib) stable_argsort Examples.tie_merged_1 trip_table
     = Ok [("a", "20240101080000", 0, 0); ("a", "20240101092320", 5000, 1);
           ("b", "20240101092320", 0, 0)]
  /\ segmented (L := Rational.lib) stable_argsort Examples.tie_merged_2 trip_table
     = Ok [("a", "20240101080000", 0, 0); ("b", "20240101092320", 5000, 1);
           ("a", "20240101092320", 0, 0)]
  /\ (Permutation Examples.tie_merged_1 Examples.tie_merged_2
      /\ Examples.merged_frame Examples.tie_disk Examples.tie_paths_1
         = Ok Examples.tie_merged_1
      /\ Examples.merged_frame Examples.tie_disk Examples.tie_paths_2
         = Ok Examples.tie_merged_2
      /\ exists m1 m2,
           segmented (L := Rational.lib) stable_argsort Examples.tie_merged_1 membership
           = Ok m1
           /\ segmented (L := Rational.lib) stable_argsort Examples.tie_merged_2 membership
              = Ok m2
           /\ ~ Permutation m1 m2).
Proof.
  split; [exact stable_argsort_ok|].
  split; [vm_compute; reflexivity|].
  split; [vm_compute; reflexivity|].
  exact (C7_same_points_in_another_order_other_trips stable_argsort stable_argsort_ok).
Defined.

(* ------------------------------------------------------------------ *)
(** ** The scenarios of the specification *)

(** 2100 seconds apart: one day, two trips of one point. *)
Example scenario_two_trips :
  exported (run_analysis (L := Rational.lib) stable_argsort Examples.scenario_far_disk
              Rational.day_id_of_path ["20240101.dat"])
    (map (fun d => (d_day_id d,
                    map (fun t => (t_id t, t_point_count t, t_distance_km_str t))
                        (d_trips d))))
  = Some [("01/01/2024", [(0, 1%nat, "0.00 km"); (1, 1%nat, "0.00 km")])].
Proof. vm_compute. reflexivity. Qed.

(** 300 seconds apart: one trip of two points, lasting ["5min"]. *)
Example scenario_one_trip :
  exported (run_analysis (L := Rational.lib) stable_argsort Examples.scenario_near_disk
              Rational.day_id_of_path ["20240101.dat"])
    (map (fun d => (d_day_id d,
                    map (fun t => (t_id t, t_point_count t, t_duration_str t,
                                   List.length (t_time_groups t)))
                        (d_trips d))))
  = Some [("01/01/2024", [(0, 2%nat, "5min", 11%nat)])].
Proof. vm_compute. reflexivity. Qed.

(* ================================================================== *)
(** * Further properties of the program *)

(* ------------------------------------------------------------------ *)
(** ** What [read_and_parse_data] returns *)

Lemma rows_of_parts_width (data : list (list string)) :
  Forall (fun parts => List.length parts = 7%nat) data ->
  rows_of_parts data <> None.
Proof.
  induction 1 as [|parts data Hlen _ IH]; simpl; [discriminate|].
  destruct parts as [|a [|b [|c [|d [|e [|f [|g [|h t]]]]]]]]; try discriminate Hlen.
  simpl. destruct (rows_of_parts data); [discriminate | contradiction].
Qed.

Lemma rows_of_parts_fields (data : list (list string)) (rows : list RawRecord) :
  rows_of_parts data = Some rows -> map fields rows = data.
Proof.
  revert rows. induction data as [|parts data IH]; simpl; intros rows H.
  - inversion H. reflexivity.
  - destruct (row_of_parts parts) as [r|] eqn:Hr; [|discriminate].
    destruct (rows_of_parts data) as [rs|]; [|discriminate].
    inversion H; subst. simpl. rewrite (IH rs eq_refl). f_equal.
    destruct parts as [|a [|b [|c [|d [|e [|f [|g [|h t]]]]]]]]; try discriminate Hr.
    inversion Hr. reflexivity.
Qed.

Lemma list_max_eq_all (l : list nat) (n : nat) :
  Forall (fun m => (n <= m)%nat) l -> list_max l = n -> Forall (fun m => m = n) l.
Proof.
  intros Hge Hmax. apply Forall_forall. intros m Hm.
  pose proof (list_max_ge l m Hm) as Hle. rewrite Forall_forall in Hge.
  specialize (Hge m Hm). lia.
Qed.

Lemma list_max_In (l : list nat) : l <> [] -> In (list_max l) l.
Proof.
  induction l as [|m l IH]; [congruence|]. intros _. simpl.
  destruct l as [|m' l'].
  - left. simpl. lia.
  - specialize (IH ltac:(discriminate)).
    destruct (Nat.max_spec m (list_max (m' :: l'))) as [[_ E]|[_ E]]; rewrite E.
    + right. exact IH.
    + left. reflexivity.
Qed.

Lemma read_and_parse_data_Ok_fields (lines : list string) (rows : list RawRecord) :
  read_and_parse_data (Some lines) = Ok rows ->
  rows <> [] /\ map fields rows = collect_data_lines lines.
Proof.
  intros Hread.
  split; [exact (read_and_parse_data_nonempty (Some lines) rows Hread)|].
  unfold read_and_parse_data in Hread.
  destruct (collect_data_lines lines) as [|p ps] eqn:Hc; [discriminate|].
  unfold DataFrame in Hread. destruct (_ =? 7)%nat; [|discriminate].
  destruct (rows_of_parts (p :: ps)) as [rs|] eqn:Hr; simpl in Hread; [|discriminate].
  inversion Hread; subst rs. apply rows_of_parts_fields. exact Hr.
Qed.



Lemma split_comma_nonempty (s : string) : Text.split_comma s <> [].
Proof.
  destruct s as [|c r]; [discriminate|]. cbn -[Ascii.eqb].
  destruct (Ascii.eqb c ","); [discriminate|].
  destruct (Text.split_comma r); discriminate.
Qed.

Lemma join_comma_cons_char (c : ascii) (hd : string) (tl : list string) :
  join_comma (String c hd :: tl) = String c (join_comma (hd :: tl)).
Proof. destruct tl; reflexivity. Qed.

(** Splitting at the commas loses nothing: joining gives the line back. *)
Lemma join_split_comma (s : string) : join_comma (Text.split_comma s) = s.
Proof.
  induction s as [|c r IH]; [reflexivity|]. cbn -[Ascii.eqb join_comma].
  destruct (Ascii.eqb_spec c ",") as [->|Hc].
  - destruct (Text.split_comma r) as [|a t] eqn:E.
    + exfalso. eapply split_comma_nonempty. exact E.
    + change (join_comma (EmptyString :: a :: t)) with ("," ++ join_comma (a :: t)).
      rewrite IH. reflexivity.
  - destruct (Text.split_comma r) as [|a t] eqn:E.
    + exfalso. eapply split_comma_nonempty. exact E.
    + rewrite join_comma_cons_char, IH. reflexivity.
Qed.

Lemma has_comma_cons (c : ascii) (s : string) :
  has_comma (String c s) = Ascii.eqb "," c || has_comma s.
Proof. reflexivity. Qed.

Lemma split_comma_parts (s : string) :
  Forall (fun part => has_comma part = false) (Text.split_comma s).
Proof.
  induction s as [|c r IH]; [repeat constructor|].
  cbn -[Ascii.eqb].
  destruct (Ascii.eqb_spec c ",") as [->|Hc].
  - constructor; [reflexivity | exact IH].
  - assert (Hc' : Ascii.eqb "," c = false) by (apply Ascii.eqb_neq; congruence).
    destruct (Text.split_comma r) as [|a t].
    + constructor; [|constructor]. now rewrite has_comma_cons, Hc'.
    + inversion IH as [|? ? Ha Ht]; subst. constructor; [|exact Ht].
      now rewrite has_comma_cons, Hc', Ha.
Qed.

Lemma digit_is_no_comma (c : ascii) : Text.is_digit c = true -> Ascii.eqb "," c = false.
Proof.
  destruct c as [[] [] [] [] [] [] [] []]; simpl; intros H; try reflexivity; discriminate H.
Qed.

Lemma eat_digits_prefix (n : nat) (s rest : string) :
  Text.eat_digits n s = Some rest ->
  exists pre, s = pre ++ rest /\ String.length pre = n /\ all_digits pre = true.
Proof.
  revert s. induction n as [|n IH]; simpl; intros s H.
  - inversion H. exists EmptyString. repeat split.
  - destruct s as [|c r]; [discriminate|].
    destruct (Text.is_digit c) eqn:Hc; [|discriminate].
    destruct (IH r H) as [pre [-> [Hlen Hd]]].
    exists (String c pre). simpl. repeat split; [now rewrite Hlen|].
    unfold all_digits in *. simpl. now rewrite Hc, Hd.
Qed.

Lemma split_comma_after_digits (pre rest : string) :
  all_digits pre = true ->
  Text.split_comma (pre ++ String "," rest) = pre :: Text.split_comma rest.
Proof.
  induction pre as [|c pre IH]; intros Hd; [reflexivity|].
  unfold all_digits in Hd. cbn [list_ascii_of_string forallb] in Hd.
  apply andb_true_iff in Hd. destruct Hd as [Hc Hd].
  cbn -[Ascii.eqb]. rewrite (IH Hd).
  apply digit_is_no_comma in Hc. rewrite Ascii.eqb_sym in Hc. now rewrite Hc.
Qed.

Lemma match_timestamp_first_field (line : string) :
  Text.match_timestamp line = true ->
  exists first rest,
    Text.split_comma line = first :: rest
    /\ String.length first = 14%nat /\ all_digits first = true.
Proof.
  unfold Text.match_timestamp. intros H.
  destruct (Text.eat_digits 14 line) as [[|c rest]|] eqn:E; try discriminate.
  apply Ascii.eqb_eq in H. subst c.
  destruct (eat_digits_prefix _ _ _ E) as [pre [-> [Hlen Hd]]].
  exists pre, (Text.split_comma rest). split; [|split; assumption].
  apply split_comma_after_digits. exact Hd.
Qed.

Lemma match_timestamp_line (line : string) :
  Text.match_timestamp line = true ->
  line <> EmptyString /\ Text.startswith_hash line = false.
Proof.
  unfold Text.match_timestamp. intros H.
  destruct line as [|c r]; [discriminate|]. split; [discriminate|].
  simpl in H. destruct (Text.is_digit c) eqn:Hc; [|discriminate].
  simpl. destruct c as [[] [] [] [] [] [] [] []]; try reflexivity; discriminate Hc.
Qed.

Lemma collect_data_lines_kept (lines : list string) :
  collect_data_lines lines
  = map (fun raw_line => Text.split_comma (Text.strip raw_line))
        (filter is_kept_line lines).
Proof.
  induction lines as [|raw_line rest IH]; [reflexivity|].
  cbn -[Nat.leb Text.strip Text.match_timestamp Text.split_comma Text.startswith_hash].
  unfold is_kept_line at 1.
  destruct (Text.match_timestamp (Text.strip raw_line)) eqn:Hm.
  - destruct (match_timestamp_line _ Hm) as [Hne Hhash].
    destruct (Text.strip raw_line) as [|c s] eqn:Hs; [congruence|].
    rewrite Hhash.
    destruct (7 <=? List.length (Text.split_comma (String c s)))%nat;
      cbn [andb map]; now rewrite IH, ?Hs.
  - cbn [andb]. destruct (Text.strip raw_line) as [|c s]; [exact IH|].
    destruct (Text.startswith_hash (String c s)); exact IH.
Qed.

Lemma map_eq_Forall2 {A B C : Type} (f : A -> C) (g : B -> C) (l : list A) (l' : list B) :
  map f l = map g l' -> Forall2 (fun a b => f a = g b) l l'.
Proof.
  revert l'. induction l as [|a l IH]; intros [|b l'] H; try discriminate; constructor.
  - now inversion H.
  - apply IH. now inversion H.
Qed.



(* ------------------------------------------------------------------ *)
(** ** When [clean_and_transform_data] raises *)

Lemma Forall2_Forall_left {A B : Type} (R : A -> B -> Prop) (P : A -> Prop)
  (l : list A) (m : list B) :
  (forall a b, R a b -> P a) -> Forall2 R l m -> Forall P l.
Proof.
  intros HP. induction 1 as [|a b l m Hab _ IH]; constructor; [eapply HP; exact Hab | exact IH].
Qed.

(** [clean_and_transform_data] returns a frame exactly when every cell of
    every row converts.  One cell that does not convert makes it raise for
    the whole frame, with the error of a column in which a row fails. *)
Theorem clean_and_transform_data_needs_every_cell :
  forall (L : PandasNum) (argsort : list Z -> list nat) (has_day_id : bool)
         (df : list TaggedRecord),
    ((exists rows, clean_and_transform_data argsort has_day_id df = Ok rows)
     <-> Forall converts df)
    /\ (forall e,
          clean_and_transform_data argsort has_day_id df = Err e ->
          exists name r,
            e = ConversionError name
            /\ In name ["timestamp_str"; "lat"; "lon"; "data_1"; "data_2"]
            /\ In r df /\ ~ converts r).
Proof.
  intros L argsort has_day_id df. split; [split|].
  - intros [rows Hclean]. unfold clean_and_transform_data in Hclean.
    apply bind_Ok_inv in Hclean. destruct Hclean as [pts [Hpts _]].
    apply normalize_rows in Hpts.
    eapply Forall2_Forall_left; [|exact Hpts]. intros r p. apply normalized_converts.
  - intros Hall. destruct (normalize_total df Hall) as [pts Hpts].
    unfold clean_and_transform_data. rewrite Hpts. eexists. reflexivity.
  - intros e Hclean. unfold clean_and_transform_data in Hclean.
    destruct (normalize df) as [pts|e'] eqn:Hn; [discriminate Hclean|].
    cbn [bind] in Hclean. inversion Hclean; subst e'. clear Hclean.
    unfold normalize in Hn.
    assert (Hcol : forall (A : Type) name (conv : string -> option A) cell,
               convert_column name conv cell df = Err e ->
               e = ConversionError name
               /\ exists r, In r df /\ conv (cell (raw_of r)) = None).
    { intros A name conv cell Hc. split; [eapply convert_column_Err; exact Hc|].
      unfold convert_column in Hc. apply mapM_Err_inv in Hc.
      destruct Hc as [r [Hr Hf]]. exists r. split; [exact Hr|].
      destruct (conv (cell (raw_of r))); [discriminate Hf | reflexivity]. }
    destruct (convert_column "timestamp_str" to_datetime timestamp_str df) eqn:E1;
      cbn [bind] in Hn;
      [| inversion Hn; subst; destruct (Hcol _ _ _ _ E1) as [-> [r [Hr Hf]]];
         exists "timestamp_str", r; split; [reflexivity|]; split; [simpl; tauto|]; split; [exact Hr|];
         intros [Hc1 [Hc2 [Hc3 [Hc4 Hc5]]]]; congruence ].
    destruct (convert_column "lat" to_numeric lat df) eqn:E2; cbn [bind] in Hn;
      [| inversion Hn; subst; destruct (Hcol _ _ _ _ E2) as [-> [r [Hr Hf]]];
         exists "lat", r; split; [reflexivity|]; split; [simpl; tauto|]; split; [exact Hr|];
         intros [Hc1 [Hc2 [Hc3 [Hc4 Hc5]]]]; congruence ].
    destruct (convert_column "lon" to_numeric lon df) eqn:E3; cbn [bind] in Hn;
      [| inversion Hn; subst; destruct (Hcol _ _ _ _ E3) as [-> [r [Hr Hf]]];
         exists "lon", r; split; [reflexivity|]; split; [simpl; tauto|]; split; [exact Hr|];
         intros [Hc1 [Hc2 [Hc3 [Hc4 Hc5]]]]; congruence ].
    destruct (convert_column "data_1" to_numeric data_1 df) eqn:E4; cbn [bind] in Hn;
      [| inversion Hn; subst; destruct (Hcol _ _ _ _ E4) as [-> [r [Hr Hf]]];
         exists "data_1", r; split; [reflexivity|]; split; [simpl; tauto|]; split; [exact Hr|];
         intros [Hc1 [Hc2 [Hc3 [Hc4 Hc5]]]]; congruence ].
    destruct (convert_column "data_2" to_numeric data_2 df) eqn:E5; cbn [bind] in Hn;
      [| inversion Hn; subst; destruct (Hcol _ _ _ _ E5) as [-> [r [Hr Hf]]];
         exists "data_2", r; split; [reflexivity|]; split; [simpl; tauto|]; split; [exact Hr|];
         intros [Hc1 [Hc2 [Hc3 [Hc4 Hc5]]]]; congruence ].
    discriminate Hn.
Qed.

(* ------------------------------------------------------------------ *)
(** ** [groupby(...).transform] *)

Lemma find_app_first {A : Type} (P : A -> bool) (l1 l2 : list A) :
  find P (l1 ++ l2) = match find P l1 with
                      | Some x => Some x
                      | None => find P l2
                      end.
Proof.
  induction l1 as [|a l1 IH]; simpl; [reflexivity|]. destruct (P a); [reflexivity | exact IH].
Qed.

Lemma find_flat_map_none {A B : Type} (P : B -> bool) (h : A -> list B) (l : list A) :
  (forall x, In x l -> find P (h x) = None) -> find P (flat_map h l) = None.
Proof.
  induction l as [|a l IH]; simpl; intros H; [reflexivity|].
  rewrite find_app_first, (H a (or_introl eq_refl)). apply IH.
  intros x Hx. apply H. right. exact Hx.
Qed.

Lemma filter_map_swap {A B : Type} (f : A -> B) (P : B -> bool) (l : list A) :
  filter P (map f l) = map f (filter (fun a => P (f a)) l).
Proof.
  induction l as [|a l IH]; simpl; [reflexivity|].
  destruct (P (f a)); simpl; now rewrite IH.
Qed.

Lemma combine_map_seq {A B : Type} (g : nat -> B) (l : list A) (s : list nat) :
  combine l (map g s) = map (fun ir => (snd ir, g (fst ir))) (combine s l).
Proof.
  revert l. induction s as [|i s IH]; intros [|a l]; simpl; try reflexivity.
  now rewrite IH.
Qed.

Lemma map_fst_combine_seq {A : Type} (l : list A) (start : nat) :
  map fst (combine (seq start (List.length l)) l) = seq start (List.length l).
Proof.
  revert start. induction l as [|a l IH]; simpl; intros start; [reflexivity|].
  now rewrite IH.
Qed.

Lemma map_snd_combine_seq_rows {A : Type} (l : list A) (start : nat) :
  map snd (combine (seq start (List.length l)) l) = l.
Proof.
  revert start. induction l as [|a l IH]; simpl; intros start; [reflexivity|].
  now rewrite IH.
Qed.

Lemma NoDup_map_filter {A B : Type} (f : A -> B) (P : A -> bool) (l : list A) :
  NoDup (map f l) -> NoDup (map f (filter P l)).
Proof.
  induction l as [|a l IH]; simpl; intros H; [constructor|].
  apply NoDup_cons_iff in H. destruct H as [Hnotin H].
  destruct (P a); simpl; [|apply IH; exact H].
  constructor; [|apply IH; exact H].
  intros Hin. apply Hnotin. apply in_map_iff in Hin. destruct Hin as [x [Hx Hin]].
  apply filter_In in Hin. rewrite <- Hx. apply in_map. tauto.
Qed.

Lemma NoDup_map_fst_unique {A B : Type} (l : list (A * B)) (i : A) (r r' : B) :
  NoDup (map fst l) -> In (i, r) l -> In (i, r') l -> r = r'.
Proof.
  induction l as [|[j x] l IH]; simpl; intros Hnd H1 H2; [contradiction|].
  apply NoDup_cons_iff in Hnd. destruct Hnd as [Hnotin Hnd].
  destruct H1 as [H1|H1], H2 as [H2|H2].
  - congruence.
  - inversion H1; subst. exfalso. apply Hnotin.
    change i with (fst (i, r')). apply in_map. exact H2.
  - inversion H2; subst. exfalso. apply Hnotin.
    change i with (fst (i, r)). apply in_map. exact H1.
  - apply IH; assumption.
Qed.

(** Looking the positions of a group up in its own cells gives the cells. *)
Lemma lookup_own_cells (idxs : list nat) (out : list Z) :
  NoDup idxs -> List.length out = List.length idxs ->
  map (fun i => match find (fun p => Nat.eqb (fst p) i) (combine idxs out) with
                | Some p => snd p
                | None => 0
                end) idxs
  = out.
Proof.
  revert out. induction idxs as [|i idxs IH]; intros out Hnd Hlen.
  - destruct out; [reflexivity | discriminate].
  - destruct out as [|v out]; [discriminate|].
    apply NoDup_cons_iff in Hnd. destruct Hnd as [Hnotin Hnd].
    cbn [combine map find fst]. rewrite Nat.eqb_refl. cbn [snd]. f_equal.
    etransitivity; [|apply (IH out Hnd); simpl in Hlen; lia].
    apply map_ext_in. intros j Hj. cbn [find fst].
    destruct (Nat.eqb_spec i j) as [->|Hne]; [contradiction | reflexivity].
Qed.

Section Transform.

Context {A K : Type} `{OrdKeyLaws K}.
Variable key : A -> K.
Variable col : A -> Z.
Variable f : list Z -> list Z.
Hypothesis f_length : forall l, List.length (f l) = List.length l.

(** Seen from one key: the cells of [transform] at the rows of a key, in
    frame order, are what [f] returns on the column of that key. *)
Lemma transform_by_key (df : list A) (k : K) :
  map snd (filter (fun p => key_eqb (key (fst p)) k)
             (combine df (transform key col f df)))
  = f (map col (filter (fun r => key_eqb (key r) k) df)).
Proof.
  unfold transform.
  set (indexed := combine (seq 0 (List.length df)) df).
  set (G := fun k' => filter (fun ir : nat * A => key_eqb (key (snd ir)) k') indexed).
  set (cells := fun k' => combine (map fst (G k'))
                            (f (map (fun ir : nat * A => col (snd ir)) (G k')))).
  assert (Hplaced :
    flat_map (fun g : K * list (nat * A) =>
                combine (map fst (snd g)) (f (map (fun ir => col (snd ir)) (snd g))))
             (groupby (fun ir : nat * A => key (snd ir)) indexed)
    = flat_map cells (sorted_unique (map (fun ir : nat * A => key (snd ir)) indexed))).
  { unfold groupby. rewrite flat_map_concat_map, map_map, <- flat_map_concat_map.
    reflexivity. }
  rewrite Hplaced. clear Hplaced.
  set (keys := sorted_unique (map (fun ir : nat * A => key (snd ir)) indexed)).
  set (lookup := fun (placed : list (nat * Z)) (i : nat) =>
                   match find (fun p => Nat.eqb (fst p) i) placed with
                   | Some p => snd p
                   | None => 0
                   end).
  change (map snd (filter (fun p => key_eqb (key (fst p)) k)
                     (combine df (map (lookup (flat_map cells keys))
                                      (seq 0 (List.length df)))))
          = f (map col (filter (fun r => key_eqb (key r) k) df))).
  rewrite combine_map_seq. fold indexed.
  rewrite filter_map_swap, map_map. cbn [fst snd]. fold (G k).
  assert (Hfst : NoDup (map fst indexed)).
  { unfold indexed. rewrite map_fst_combine_seq. apply seq_NoDup. }
  assert (Hsnd : map snd (G k) = filter (fun r => key_eqb (key r) k) df).
  { unfold G.
    rewrite <- (filter_map_swap snd (fun r => key_eqb (key r) k) indexed).
    unfold indexed. now rewrite map_snd_combine_seq_rows. }
  rewrite <- Hsnd, map_map.
  rewrite <- (lookup_own_cells (map fst (G k))
                (f (map (fun ir : nat * A => col (snd ir)) (G k)))).
  - rewrite map_map. apply map_ext_in. intros [i r] Hir. cbn [fst].
    fold (cells k). unfold lookup.
    assert (Hfind : find (fun p => Nat.eqb (fst p) i) (flat_map cells keys)
                    = find (fun p => Nat.eqb (fst p) i) (cells k)); [|now rewrite Hfind].
    assert (Hkey : key r = k).
    { unfold G in Hir. apply filter_In in Hir. apply key_eqb_eq. apply Hir. }
    assert (Hin : In (i, r) indexed) by (unfold G in Hir; apply filter_In in Hir; apply Hir).
    assert (Hk : In k keys).
    { unfold keys. apply In_sorted_unique. apply in_map_iff. exists (i, r). split; assumption. }
    assert (Hother : forall k', k' <> k ->
                       find (fun p => Nat.eqb (fst p) i) (cells k') = None).
    { intros k' Hne. destruct (find _ (cells k')) as [p|] eqn:Ef; [|reflexivity].
      exfalso. apply find_some in Ef. destruct Ef as [Hp Hi].
      apply Nat.eqb_eq in Hi. unfold cells in Hp. destruct p as [j v]. cbn [fst] in Hi. subst j.
      apply in_combine_l in Hp. apply in_map_iff in Hp. destruct Hp as [[i' r'] [Hi' Hg]].
      cbn [fst] in Hi'. subst i'. unfold G in Hg. apply filter_In in Hg.
      destruct Hg as [Hin' Hk']. apply key_eqb_eq in Hk'. cbn [snd] in Hk'.
      rewrite (NoDup_map_fst_unique indexed i r r' Hfst Hin Hin') in Hkey. congruence. }
    clear - Hk Hother H0. induction keys as [|k0 keys IH]; [contradiction|].
    cbn [flat_map]. rewrite find_app_first.
    destruct (key_eqb k0 k) eqn:E.
    + apply key_eqb_eq in E. subst k0.
      destruct (find (fun p => Nat.eqb (fst p) i) (cells k)) as [p|] eqn:Ef; [reflexivity|].
      apply find_flat_map_none. intros x Hx.
      destruct (key_eqb x k) eqn:Ex.
      * apply key_eqb_eq in Ex. subst x. exact Ef.
      * apply Hother. intros ->. rewrite (proj2 (key_eqb_eq k k) eq_refl) in Ex. discriminate.
    + rewrite Hother.
      * destruct Hk as [->|Hk].
        -- rewrite (proj2 (key_eqb_eq k k) eq_refl) in E. discriminate.
        -- apply IH. exact Hk.
      * intros ->. rewrite (proj2 (key_eqb_eq k k) eq_refl) in E. discriminate.
  - unfold G. apply NoDup_map_filter. exact Hfst.
  - now rewrite f_length, !length_map.
Qed.

End Transform.

(* ------------------------------------------------------------------ *)
(** ** The columns [time_diff] and [trip_id] *)

Lemma key_eqb_string (a b : string) : key_eqb a b = String.eqb a b.
Proof.
  destruct (String.eqb_spec a b) as [Heq|Hne].
  - apply key_eqb_eq. exact Heq.
  - destruct (key_eqb a b) eqn:E; [|reflexivity].
    apply key_eqb_eq in E. contradiction.
Qed.

Lemma map_pair_combine {A B C : Type} (g1 : A -> B) (g2 : A -> C) (l : list A) :
  map (fun a => (g1 a, g2 a)) l = combine (map g1 l) (map g2 l).
Proof. induction l as [|a l IH]; simpl; [reflexivity | now rewrite IH]. Qed.

Lemma map_fst_combine_long {A B : Type} (l : list A) (l' : list B) :
  List.length l = List.length l' -> map fst (combine l l') = l.
Proof.
  revert l'. induction l as [|a l IH]; intros [|b l'] Hlen; try discriminate; [reflexivity|].
  simpl. f_equal. apply IH. simpl in Hlen. lia.
Qed.

Lemma map_snd_combine_long {A B : Type} (l : list A) (l' : list B) :
  List.length l = List.length l' -> map snd (combine l l') = l'.
Proof.
  revert l'. induction l as [|a l IH]; intros [|b l'] Hlen; try discriminate; [reflexivity|].
  simpl. f_equal. apply IH. simpl in Hlen. lia.
Qed.

(** In the column of differences, a cell is its instant minus the one
    before. *)
Lemma diff_from_adjacent (ts : list Z) :
  forall prev pre tx dx ty dy post,
    combine ts (fillna 0 (diff_from prev ts)) = (pre ++ (tx, dx) :: (ty, dy) :: post)%list ->
    dy = ty - tx.
Proof.
  induction ts as [|t ts IH]; intros prev pre tx dx ty dy post Hc.
  - destruct pre; discriminate.
  - cbn [diff_from fillna map combine] in Hc. destruct pre as [|p pre].
    + cbn [app] in Hc. inversion Hc as [[Ht Hd Hrest]]. subst t.
      destruct ts as [|t' ts']; [discriminate|].
      cbn [diff_from fillna map combine] in Hrest. inversion Hrest. reflexivity.
    + cbn [app] in Hc. inversion Hc as [[Hp Hrest]].
      eapply IH. exact Hrest.
Qed.

Lemma time_diffs_adjacent (ts : list Z) (pre : list (Z * Z)) (tx dx ty dy : Z)
  (post : list (Z * Z)) :
  combine ts (fillna 0 (diff ts)) = (pre ++ (tx, dx) :: (ty, dy) :: post)%list ->
  dy = ty - tx.
Proof.
  destruct ts as [|t ts]; [destruct pre; discriminate|].
  cbn [diff fillna map combine]. destruct pre as [|p pre]; cbn [app]; intros Hc.
  - inversion Hc as [[Ht Hd Hrest]]. subst t.
    destruct ts as [|t' ts']; [discriminate|].
    cbn [diff_from fillna map combine] in Hrest. inversion Hrest. reflexivity.
  - inversion Hc as [[Hp Hrest]]. eapply diff_from_adjacent. exact Hrest.
Qed.

(** In a running count, a cell is the one before plus its own term. *)
Lemma cumsum_from_adjacent (xs : list Z) :
  forall acc pre xa ya xb yb post,
    combine xs (cumsum_from acc xs) = (pre ++ (xa, ya) :: (xb, yb) :: post)%list ->
    yb = ya + xb.
Proof.
  induction xs as [|x xs IH]; intros acc pre xa ya xb yb post Hc.
  - destruct pre; discriminate.
  - cbn [cumsum_from combine] in Hc. destruct pre as [|p pre]; cbn [app] in Hc.
    + inversion Hc as [[Hx Hy Hrest]].
      destruct xs as [|x' xs']; [discriminate|].
      cbn [cumsum_from combine] in Hrest. inversion Hrest. reflexivity.
    + inversion Hc as [[Hp Hrest]]. eapply IH. exact Hrest.
Qed.

Lemma count_breaks_first (d : Z) (ds : list Z) :
  count_breaks (d :: ds)
  = (if d >? trip_threshold then 1 else 0)
    :: tl (count_breaks (d :: ds)).
Proof. reflexivity. Qed.

Lemma count_breaks_adjacent (ds : list Z) (pre : list (Z * Z)) (da ia db ib : Z)
  (post : list (Z * Z)) :
  combine ds (count_breaks ds) = (pre ++ (da, ia) :: (db, ib) :: post)%list ->
  ib = ia + (if db >? trip_threshold then 1 else 0).
Proof.
  unfold count_breaks, cumsum. intros Hc.
  set (ind := fun d : Z => if d >? trip_threshold then 1 else 0) in *.
  assert (Hm : combine (map ind ds) (cumsum_from 0 (map ind ds))
               = (map (fun p => (ind (fst p), snd p)) pre
                  ++ (ind da, ia) :: (ind db, ib)
                  :: map (fun p => (ind (fst p), snd p)) post)%list).
  { assert (G : forall (l : list Z) (o : list Z),
               combine (map ind l) o = map (fun p => (ind (fst p), snd p)) (combine l o)).
    { induction l as [|a l IHl]; intros [|b o]; simpl; try reflexivity. now rewrite IHl. }
    rewrite G, Hc, map_app. reflexivity. }
  eapply cumsum_from_adjacent. exact Hm.
Qed.

Lemma StronglySorted_after {A : Type} (R : A -> A -> Prop) (l1 : list A) (a : A) (l2 : list A) :
  StronglySorted R (l1 ++ a :: l2)%list -> Forall (R a) l2.
Proof.
  induction l1 as [|x l1 IH]; simpl; intros Hs.
  - apply StronglySorted_inv in Hs. apply Hs.
  - apply StronglySorted_inv in Hs. apply IH. apply Hs.
Qed.

Section Columns.

Context {L : PandasNum}.
Variable argsort : list Z -> list nat.

Lemma add_columns_zip (pts : list (Point F)) (diffs ids : list Z) :
  add_columns pts diffs ids
  = map (fun x => mkRow (fst (fst x)) (snd (fst x)) (snd x))
        (combine (combine pts diffs) ids).
Proof.
  revert diffs ids. induction pts as [|p pts IH]; intros [|d diffs] [|i ids];
    simpl; try reflexivity.
  now rewrite IH.
Qed.

Lemma add_columns_diffs (pts : list (Point F)) (diffs ids : list Z) :
  List.length diffs = List.length pts ->
  List.length ids = List.length pts ->
  map time_diff (add_columns pts diffs ids) = diffs.
Proof.
  revert diffs ids. induction pts as [|p pts IH]; intros [|d diffs] [|i ids] Hd Hi;
    try discriminate; [reflexivity|].
  simpl. f_equal. apply IH; simpl in *; lia.
Qed.

Lemma add_columns_ids (pts : list (Point F)) (diffs ids : list Z) :
  List.length diffs = List.length pts ->
  List.length ids = List.length pts ->
  map trip_id (add_columns pts diffs ids) = ids.
Proof.
  revert diffs ids. induction pts as [|p pts IH]; intros [|d diffs] [|i ids] Hd Hi;
    try discriminate; [reflexivity|].
  simpl. f_equal. apply IH; simpl in *; lia.
Qed.

Lemma detect_trips_time_diffs (has_day_id : bool) (pts : list (Point F)) :
  map time_diff (detect_trips argsort has_day_id pts)
  = fillna 0 (diff (instants (detect_trips argsort has_day_id pts))).
Proof.
  unfold instants. rewrite <- (map_map point datetime), detect_trips_points.
  unfold detect_trips.
  assert (Hd : List.length (fillna 0 (diff (map datetime (sort_values argsort pts))))
               = List.length (sort_values argsort pts)).
  { now rewrite time_diffs_length, length_map. }
  apply add_columns_diffs; [exact Hd|].
  destruct has_day_id.
  - rewrite transform_length, length_combine, Hd. lia.
  - now rewrite count_breaks_length.
Qed.

(** Without the column [day_id], [trip_id] is the running count of the
    breaks of the whole frame. *)
Lemma detect_trips_ids_whole_frame (pts : list (Point F)) :
  map trip_id (detect_trips argsort false pts)
  = count_breaks (map time_diff (detect_trips argsort false pts)).
Proof.
  rewrite detect_trips_time_diffs. unfold instants.
  rewrite <- (map_map point datetime), detect_trips_points.
  unfold detect_trips. apply add_columns_ids.
  - now rewrite time_diffs_length, length_map.
  - now rewrite count_breaks_length, time_diffs_length, length_map.
Qed.

(** With it, the rows of each day carry the running count of the breaks
    among the rows of that day. *)
Lemma detect_trips_ids_by_day (pts : list (Point F)) (day : string) :
  let day_df := filter (fun r => String.eqb (day_id (point r)) day)
                       (detect_trips argsort true pts) in
  map trip_id day_df = count_breaks (map time_diff day_df).
Proof.
  cbv zeta. unfold detect_trips.
  set (sorted := sort_values argsort pts).
  set (diffs := fillna 0 (diff (map datetime sorted))).
  set (with_diff := combine sorted diffs).
  set (ids := transform (fun pd : Point F * Z => day_id (fst pd)) snd count_breaks with_diff).
  assert (Hids : List.length ids = List.length with_diff) by apply transform_length.
  rewrite add_columns_zip. fold with_diff.
  rewrite (filter_map_swap
             (fun x : Point F * Z * Z => mkRow (fst (fst x)) (snd (fst x)) (snd x))
             (fun r => String.eqb (day_id (point r)) day)).
  cbn [point]. rewrite !map_map. cbn [trip_id time_diff].
  assert (Hfilter : forall l : list (Point F * Z * Z),
             filter (fun a => String.eqb (day_id (fst (fst a))) day) l
             = filter (fun p => key_eqb (day_id (fst (fst p))) day) l).
  { intros l. apply filter_ext. intros a. now rewrite key_eqb_string. }
  rewrite Hfilter.
  pose proof (transform_by_key (fun pd : Point F * Z => day_id (fst pd)) snd count_breaks
                count_breaks_length with_diff day) as Ht.
  fold ids in Ht.
  transitivity (map snd (filter (fun p : Point F * Z * Z =>
                                   key_eqb (day_id (fst (fst p))) day)
                                (combine with_diff ids)));
    [apply map_ext; reflexivity|].
  rewrite Ht. f_equal.
  rewrite <- (map_fst_combine_long with_diff ids) at 1 by (symmetry; exact Hids).
  rewrite (filter_map_swap fst (fun pd : Point F * Z => key_eqb (day_id (fst pd)) day)).
  rewrite map_map. reflexivity.
Qed.

End Columns.

Lemma filter_none {A : Type} (P : A -> bool) (l : list A) :
  Forall (fun a => P a = false) l -> filter P l = [].
Proof.
  induction 1 as [|a l Ha _ IH]; simpl; [reflexivity|]. now rewrite Ha.
Qed.

Lemma normalize_length {L : PandasNum} (df : list TaggedRecord) (pts : list (Point F)) :
  normalize df = Ok pts -> List.length pts = List.length df.
Proof.
  intros H. apply normalize_rows in H. symmetry. eapply Forall2_length. exact H.
Qed.

Section RowsOfTheFrame.

Context {L : PandasNum}.
Variable argsort : list Z -> list nat.

Lemma clean_and_transform_data_rows (has_day_id : bool) (df : list TaggedRecord)
  (rows : list (Row F)) :
  clean_and_transform_data argsort has_day_id df = Ok rows ->
  exists pts, normalize df = Ok pts /\ rows = detect_trips argsort has_day_id pts.
Proof.
  unfold clean_and_transform_data. intros H. apply bind_Ok_inv in H.
  destruct H as [pts [Hpts Hrows]]. exists pts. split; [exact Hpts|].
  now inversion Hrows.
Qed.

Lemma rows_time_diff_first (has_day_id : bool) (pts : list (Point F))
  (first : Row F) (rest : list (Row F)) :
  detect_trips argsort has_day_id pts = first :: rest -> time_diff first = 0.
Proof.
  intros Hrows. pose proof (detect_trips_time_diffs argsort has_day_id pts) as Hd.
  rewrite Hrows in Hd. unfold instants in Hd. simpl in Hd. now inversion Hd.
Qed.

Lemma rows_time_diff_adjacent (has_day_id : bool) (pts : list (Point F))
  (pre : list (Row F)) (a b : Row F) (post : list (Row F)) :
  detect_trips argsort has_day_id pts = (pre ++ a :: b :: post)%list ->
  time_diff b = datetime (point b) - datetime (point a).
Proof.
  intros Hrows. pose proof (detect_trips_time_diffs argsort has_day_id pts) as Hd.
  set (g := fun r : Row F => (datetime (point r), time_diff r)).
  assert (Hc : combine (instants (detect_trips argsort has_day_id pts))
                       (fillna 0 (diff (instants (detect_trips argsort has_day_id pts))))
               = (map g pre ++ g a :: g b :: map g post)%list).
  { rewrite <- Hd. unfold instants. rewrite <- map_pair_combine, Hrows, map_app.
    reflexivity. }
  apply time_diffs_adjacent in Hc. exact Hc.
Qed.

Lemma rows_trip_id_by_day_adjacent (pts : list (Point F))
  (pre : list (Row F)) (a : Row F) (mid : list (Row F)) (b : Row F) (post : list (Row F)) :
  detect_trips argsort true pts = (pre ++ a :: mid ++ b :: post)%list ->
  day_id (point a) = day_id (point b) ->
  Forall (fun m => day_id (point m) <> day_id (point b)) mid ->
  trip_id b = trip_id a + (if time_diff b >? trip_threshold then 1 else 0).
Proof.
  intros Hrows Hab Hmid.
  pose proof (detect_trips_ids_by_day argsort pts (day_id (point b))) as Hids.
  cbv zeta in Hids. rewrite Hrows in Hids.
  set (P := fun r : Row F => String.eqb (day_id (point r)) (day_id (point b))) in *.
  assert (Hfa : P a = true) by (unfold P; rewrite Hab; apply String.eqb_refl).
  assert (Hfb : P b = true) by (unfold P; apply String.eqb_refl).
  assert (Hfm : filter P mid = []).
  { apply filter_none. eapply Forall_impl; [|exact Hmid].
    intros m Hm. unfold P. apply String.eqb_neq. exact Hm. }
  rewrite filter_app in Hids. cbn [filter] in Hids. rewrite Hfa in Hids.
  rewrite filter_app in Hids. cbn [filter] in Hids. rewrite Hfb, Hfm in Hids.
  cbn [app] in Hids.
  set (g := fun r : Row F => (time_diff r, trip_id r)).
  assert (Hc : combine (map time_diff (filter P pre ++ a :: b :: filter P post)%list)
                       (count_breaks
                          (map time_diff (filter P pre ++ a :: b :: filter P post)%list))
               = (map g (filter P pre) ++ g a :: g b :: map g (filter P post))%list).
  { rewrite <- Hids, <- map_pair_combine, map_app. reflexivity. }
  apply count_breaks_adjacent in Hc. exact Hc.
Qed.

Lemma rows_trip_id_by_day_first (pts : list (Point F))
  (pre : list (Row F)) (b : Row F) (post : list (Row F)) :
  detect_trips argsort true pts = (pre ++ b :: post)%list ->
  Forall (fun m => day_id (point m) <> day_id (point b)) pre ->
  trip_id b = (if time_diff b >? trip_threshold then 1 else 0).
Proof.
  intros Hrows Hpre.
  pose proof (detect_trips_ids_by_day argsort pts (day_id (point b))) as Hids.
  cbv zeta in Hids. rewrite Hrows in Hids.
  set (P := fun r : Row F => String.eqb (day_id (point r)) (day_id (point b))) in *.
  assert (Hfb : P b = true) by (unfold P; apply String.eqb_refl).
  assert (Hfp : filter P pre = []).
  { apply filter_none. eapply Forall_impl; [|exact Hpre].
    intros m Hm. unfold P. apply String.eqb_neq. exact Hm. }
  rewrite filter_app in Hids. cbn [filter] in Hids. rewrite Hfb, Hfp in Hids.
  cbn [app map] in Hids. rewrite count_breaks_first in Hids. now inversion Hids.
Qed.

Lemma rows_trip_id_whole_frame_adjacent (pts : list (Point F))
  (pre : list (Row F)) (a b : Row F) (post : list (Row F)) :
  detect_trips argsort false pts = (pre ++ a :: b :: post)%list ->
  trip_id b = trip_id a + (if time_diff b >? trip_threshold then 1 else 0).
Proof.
  intros Hrows. pose proof (detect_trips_ids_whole_frame argsort pts) as Hids.
  rewrite Hrows in Hids.
  set (g := fun r : Row F => (time_diff r, trip_id r)).
  assert (Hc : combine (map time_diff (pre ++ a :: b :: post)%list)
                       (count_breaks (map time_diff (pre ++ a :: b :: post)%list))
               = (map g pre ++ g a :: g b :: map g post)%list).
  { rewrite <- Hids, <- map_pair_combine, map_app. reflexivity. }
  apply count_breaks_adjacent in Hc. exact Hc.
Qed.

Lemma rows_trip_id_whole_frame_first (pts : list (Point F))
  (first : Row F) (rest : list (Row F)) :
  detect_trips argsort false pts = first :: rest -> trip_id first = 0.
Proof.
  intros Hrows. pose proof (detect_trips_ids_whole_frame argsort pts) as Hids.
  pose proof (rows_time_diff_first false pts first rest Hrows) as Hd.
  rewrite Hrows in Hids. cbn [map] in Hids. rewrite count_breaks_first, Hd in Hids.
  now inversion Hids.
Qed.

End RowsOfTheFrame.

(** ** Gaps and trip indices, row by row *)

(** The frame [clean_and_transform_data] returns has the rows of the frame
    it was given, in ascending instant order; the [time_diff] of its first
    row is 0 and the [time_diff] of every other row is the difference of
    its instant and the instant of the row before it in the frame, whatever
    the day of that row; it is never negative. *)
Theorem time_diff_is_the_gap_to_the_row_before
  {L : PandasNum} (argsort : list Z -> list nat) (has_day_id : bool)
  (df : list TaggedRecord) (rows : list (Row F)) :
  argsort_ok argsort ->
  clean_and_transform_data argsort has_day_id df = Ok rows ->
  List.length rows = List.length df
  /\ (forall first rest, rows = first :: rest -> time_diff first = 0)
  /\ (forall pre a b post, rows = (pre ++ a :: b :: post)%list ->
        time_diff b = datetime (point b) - datetime (point a)
        /\ 0 <= time_diff b).
Proof.
  intros Hargsort Hclean.
  destruct (clean_and_transform_data_rows argsort has_day_id df rows Hclean)
    as [pts [Hpts Hrows]].
  split; [|split].
  - rewrite <- (normalize_length df pts Hpts).
    rewrite <- (length_map point rows), Hrows, (detect_trips_points argsort).
    apply Permutation_length. apply sort_values_Permutation. exact Hargsort.
  - intros first rest Heq. rewrite Heq in Hrows.
    eapply rows_time_diff_first. symmetry. exact Hrows.
  - intros pre a b post Heq. rewrite Heq in Hrows. symmetry in Hrows.
    pose proof (rows_time_diff_adjacent argsort has_day_id pts pre a b post Hrows) as Hd.
    split; [exact Hd|].
    pose proof (detect_trips_sorted argsort Hargsort has_day_id pts) as Hs.
    rewrite Hrows in Hs. apply StronglySorted_after in Hs.
    apply Forall_inv in Hs. unfold instant_le in Hs. lia.
Qed.

(** [time_diff_is_the_gap_to_the_row_before] on the three rows of two days
    of [Examples.tie_merged_2], with rationals and the stable argsort. *)
Lemma time_diff_is_the_gap_witness :
  argsort_ok stable_argsort
  /\ clean_and_transform_data (L := Rational.lib) stable_argsort true Examples.tie_merged_2
     = Ok Segmented.tie_rows
  /\ (List.length Segmented.tie_rows = List.length Examples.tie_merged_2
      /\ (forall first rest, Segmented.tie_rows = first :: rest -> time_diff first = 0)
      /\ (forall pre a b post, Segmented.tie_rows = (pre ++ a :: b :: post)%list ->
            time_diff b = datetime (point b) - datetime (point a)
            /\ 0 <= time_diff b)).
Proof.
  split; [exact stable_argsort_ok|]. split; [vm_compute; reflexivity|].
  apply (time_diff_is_the_gap_to_the_row_before (L := Rational.lib)
           stable_argsort true Examples.tie_merged_2 Segmented.tie_rows).
  - exact stable_argsort_ok.
  - vm_compute. reflexivity.
Defined.

(** With a [day_id] column, the trip indices of the rows of one day, in the
    order of the frame, are the running count of the rows of that day whose
    [time_diff] exceeds 30 minutes. *)
Theorem trip_ids_count_the_breaks_of_the_day
  {L : PandasNum} (argsort : list Z -> list nat)
  (df : list TaggedRecord) (rows : list (Row F)) (day : string) :
  clean_and_transform_data argsort true df = Ok rows ->
  let day_df := filter (fun r => String.eqb (day_id (point r)) day) rows in
  map trip_id day_df = count_breaks (map time_diff day_df).
Proof.
  intros Hclean.
  destruct (clean_and_transform_data_rows argsort true df rows Hclean)
    as [pts [_ Hrows]].
  rewrite Hrows. apply detect_trips_ids_by_day.
Qed.

(** [trip_ids_count_the_breaks_of_the_day] on day ["a"] of the same frame. *)
Lemma trip_ids_count_the_breaks_witness :
  clean_and_transform_data (L := Rational.lib) stable_argsort true Examples.tie_merged_2
  = Ok Segmented.tie_rows
  /\ (let day_df := filter (fun r => String.eqb (day_id (point r)) "a")
                           Segmented.tie_rows in
      map trip_id day_df = count_breaks (map time_diff day_df)).
Proof.
  split; [vm_compute; reflexivity|].
  apply (trip_ids_count_the_breaks_of_the_day (L := Rational.lib)
           stable_argsort Examples.tie_merged_2 Segmented.tie_rows "a").
  vm_compute. reflexivity.
Defined.

(** With a [day_id] column, take a row [b] and the row [a] of the same day
    that comes last before it in the frame.  The trip index of [b] is that
    of [a], plus one when the [time_diff] of [b] exceeds 30 minutes.  This
    [time_diff] lies between 0 and the time from [a] to [b], and is the time
    from [a] to [b] when no row of another day lies between them: two rows
    of a day in different trips are more than 30 minutes apart. *)
Theorem next_row_of_the_day
  {L : PandasNum} (argsort : list Z -> list nat)
  (df : list TaggedRecord) (rows pre : list (Row F)) (a : Row F)
  (mid : list (Row F)) (b : Row F) (post : list (Row F)) :
  argsort_ok argsort ->
  clean_and_transform_data argsort true df = Ok rows ->
  rows = (pre ++ a :: mid ++ b :: post)%list ->
  day_id (point a) = day_id (point b) ->
  Forall (fun m => day_id (point m) <> day_id (point b)) mid ->
  trip_id b = trip_id a + (if time_diff b >? trip_threshold then 1 else 0)
  /\ 0 <= time_diff b <= datetime (point b) - datetime (point a)
  /\ (mid = [] -> time_diff b = datetime (point b) - datetime (point a))
  /\ (trip_id b <> trip_id a ->
      trip_threshold < datetime (point b) - datetime (point a)).
Proof.
  intros Hargsort Hclean Heq Hab Hmid.
  destruct (clean_and_transform_data_rows argsort true df rows Hclean)
    as [pts [_ Hrows]].
  rewrite Heq in Hrows. symmetry in Hrows.
  pose proof (rows_trip_id_by_day_adjacent argsort pts pre a mid b post Hrows Hab Hmid)
    as Hid.
  pose proof (detect_trips_sorted argsort Hargsort true pts) as Hs.
  rewrite Hrows in Hs.
  assert (Hgap : 0 <= time_diff b <= datetime (point b) - datetime (point a)
                 /\ (mid = [] -> time_diff b = datetime (point b) - datetime (point a))).
  { destruct (exists_last (l := a :: mid)) as [front [x Hx]]; [discriminate|].
    assert (Hsplit : (pre ++ a :: mid ++ b :: post
                      = (pre ++ front) ++ x :: b :: post)%list).
    { rewrite <- app_assoc. f_equal.
      change (a :: mid ++ b :: post)%list with ((a :: mid) ++ b :: post)%list.
      rewrite Hx, <- app_assoc. reflexivity. }
    pose proof Hrows as Hrows'. rewrite Hsplit in Hrows'.
    pose proof (rows_time_diff_adjacent argsort true pts _ x b post Hrows') as Hd.
    assert (Hxb : instant_le x b).
    { pose proof Hs as Hs'. rewrite Hsplit in Hs'.
      apply StronglySorted_after in Hs'. now apply Forall_inv in Hs'. }
    assert (Hax : instant_le a x).
    { destruct front as [|a' front'].
      - simpl in Hx. inversion Hx; subst. unfold instant_le. lia.
      - simpl in Hx. inversion Hx as [[Ha' Hm]]. subst a'.
        pose proof Hs as Hs'. apply StronglySorted_after in Hs'.
        rewrite Forall_forall in Hs'. apply Hs'.
        rewrite Hm. rewrite <- app_assoc. apply in_or_app. right. left. reflexivity. }
    unfold instant_le in *. split; [lia|].
    intros Hnil. subst mid. destruct front as [|a' front'].
    - simpl in Hx. inversion Hx; subst. exact Hd.
    - simpl in Hx. inversion Hx as [[Ha' Hm]]. destruct front'; discriminate. }
  destruct Hgap as [Hbound Hexact].
  split; [exact Hid|]. split; [exact Hbound|]. split; [exact Hexact|].
  intros Hne. destruct (time_diff b >? trip_threshold) eqn:Hgt; [lia|].
  exfalso. apply Hne. lia.
Qed.

(** [next_row_of_the_day] on the rows [P] and [X] of day ["a"], with the
    row [Y] of day ["b"] between them. *)
Lemma next_row_of_the_day_witness :
  argsort_ok stable_argsort
  /\ clean_and_transform_data (L := Rational.lib) stable_argsort true Examples.tie_merged_2
     = Ok Segmented.tie_rows
  /\ Segmented.tie_rows
     = ([] ++ Segmented.row_P :: [Segmented.row_Y] ++ Segmented.row_X :: [])%list
  /\ day_id (point Segmented.row_P) = day_id (point Segmented.row_X)
  /\ Forall (fun m => day_id (point m) <> day_id (point Segmented.row_X))
       [Segmented.row_Y]
  /\ (trip_id Segmented.row_X
      = trip_id Segmented.row_P
        + (if time_diff Segmented.row_X >? trip_threshold then 1 else 0)
      /\ 0 <= time_diff Segmented.row_X
           <= datetime (point Segmented.row_X) - datetime (point Segmented.row_P)
      /\ ([Segmented.row_Y] = [] ->
          time_diff Segmented.row_X
          = datetime (point Segmented.row_X) - datetime (point Segmented.row_P))
      /\ (trip_id Segmented.row_X <> trip_id Segmented.row_P ->
          trip_threshold
          < datetime (point Segmented.row_X) - datetime (point Segmented.row_P))).
Proof.
  assert (Hday : Forall (fun m : Row Q => day_id (point m) <> day_id (point Segmented.row_X))
                   [Segmented.row_Y]).
  { constructor; [discriminate|constructor]. }
  split; [exact stable_argsort_ok|]. split; [vm_compute; reflexivity|].
  split; [reflexivity|]. split; [reflexivity|]. split; [exact Hday|].
  apply (next_row_of_the_day (L := Rational.lib) stable_argsort Examples.tie_merged_2
           Segmented.tie_rows [] Segmented.row_P [Segmented.row_Y] Segmented.row_X []).
  - exact stable_argsort_ok.
  - vm_compute. reflexivity.
  - reflexivity.
  - reflexivity.
  - exact Hday.
Defined.

(** With a [day_id] column, the first row of a day in the frame has trip
    index 1 when its [time_diff] exceeds 30 minutes and 0 otherwise; the
    first row of the frame has trip index 0. *)
Theorem first_row_of_the_day
  {L : PandasNum} (argsort : list Z -> list nat)
  (df : list TaggedRecord) (rows pre : list (Row F)) (b : Row F) (post : list (Row F)) :
  clean_and_transform_data argsort true df = Ok rows ->
  rows = (pre ++ b :: post)%list ->
  Forall (fun m => day_id (point m) <> day_id (point b)) pre ->
  trip_id b = (if time_diff b >? trip_threshold then 1 else 0)
  /\ (pre = [] -> trip_id b = 0).
Proof.
  intros Hclean Heq Hpre.
  destruct (clean_and_transform_data_rows argsort true df rows Hclean)
    as [pts [_ Hrows]].
  rewrite Heq in Hrows. symmetry in Hrows.
  pose proof (rows_trip_id_by_day_first argsort pts pre b post Hrows Hpre) as Hid.
  split; [exact Hid|]. intros Hnil. subst pre. simpl in Hrows.
  rewrite Hid, (rows_time_diff_first argsort true pts b post Hrows). reflexivity.
Qed.

(** [first_row_of_the_day] on the row [Y], the first of day ["b"], 5000
    seconds after the first row of the frame. *)
Lemma first_row_of_the_day_witness :
  clean_and_transform_data (L := Rational.lib) stable_argsort true Examples.tie_merged_2
  = Ok Segmented.tie_rows
  /\ Segmented.tie_rows = ([Segmented.row_P] ++ Segmented.row_Y :: [Segmented.row_X])%list
  /\ Forall (fun m => day_id (point m) <> day_id (point Segmented.row_Y))
       [Segmented.row_P]
  /\ (trip_id Segmented.row_Y
      = (if time_diff Segmented.row_Y >? trip_threshold then 1 else 0)
      /\ ([Segmented.row_P] = [] -> trip_id Segmented.row_Y = 0)).
Proof.
  assert (Hday : Forall (fun m : Row Q => day_id (point m) <> day_id (point Segmented.row_Y))
                   [Segmented.row_P]).
  { constructor; [discriminate|constructor]. }
  split; [vm_compute; reflexivity|]. split; [reflexivity|]. split; [exact Hday|].
  apply (first_row_of_the_day (L := Rational.lib) stable_argsort Examples.tie_merged_2
           Segmented.tie_rows [Segmented.row_P] Segmented.row_Y [Segmented.row_X]).
  - vm_compute. reflexivity.
  - reflexivity.
  - exact Hday.
Defined.

(** Without a [day_id] column the trip indices run over the whole frame:
    the first row has index 0, and a row has the index of the row before it
    when they are at most 30 minutes apart, and the next index otherwise. *)
Theorem trips_of_a_frame_without_day_id
  {L : PandasNum} (argsort : list Z -> list nat)
  (df : list TaggedRecord) (rows : list (Row F)) :
  argsort_ok argsort ->
  clean_and_transform_data argsort false df = Ok rows ->
  (forall first rest, rows = first :: rest -> trip_id first = 0)
  /\ (forall pre a b post, rows = (pre ++ a :: b :: post)%list ->
        (datetime (point b) - datetime (point a) <= trip_threshold ->
         trip_id b = trip_id a)
        /\ (trip_threshold < datetime (point b) - datetime (point a) ->
            trip_id b = trip_id a + 1)).
Proof.
  intros Hargsort Hclean.
  destruct (clean_and_transform_data_rows argsort false df rows Hclean)
    as [pts [_ Hrows]].
  split.
  - intros first rest Heq. rewrite Heq in Hrows. symmetry in Hrows.
    eapply rows_trip_id_whole_frame_first. exact Hrows.
  - intros pre a b post Heq. rewrite Heq in Hrows. symmetry in Hrows.
    pose proof (rows_trip_id_whole_frame_adjacent argsort pts pre a b post Hrows) as Hid.
    pose proof (rows_time_diff_adjacent argsort false pts pre a b post Hrows) as Hd.
    rewrite Hd in Hid.
    split; intros Hgap;
      destruct (datetime (point b) - datetime (point a) >? trip_threshold) eqn:Hgt; lia.
Qed.

(** [trips_of_a_frame_without_day_id] on the same rows. *)
Lemma trips_of_a_frame_without_day_id_witness :
  argsort_ok stable_argsort
  /\ clean_and_transform_data (L := Rational.lib) stable_argsort false
       Examples.tie_merged_2
     = Ok Segmented.tie_rows_whole
  /\ ((forall first rest, Segmented.tie_rows_whole = first :: rest -> trip_id first = 0)
      /\ (forall pre a b post,
            Segmented.tie_rows_whole = (pre ++ a :: b :: post)%list ->
            (datetime (point b) - datetime (point a) <= trip_threshold ->
             trip_id b = trip_id a)
            /\ (trip_threshold < datetime (point b) - datetime (point a) ->
                trip_id b = trip_id a + 1))).
Proof.
  split; [exact stable_argsort_ok|]. split; [vm_compute; reflexivity|].
  apply (trips_of_a_frame_without_day_id (L := Rational.lib) stable_argsort
           Examples.tie_merged_2 Segmented.tie_rows_whole).
  - exact stable_argsort_ok.
  - vm_compute. reflexivity.
Defined.

Lemma last_match_split {A : Type} (P : A -> Prop) (l : list A) :
  (forall a, P a \/ ~ P a) ->
  Forall (fun a => ~ P a) l
  \/ exists l1 a l2, l = (l1 ++ a :: l2)%list /\ P a /\ Forall (fun b => ~ P b) l2.
Proof.
  intros Hdec. induction l as [|x l IH]; [left; constructor|].
  destruct IH as [Hnone | [l1 [a [l2 [Hl [Ha Hl2]]]]]].
  - destruct (Hdec x) as [Hx | Hx].
    + right. exists [], x, l. repeat split; assumption.
    + left. constructor; assumption.
  - right. exists (x :: l1), a, l2. rewrite Hl. repeat split; assumption.
Qed.

Section TripsOfADay.

Context {L : PandasNum}.
Variable argsort : list Z -> list nat.
Hypothesis argsort_contract : argsort_ok argsort.

Lemma later_row_of_the_day (pts : list (Point F)) (mid : list (Row F)) :
  forall (pre : list (Row F)) (x y : Row F) (post : list (Row F)),
    detect_trips argsort true pts = (pre ++ x :: mid ++ y :: post)%list ->
    day_id (point x) = day_id (point y) ->
    trip_id x <= trip_id y
    /\ (trip_id x < trip_id y -> trip_threshold < datetime (point y) - datetime (point x)).
Proof.
  remember (List.length mid) as n eqn:Hn. revert mid Hn.
  induction n as [n IH] using lt_wf_ind. intros mid Hn pre x y post Hrows Hxy.
  pose proof (detect_trips_sorted argsort argsort_contract true pts) as Hs.
  rewrite Hrows in Hs.
  destruct (last_match_split (fun m : Row F => day_id (point m) = day_id (point y)) mid)
    as [Hnone | [m1 [a [m2 [Hmid [Ha Hm2]]]]]].
  { intros m. destruct (string_dec (day_id (point m)) (day_id (point y))); tauto. }
  - pose proof (rows_trip_id_by_day_adjacent argsort pts pre x mid y post Hrows Hxy Hnone)
      as Hid.
    destruct (exists_last (l := x :: mid)) as [front [z Hz]]; [discriminate|].
    assert (Hsplit : (pre ++ x :: mid ++ y :: post
                      = (pre ++ front) ++ z :: y :: post)%list).
    { rewrite <- app_assoc. f_equal.
      change (x :: mid ++ y :: post)%list with ((x :: mid) ++ y :: post)%list.
      rewrite Hz, <- app_assoc. reflexivity. }
    pose proof Hrows as Hrows'. rewrite Hsplit in Hrows'.
    pose proof (rows_time_diff_adjacent argsort true pts _ z y post Hrows') as Hd.
    assert (Hxz : instant_le x z).
    { destruct front as [|x' front'].
      - simpl in Hz. inversion Hz; subst. unfold instant_le. lia.
      - simpl in Hz. inversion Hz as [[Hx' Hm]]. subst x'.
        pose proof Hs as Hs'. apply StronglySorted_after in Hs'.
        rewrite Forall_forall in Hs'. apply Hs'.
        rewrite Hm. rewrite <- app_assoc. apply in_or_app. right. left. reflexivity. }
    unfold instant_le in Hxz.
    destruct (time_diff y >? trip_threshold) eqn:Hgt; split; lia.
  - subst mid.
    assert (Hrows1 : detect_trips argsort true pts
                     = (pre ++ x :: m1 ++ a :: (m2 ++ y :: post))%list).
    { rewrite Hrows. f_equal. f_equal. rewrite <- app_assoc. reflexivity. }
    assert (Hrows2 : detect_trips argsort true pts
                     = ((pre ++ x :: m1) ++ a :: m2 ++ y :: post)%list).
    { rewrite Hrows1, <- app_assoc. reflexivity. }
    assert (Hlen : (List.length m1 < n)%nat).
    { rewrite Hn, length_app. simpl. lia. }
    destruct (IH (List.length m1) Hlen m1 eq_refl pre x a (m2 ++ y :: post)%list Hrows1)
      as [Hle Hfar]; [congruence|].
    pose proof (rows_trip_id_by_day_adjacent argsort pts _ a m2 y post Hrows2 Ha Hm2)
      as Hid.
    destruct (exists_last (l := a :: m2)) as [front [z Hz]]; [discriminate|].
    assert (Hsplit : ((pre ++ x :: m1) ++ a :: m2 ++ y :: post
                      = ((pre ++ x :: m1) ++ front) ++ z :: y :: post)%list).
    { rewrite <- (app_assoc (pre ++ x :: m1)). f_equal.
      change (a :: m2 ++ y :: post)%list with ((a :: m2) ++ y :: post)%list.
      rewrite Hz, <- app_assoc. reflexivity. }
    pose proof Hrows2 as Hrows'. rewrite Hsplit in Hrows'.
    pose proof (rows_time_diff_adjacent argsort true pts _ z y post Hrows') as Hd.
    assert (Hs2 : StronglySorted instant_le
                    ((pre ++ x :: m1) ++ a :: m2 ++ y :: post)%list).
    { rewrite <- Hrows2. apply detect_trips_sorted. exact argsort_contract. }
    assert (Haz : instant_le a z).
    { destruct front as [|a' front'].
      - simpl in Hz. inversion Hz; subst. unfold instant_le. lia.
      - simpl in Hz. inversion Hz as [[Ha' Hm]]. subst a'.
        pose proof Hs2 as Hs'. apply StronglySorted_after in Hs'.
        rewrite Forall_forall in Hs'. apply Hs'.
        rewrite Hm. rewrite <- app_assoc. apply in_or_app. right. left. reflexivity. }
    assert (Hxa : instant_le x a).
    { pose proof Hs as Hs'. apply StronglySorted_after in Hs'.
      rewrite Forall_forall in Hs'. apply Hs'.
      rewrite <- app_assoc. apply in_or_app. right. left. reflexivity. }
    assert (Hzy : instant_le z y).
    { pose proof Hs2 as Hs'. rewrite Hsplit in Hs'.
      apply StronglySorted_after in Hs'. now apply Forall_inv in Hs'. }
    unfold instant_le in *.
    destruct (time_diff y >? trip_threshold) eqn:Hgt; split; lia.
Qed.

End TripsOfADay.

(** With a [day_id] column, the trip indices of a day never decrease along
    the frame, and two rows of the same day in different trips are more
    than 30 minutes apart, the row of the trip with the larger index being
    the later one. *)
Theorem rows_of_a_day_in_different_trips
  {L : PandasNum} (argsort : list Z -> list nat)
  (df : list TaggedRecord) (rows : list (Row F)) (x y : Row F) :
  argsort_ok argsort ->
  clean_and_transform_data argsort true df = Ok rows ->
  In x rows -> In y rows ->
  day_id (point x) = day_id (point y) ->
  trip_id x < trip_id y ->
  trip_threshold < datetime (point y) - datetime (point x)
  /\ exists pre mid post, rows = (pre ++ x :: mid ++ y :: post)%list.
Proof.
  intros Hargsort Hclean Hx Hy Hday Hlt.
  destruct (clean_and_transform_data_rows argsort true df rows Hclean)
    as [pts [_ Hrows]].
  destruct (in_split x rows Hx) as [l1 [l2 Hsplit]].
  rewrite Hsplit in Hy. apply in_app_or in Hy. destruct Hy as [Hy | [Hy | Hy]].
  - destruct (in_split y l1 Hy) as [p [m Hl1]].
    assert (Heq : detect_trips argsort true pts = (p ++ y :: m ++ x :: l2)%list).
    { rewrite <- Hrows, Hsplit, Hl1, <- app_assoc. reflexivity. }
    destruct (later_row_of_the_day argsort Hargsort pts m p y x l2 Heq) as [Hle _];
      [congruence|]. lia.
  - subst y. lia.
  - destruct (in_split y l2 Hy) as [m [q Hl2]].
    assert (Heq : detect_trips argsort true pts = (l1 ++ x :: m ++ y :: q)%list).
    { rewrite <- Hrows, Hsplit, Hl2. reflexivity. }
    destruct (later_row_of_the_day argsort Hargsort pts m l1 x y q Heq Hday)
      as [_ Hfar].
    split; [apply Hfar; exact Hlt|].
    exists l1, m, q. rewrite Hsplit, Hl2. reflexivity.
Qed.

(** [rows_of_a_day_in_different_trips] on the two rows of
    [Segmented.far_merged], 2100 seconds apart. *)
Lemma rows_of_a_day_in_different_trips_witness :
  argsort_ok stable_argsort
  /\ clean_and_transform_data (L := Rational.lib) stable_argsort true Segmented.far_merged
     = Ok Segmented.far_rows
  /\ In Segmented.far_row_0 Segmented.far_rows
  /\ In Segmented.far_row_1 Segmented.far_rows
  /\ day_id (point Segmented.far_row_0) = day_id (point Segmented.far_row_1)
  /\ trip_id Segmented.far_row_0 < trip_id Segmented.far_row_1
  /\ (trip_threshold
      < datetime (point Segmented.far_row_1) - datetime (point Segmented.far_row_0)
      /\ exists pre mid post,
           Segmented.far_rows
           = (pre ++ Segmented.far_row_0 :: mid ++ Segmented.far_row_1 :: post)%list).
Proof.
  split; [exact stable_argsort_ok|]. split; [vm_compute; reflexivity|].
  split; [left; reflexivity|]. split; [right; left; reflexivity|].
  split; [reflexivity|]. split; [reflexivity|].
  apply (rows_of_a_day_in_different_trips (L := Rational.lib) stable_argsort
           Segmented.far_merged Segmented.far_rows Segmented.far_row_0 Segmented.far_row_1).
  - exact stable_argsort_ok.
  - vm_compute. reflexivity.
  - left. reflexivity.
  - right. left. reflexivity.
  - reflexivity.
  - reflexivity.
Defined.

(* ------------------------------------------------------------------ *)
(** ** [_calculate_distance_for_df] *)

Section Distance.

Context {L : PandasNum}.

Lemma coordinates_filter (df : list (Row F)) :
  filter (fun p => negb (is_nan (fst p) || is_nan (snd p)))
         (map (fun r => (longitude (point r), latitude (point r))) df)
  = map (fun r => (longitude (point r), latitude (point r))) (filter has_coordinates df).
Proof.
  induction df as [|r df IH]; [reflexivity|].
  cbn [map filter fst snd]. unfold has_coordinates at 1.
  destruct (negb (is_nan (longitude (point r)) || is_nan (latitude (point r))));
    cbn [map]; now rewrite IH.
Qed.

Lemma filter_idempotent {A : Type} (P : A -> bool) (l : list A) :
  filter P (filter P l) = filter P l.
Proof.
  induction l as [|a l IH]; [reflexivity|].
  simpl. destruct (P a) eqn:Ha; [simpl; rewrite Ha, IH|]; auto.
Qed.

Lemma last_nonempty {A : Type} (l : list A) (d d' : A) :
  l <> [] -> last l d = last l d'.
Proof.
  induction l as [|a l IH]; [congruence|]. intros _.
  destruct l as [|b l]; [reflexivity|].
  change (last (a :: b :: l) d) with (last (b :: l) d).
  change (last (a :: b :: l) d') with (last (b :: l) d').
  apply IH. discriminate.
Qed.

Lemma last_cons_default {A : Type} (l : list A) (a d : A) :
  last (a :: l) d = last l a.
Proof.
  destruct l as [|b l]; [reflexivity|].
  change (last (a :: b :: l) d) with (last (b :: l) d).
  apply last_nonempty. discriminate.
Qed.

Lemma sum_legs_snoc (total : F) (prev : F * F) (rest : list (F * F)) (cur : F * F) :
  sum_legs total prev (rest ++ [cur])%list
  = fadd (sum_legs total prev rest)
         (haversine (fst (last rest prev)) (snd (last rest prev)) (fst cur) (snd cur)).
Proof.
  revert total prev. induction rest as [|x rest IH]; intros total prev; [reflexivity|].
  cbn [app sum_legs]. rewrite IH, (last_cons_default rest x prev). reflexivity.
Qed.

Lemma sum_legs_two_more (total : F) (prev : F * F) (rest : list (F * F)) (x y : F * F) :
  sum_legs total prev (rest ++ [x; y])%list
  = fadd (sum_legs total prev (rest ++ [x])%list)
         (haversine (fst x) (snd x) (fst y) (snd y)).
Proof.
  replace (rest ++ [x; y])%list with ((rest ++ [x]) ++ [y])%list
    by (rewrite <- app_assoc; reflexivity).
  rewrite (sum_legs_snoc total prev (rest ++ [x])%list y), last_last. reflexivity.
Qed.

Lemma calculate_distance_for_df_over (df : list (Row F)) :
  calculate_distance_for_df df = distance_over (filter has_coordinates df).
Proof.
  unfold calculate_distance_for_df, distance_over. rewrite coordinates_filter.
  destruct (1 <? List.length df)%nat eqn:Hlen; [reflexivity|].
  apply Nat.ltb_ge in Hlen.
  destruct df as [|r [|r' df]]; [reflexivity| |simpl in Hlen; lia].
  cbn [filter]. destruct (has_coordinates r); reflexivity.
Qed.

End Distance.

(** The rows with a NaN coordinate do not count: the distance of a frame is
    the distance of the frame without them.  A frame in which at most one
    row has coordinates has distance 0. *)
Theorem distance_ignores_rows_without_coordinates
  {L : PandasNum} (df : list (Row F)) :
  calculate_distance_for_df df
  = calculate_distance_for_df (filter has_coordinates df)
  /\ ((List.length (filter has_coordinates df) <= 1)%nat ->
      calculate_distance_for_df df = of_int 0).
Proof.
  split.
  - rewrite (calculate_distance_for_df_over df),
      (calculate_distance_for_df_over (filter has_coordinates df)).
    now rewrite filter_idempotent.
  - intros Hlen. rewrite calculate_distance_for_df_over. unfold distance_over.
    destruct (filter has_coordinates df) as [|r [|r' kept]];
      [reflexivity|reflexivity|simpl in Hlen; lia].
Qed.

(** The distance is summed leg by leg, in the order of the frame: a row
    with coordinates added at the end of a frame adds the leg from the last
    row with coordinates. *)
Theorem distance_adds_a_leg_per_row
  {L : PandasNum} (df : list (Row F)) (a b : Row F) :
  has_coordinates a = true ->
  has_coordinates b = true ->
  calculate_distance_for_df (df ++ [a; b])%list
  = fadd (calculate_distance_for_df (df ++ [a])%list) (leg a b).
Proof.
  intros Ha Hb.
  rewrite !calculate_distance_for_df_over, !filter_app. cbn [filter].
  rewrite Ha, Hb. unfold distance_over. rewrite !map_app. cbn [map].
  set (c := fun r : Row F => (longitude (point r), latitude (point r))).
  destruct (map c (filter has_coordinates df)) as [|first rest].
  - reflexivity.
  - cbn [app].
    apply (sum_legs_two_more (of_int 0) first rest (c a) (c b)).
Qed.

(** [distance_adds_a_leg_per_row] on the rows [P], [Y], [X], with
    rationals. *)
Lemma distance_adds_a_leg_witness :
  has_coordinates (L := Rational.lib) Segmented.row_Y = true
  /\ has_coordinates (L := Rational.lib) Segmented.row_X = true
  /\ calculate_distance_for_df (L := Rational.lib)
       ([Segmented.row_P] ++ [Segmented.row_Y; Segmented.row_X])%list
     = @fadd Rational.lib
         (calculate_distance_for_df (L := Rational.lib)
            ([Segmented.row_P] ++ [Segmented.row_Y])%list)
         (leg (L := Rational.lib) Segmented.row_Y Segmented.row_X).
Proof.
  split; [reflexivity|]. split; [reflexivity|].
  apply (distance_adds_a_leg_per_row (L := Rational.lib)
           [Segmented.row_P] Segmented.row_Y Segmented.row_X); reflexivity.
Defined.

(* ------------------------------------------------------------------ *)
(** ** The exported hierarchy *)

Lemma StronglySorted_NoDup {A : Type} (R : A -> A -> Prop) (l : list A) :
  (forall a, ~ R a a) -> StronglySorted R l -> NoDup l.
Proof.
  intros Hirr. induction 1 as [|a l Hs IH Hall]; constructor; [|exact IH].
  intros Hin. rewrite Forall_forall in Hall. exact (Hirr a (Hall a Hin)).
Qed.

Section Partition.

Context {K : Type} `{OrdKeyLaws K}.

Lemma key_lt_irrefl (a : K) : ~ key_lt a a.
Proof.
  unfold key_lt. intros Hlt.
  assert (Heq : cmp a a = Eq) by (apply cmp_eq_iff; reflexivity). congruence.
Qed.

Lemma sorted_unique_NoDup (ks : list K) : NoDup (sorted_unique ks).
Proof.
  eapply StronglySorted_NoDup; [exact key_lt_irrefl | apply sorted_unique_sorted].
Qed.

Lemma filter_other_key {A : Type} (key : A -> K) (r : A) (df : list A) (ks : list K) :
  ~ In (key r) ks ->
  flat_map (fun k => filter (fun x => key_eqb (key x) k) (r :: df)) ks
  = flat_map (fun k => filter (fun x => key_eqb (key x) k) df) ks.
Proof.
  intros Hnotin. induction ks as [|k ks IH]; [reflexivity|].
  cbn [flat_map]. rewrite IH; [|intros Hin; apply Hnotin; now right].
  cbn [filter].
  destruct (key_eqb (key r) k) eqn:Hk; [|reflexivity].
  apply key_eqb_eq in Hk. exfalso. apply Hnotin. left. now symmetry.
Qed.

Lemma partition_by_keys {A : Type} (key : A -> K) (ks : list K) (df : list A) :
  NoDup ks ->
  (forall r, In r df -> In (key r) ks) ->
  Permutation (flat_map (fun k => filter (fun x => key_eqb (key x) k) df) ks) df.
Proof.
  intros Hnd. induction df as [|r df IH]; intros Hin.
  - induction ks as [|k ks IHk]; [constructor|]. simpl. apply IHk.
    + now apply NoDup_cons_iff in Hnd.
    + intros r [].
  - assert (Hr : In (key r) ks) by (apply Hin; now left).
    destruct (in_split _ _ Hr) as [ks1 [ks2 Hks]]. subst ks.
    pose proof (NoDup_remove_2 _ _ _ Hnd) as Hnotin.
    assert (IH' : Permutation
                    (flat_map (fun k => filter (fun x => key_eqb (key x) k) df)
                              (ks1 ++ key r :: ks2)) df).
    { apply IH. intros x Hx. apply Hin. now right. }
    rewrite flat_map_app in *. cbn [flat_map] in *.
    rewrite (filter_other_key key r df ks1), (filter_other_key key r df ks2);
      [| intros Hc; apply Hnotin, in_or_app; now right
       | intros Hc; apply Hnotin, in_or_app; now left].
    cbn [filter].
    assert (Hsame : key_eqb (key r) (key r) = true) by (now apply key_eqb_eq).
    rewrite Hsame. cbn [app].
    etransitivity; [symmetry; apply Permutation_middle|].
    constructor. exact IH'.
Qed.

(** The groups of a frame hold each of its rows once. *)
Lemma groupby_Permutation {A : Type} (key : A -> K) (df : list A) :
  Permutation (flat_map snd (groupby key df)) df.
Proof.
  unfold groupby. rewrite flat_map_concat_map, map_map, <- flat_map_concat_map.
  cbn [snd]. apply partition_by_keys.
  - apply sorted_unique_NoDup.
  - intros r Hr. apply In_sorted_unique. now apply in_map.
Qed.

Lemma groupby_keys_sorted {A : Type} (key : A -> K) (df : list A) :
  StronglySorted key_lt (map fst (groupby key df)).
Proof.
  rewrite groupby_keys. apply sorted_unique_sorted.
Qed.

Lemma groupby_nonempty {A : Type} (key : A -> K) (df : list A) :
  df <> [] -> groupby key df <> [].
Proof.
  intros Hne Hnil. destruct df as [|r df]; [congruence|].
  assert (Hin : In (key r) (map fst (groupby key (r :: df)))).
  { rewrite groupby_keys. apply In_sorted_unique. now left. }
  rewrite Hnil in Hin. exact Hin.
Qed.

End Partition.

Lemma Permutation_flat_map_pointwise {A B : Type} (f g : A -> list B) (l : list A) :
  (forall a, In a l -> Permutation (f a) (g a)) ->
  Permutation (flat_map f l) (flat_map g l).
Proof.
  induction l as [|a l IH]; intros Hfg; [constructor|].
  simpl. apply Permutation_app; [apply Hfg; now left|].
  apply IH. intros b Hb. apply Hfg. now right.
Qed.

Lemma flat_map_map_inner {A B C : Type} (f : A -> list B) (g : B -> C) (l : list A) :
  flat_map (fun a => map g (f a)) l = map g (flat_map f l).
Proof.
  induction l as [|a l IH]; [reflexivity|]. simpl. now rewrite IH, map_app.
Qed.

Lemma flat_map_map_outer {A B C : Type} (f : A -> B) (g : B -> list C) (l : list A) :
  flat_map g (map f l) = flat_map (fun a => g (f a)) l.
Proof.
  induction l as [|a l IH]; [reflexivity|]. simpl. now rewrite IH.
Qed.

Lemma flat_map_flat_map {A B C : Type} (f : A -> list B) (g : B -> list C) (l : list A) :
  flat_map g (flat_map f l) = flat_map (fun a => flat_map g (f a)) l.
Proof.
  induction l as [|a l IH]; [reflexivity|]. simpl. now rewrite flat_map_app, IH.
Qed.

Lemma list_sum_lengths {A B : Type} (count : A -> nat) (items : A -> list B) (l : list A) :
  Forall (fun a => count a = List.length (items a)) l ->
  list_sum (map count l) = List.length (flat_map items l).
Proof.
  induction 1 as [|a l Ha _ IH]; [reflexivity|].
  simpl. now rewrite length_app, Ha, IH.
Qed.

Section Hierarchy.

Context {L : PandasNum}.

Lemma standalone_trip_points (i : Z) (trip_df : list (Row F)) :
  t_points (standalone_trip i trip_df) = map exported_point trip_df.
Proof. reflexivity. Qed.

Lemma all_trips_groups (df : list (Row F)) :
  all_trips (generate_standalone_html df)
  = flat_map (fun g => map (fun t => standalone_trip (fst t) (snd t))
                           (groupby trip_id (snd g)))
             (groupby (fun r => day_id (point r)) df).
Proof.
  unfold all_trips. rewrite generate_standalone_html_map, flat_map_map_outer.
  reflexivity.
Qed.

Lemma all_points_Permutation (df : list (Row F)) :
  Permutation (all_points (generate_standalone_html df)) (map exported_point df).
Proof.
  unfold all_points. rewrite all_trips_groups, flat_map_flat_map.
  etransitivity.
  - apply Permutation_flat_map_pointwise
      with (g := fun g => map exported_point (snd g)).
    intros g _. rewrite flat_map_map_outer.
    rewrite (flat_map_ext _ (fun t => map exported_point (snd t)))
      by (intros t; reflexivity).
    rewrite (flat_map_map_inner snd exported_point).
    apply Permutation_map. apply groupby_Permutation.
  - rewrite (flat_map_map_inner snd exported_point).
    apply Permutation_map. apply groupby_Permutation.
Qed.

Lemma all_trips_counts (df : list (Row F)) :
  Forall (fun trip => t_point_count trip = List.length (t_points trip)
                      /\ (1 <= t_point_count trip)%nat)
         (all_trips (generate_standalone_html df)).
Proof.
  rewrite all_trips_groups. apply Forall_forall. intros trip Hin.
  apply in_flat_map in Hin. destruct Hin as [g [_ Hin]].
  apply in_map_iff in Hin. destruct Hin as [[i trip_df] [Ht Hg]]. subst trip.
  apply groupby_group in Hg. destruct Hg as [_ [Hne _]].
  cbn [fst snd]. rewrite standalone_trip_points, length_map.
  cbn [standalone_trip t_point_count]. split; [reflexivity|].
  destruct trip_df; [congruence|simpl; lia].
Qed.

End Hierarchy.

(** Every row of the frame is exported once: the points of all the trips of
    all the days are the rows of the frame, each made an entry, up to their
    order.  Every day has a trip, every trip has a point, [point_count] is
    the number of points of the trip, and the counts add up to the number
    of rows. *)
Theorem every_row_is_exported_once {L : PandasNum} (df : list (Row F)) :
  let days := generate_standalone_html df in
  Permutation (all_points days) (map exported_point df)
  /\ Forall (fun day => d_trips day <> []) days
  /\ Forall (fun trip => t_point_count trip = List.length (t_points trip)
                         /\ (1 <= t_point_count trip)%nat)
            (all_trips days)
  /\ list_sum (map t_point_count (all_trips days)) = List.length df.
Proof.
  cbv zeta. split; [apply all_points_Permutation|]. split; [|split].
  - rewrite generate_standalone_html_map. apply Forall_forall. intros day Hday.
    apply in_map_iff in Hday. destruct Hday as [[d day_df] [Hd Hg]]. subst day.
    cbn [d_trips fst snd]. apply groupby_group in Hg. destruct Hg as [_ [Hne _]].
    intros Hnil. apply map_eq_nil in Hnil.
    exact (groupby_nonempty trip_id day_df Hne Hnil).
  - apply all_trips_counts.
  - rewrite (list_sum_lengths t_point_count t_points).
    + change (flat_map t_points (all_trips (generate_standalone_html df)))
        with (all_points (generate_standalone_html df)).
      rewrite (Permutation_length (all_points_Permutation df)). apply length_map.
    + eapply Forall_impl; [|apply all_trips_counts]. intros trip [Hc _]. exact Hc.
Qed.

(** The trips of a day are listed in ascending order of their index, each
    index once, and the indices are those of the rows of the day. *)
Theorem trips_of_a_day_in_ascending_index_order {L : PandasNum} (df : list (Row F)) :
  Forall (fun day =>
            StronglySorted Z.lt (map t_id (d_trips day))
            /\ (forall k, In k (map t_id (d_trips day)) <->
                          exists r, In r df /\ day_id (point r) = d_day_id day
                                    /\ trip_id r = k))
         (generate_standalone_html df).
Proof.
  rewrite generate_standalone_html_map. apply Forall_forall. intros day Hday.
  apply in_map_iff in Hday. destruct Hday as [[d day_df] [Hd Hg]]. subst day.
  cbn [d_trips d_day_id fst snd]. rewrite map_map. cbn [standalone_trip t_id].
  change (map (fun x : Z * list (Row F) => fst x) (groupby trip_id day_df))
    with (map fst (groupby trip_id day_df)).
  apply groupby_group in Hg. destruct Hg as [_ [_ Hrows]].
  split.
  - exact (groupby_keys_sorted trip_id day_df).
  - intros k. rewrite groupby_keys, In_sorted_unique, in_map_iff.
    split.
    + intros [r [Hk Hr]]. exists r. apply Hrows in Hr. tauto.
    + intros [r [Hr [Hd Hk]]]. exists r. split; [exact Hk|]. apply Hrows. tauto.
Qed.

Lemma series_min_sorted (x : Z) (l : list Z) :
  StronglySorted Z.le (x :: l) -> series_min (x :: l) = x.
Proof.
  intros Hs. apply StronglySorted_inv in Hs. destruct Hs as [_ Hall].
  unfold series_min. induction l as [|y l IH]; [reflexivity|].
  apply Forall_cons_iff in Hall. destruct Hall as [Hy Hall].
  cbn [fold_left]. rewrite Z.min_l by exact Hy. apply IH. exact Hall.
Qed.

Lemma series_max_sorted (x : Z) (l : list Z) :
  StronglySorted Z.le (x :: l) -> series_max (x :: l) = last l x.
Proof.
  unfold series_max. revert x. induction l as [|y l IH]; intros x Hs; [reflexivity|].
  apply StronglySorted_inv in Hs. destruct Hs as [Hs Hall].
  apply Forall_inv in Hall.
  cbn [fold_left]. rewrite Z.max_r by exact Hall. rewrite (IH y Hs).
  symmetry. apply last_cons_default.
Qed.

Lemma StronglySorted_instants {T : Type} (rows : list (Row T)) :
  StronglySorted instant_le rows -> StronglySorted Z.le (instants rows).
Proof.
  induction 1 as [|r rows Hs IH Hall]; [constructor|].
  unfold instants. cbn [map]. constructor; [exact IH|].
  rewrite Forall_map. exact Hall.
Qed.

Lemma last_instants {T : Type} (rest : list (Row T)) (first : Row T) :
  last (instants rest) (datetime (point first)) = datetime (point (last rest first)).
Proof.
  unfold instants. revert first.
  induction rest as [|r rest IH]; intros first; [reflexivity|].
  cbn [map]. rewrite !last_cons_default. apply IH.
Qed.



(* ------------------------------------------------------------------ *)
(** ** The outcomes of [run_analysis] *)

Section Outcomes.

Context {L : PandasNum}.
Variable argsort : list Z -> list nat.
Variable fs : string -> file.
Variable day_id_of_path : string -> string.

Lemma load_files_Ok (file_paths : list string) (all_dfs : list (list TaggedRecord)) :
  load_files fs day_id_of_path file_paths = Ok all_dfs ->
  Forall2 (loaded_as fs day_id_of_path) file_paths all_dfs.
Proof.
  revert all_dfs. induction file_paths as [|p rest IH]; intros all_dfs H.
  - simpl in H. inversion H. constructor.
  - simpl in H. apply bind_Ok_inv in H. destruct H as [df [Hdf H]].
    apply bind_Ok_inv in H. destruct H as [others [Hothers H]].
    inversion H; subst. pose proof (read_and_parse_data_nonempty _ _ Hdf) as Hne.
    destruct df as [|r df]; [congruence|]. cbn [app]. constructor.
    + exists (r :: df). repeat split; [exact Hdf | discriminate].
    + apply IH. exact Hothers.
Qed.

Lemma load_files_Err_first (file_paths : list string) (e : error) :
  load_files fs day_id_of_path file_paths = Err e ->
  exists before bad after,
    file_paths = (before ++ bad :: after)%list
    /\ Forall (fun p => exists df, read_and_parse_data (fs p) = Ok df) before
    /\ read_and_parse_data (fs bad) = Err e.
Proof.
  induction file_paths as [|p rest IH]; intros H; [discriminate|].
  simpl in H. destruct (read_and_parse_data (fs p)) as [df|e'] eqn:Hp.
  - cbn [bind] in H.
    destruct (load_files fs day_id_of_path rest) as [others|e''] eqn:Hrest;
      cbn [bind] in H; [discriminate|].
    inversion H; subst e''. destruct (IH eq_refl) as [before [bad [after [Hl [Hb Hbad]]]]].
    exists (p :: before), bad, after. subst rest. repeat split.
    + constructor; [exists df; exact Hp | exact Hb].
    + exact Hbad.
  - cbn [bind] in H. inversion H; subst e'.
    exists [], p, rest. repeat split; [constructor | exact Hp].
Qed.

Lemma Forall2_loaded (file_paths : list string) (all_dfs : list (list TaggedRecord)) :
  Forall2 (loaded_as fs day_id_of_path) file_paths all_dfs ->
  Forall (fun p => exists df, read_and_parse_data (fs p) = Ok df) file_paths.
Proof.
  induction 1 as [|p t ps ts [df [Hdf _]] _ IH]; constructor; [|exact IH].
  exists df. exact Hdf.
Qed.

Lemma run_analysis_Completed (file_paths : list string) (days : list (DayOut F)) :
  run_analysis argsort fs day_id_of_path file_paths = Completed days ->
  file_paths <> []
  /\ exists all_dfs rows,
       load_files fs day_id_of_path file_paths = Ok all_dfs
       /\ clean_and_transform_data argsort true (List.concat all_dfs) = Ok rows
       /\ days = generate_standalone_html rows.
Proof.
  unfold run_analysis. destruct file_paths as [|p rest]; [discriminate|].
  destruct (run_analysis_body argsort fs day_id_of_path (p :: rest)) as [ds|e] eqn:Hb;
    [|discriminate].
  intros H. inversion H; subst ds. split; [discriminate|].
  unfold run_analysis_body in Hb. apply bind_Ok_inv in Hb.
  destruct Hb as [all_dfs [Hload Hb]].
  destruct all_dfs as [|d ds]; [discriminate|].
  apply bind_Ok_inv in Hb. destruct Hb as [rows [Hclean Hb]].
  inversion Hb. exists (d :: ds), rows. repeat split; assumption.
Qed.

End Outcomes.


Lemma Forall2_In_left {A B : Type} (R : A -> B -> Prop) (l : list A) (l' : list B) (a : A) :
  Forall2 R l l' -> In a l -> exists b, In b l' /\ R a b.
Proof.
  induction 1 as [|x y l l' Hxy _ IH]; intros Hin; [destruct Hin|].
  destruct Hin as [-> | Hin].
  - exists y. split; [now left | exact Hxy].
  - destruct (IH Hin) as [b [Hb Hab]]. exists b. split; [now right | exact Hab].
Qed.

Section CompletedRun.

Context {L : PandasNum}.
Variable argsort : list Z -> list nat.
Hypothesis argsort_contract : argsort_ok argsort.

Lemma clean_and_transform_data_Permutation (has_day_id : bool)
  (df : list TaggedRecord) (rows : list (Row F)) :
  clean_and_transform_data argsort has_day_id df = Ok rows ->
  exists pts, Forall2 normalized df pts /\ Permutation (map point rows) pts.
Proof.
  intros Hclean.
  destruct (clean_and_transform_data_rows argsort has_day_id df rows Hclean)
    as [pts [Hpts Hrows]].
  exists pts. split; [apply normalize_rows; exact Hpts|].
  rewrite Hrows, (detect_trips_points argsort).
  apply sort_values_Permutation. exact argsort_contract.
Qed.

Lemma clean_and_transform_data_length (has_day_id : bool)
  (df : list TaggedRecord) (rows : list (Row F)) :
  clean_and_transform_data argsort has_day_id df = Ok rows ->
  List.length rows = List.length df.
Proof.
  intros Hclean.
  destruct (clean_and_transform_data_Permutation has_day_id df rows Hclean)
    as [pts [Hn Hperm]].
  rewrite <- (length_map point rows), (Permutation_length Hperm).
  symmetry. eapply Forall2_length. exact Hn.
Qed.

Lemma clean_and_transform_data_day_ids (has_day_id : bool)
  (df : list TaggedRecord) (rows : list (Row F)) (d : string) :
  clean_and_transform_data argsort has_day_id df = Ok rows ->
  (exists r, In r rows /\ day_id (point r) = d)
  <-> (exists t, In t df /\ tag_day_id t = d).
Proof.
  intros Hclean.
  destruct (clean_and_transform_data_Permutation has_day_id df rows Hclean)
    as [pts [Hn Hperm]].
  split.
  - intros [r [Hr Hd]].
    assert (Hp : In (point r) pts).
    { eapply Permutation_in; [exact Hperm|]. now apply in_map. }
    destruct (Forall2_In_right _ _ _ _ Hn Hp) as [t [Ht Hnorm]].
    exists t. split; [exact Ht|]. destruct Hnorm as [_ [Hday _]]. congruence.
  - intros [t [Ht Hd]].
    destruct (Forall2_In_left _ _ _ _ Hn Ht) as [p [Hp Hnorm]].
    assert (Hin : In p (map point rows)).
    { eapply Permutation_in; [symmetry; exact Hperm | exact Hp]. }
    apply in_map_iff in Hin. destruct Hin as [r [Hr Hin]].
    exists r. split; [exact Hin|]. destruct Hnorm as [_ [Hday _]]. congruence.
Qed.

End CompletedRun.

Lemma loaded_day_ids (fs : string -> file) (day_id_of_path : string -> string)
  (file_paths : list string) (all_dfs : list (list TaggedRecord)) (d : string) :
  Forall2 (loaded_as fs day_id_of_path) file_paths all_dfs ->
  (exists t, In t (List.concat all_dfs) /\ tag_day_id t = d)
  <-> (exists p, In p file_paths /\ day_id_of_path p = d).
Proof.
  intros Hl. split.
  - intros [t [Ht Hd]]. apply in_concat in Ht. destruct Ht as [tagged [Htagged Ht]].
    destruct (Forall2_In_right _ _ _ _ Hl Htagged) as [p [Hp [df [_ [_ Heq]]]]].
    exists p. split; [exact Hp|]. subst tagged.
    apply in_map_iff in Ht. destruct Ht as [r [Hr _]]. subst t. exact Hd.
  - intros [p [Hp Hd]].
    destruct (Forall2_In_left _ _ _ _ Hl Hp) as [tagged [Htagged [df [_ [Hne Heq]]]]].
    destruct df as [|r df]; [congruence|].
    exists (mkTagged r (day_id_of_path p)). split; [|exact Hd].
    apply in_concat. exists tagged. split; [exact Htagged|].
    subst tagged. now left.
Qed.

(** A run that completes exports every row of every selected file: the
    hierarchy has as many points as the files have rows, it has a day, and
    its days are the [day_id]s of the selected files. *)
Theorem completed_run_exports_every_loaded_row
  {L : PandasNum} (argsort : list Z -> list nat) (fs : string -> file)
  (day_id_of_path : string -> string) (file_paths : list string)
  (days : list (DayOut F)) :
  argsort_ok argsort ->
  run_analysis argsort fs day_id_of_path file_paths = Completed days ->
  exists all_dfs,
    Forall2 (loaded_as fs day_id_of_path) file_paths all_dfs
    /\ List.length (all_points days) = List.length (List.concat all_dfs)
    /\ days <> []
    /\ (forall d, In d (map d_day_id days) <->
                  exists p, In p file_paths /\ day_id_of_path p = d).
Proof.
  intros Hargsort Hrun. apply run_analysis_Completed in Hrun.
  destruct Hrun as [Hne [all_dfs [rows [Hload [Hclean Hdays]]]]].
  pose proof (load_files_Ok fs day_id_of_path _ _ Hload) as Hl.
  exists all_dfs. split; [exact Hl|].
  assert (Hdayset : forall d, In d (map d_day_id days) <->
                              exists p, In p file_paths /\ day_id_of_path p = d).
  { intros d. rewrite Hdays, exported_day_ids, In_sorted_unique, in_map_iff.
    rewrite <- (loaded_day_ids fs day_id_of_path file_paths all_dfs d Hl).
    rewrite <- (clean_and_transform_data_day_ids argsort Hargsort true _ rows d Hclean).
    split; intros [r [H1 H2]]; exists r; tauto. }
  split; [|split; [|exact Hdayset]].
  - rewrite Hdays, (Permutation_length (all_points_Permutation rows)), length_map.
    apply (clean_and_transform_data_length argsort Hargsort true). exact Hclean.
  - destruct file_paths as [|p rest]; [congruence|].
    intros Hnil.
    assert (Hin : In (day_id_of_path p) (map d_day_id days)).
    { apply Hdayset. exists p. split; [now left | reflexivity]. }
    rewrite Hnil in Hin. exact Hin.
Qed.

(** [completed_run_exports_every_loaded_row] on the run of
    [Examples.scenario_far_disk]. *)
Lemma completed_run_witness :
  argsort_ok stable_argsort
  /\ run_analysis (L := Rational.lib) stable_argsort Examples.scenario_far_disk
       Rational.day_id_of_path ["20240101.dat"]
     = Completed (generate_standalone_html (L := Rational.lib) Segmented.far_rows)
  /\ exists all_dfs,
       Forall2 (loaded_as Examples.scenario_far_disk Rational.day_id_of_path)
         ["20240101.dat"] all_dfs
       /\ List.length
            (all_points (L := Rational.lib)
               (generate_standalone_html (L := Rational.lib) Segmented.far_rows))
          = List.length (List.concat all_dfs)
       /\ generate_standalone_html (L := Rational.lib) Segmented.far_rows <> []
       /\ (forall d,
             In d (map d_day_id
                     (generate_standalone_html (L := Rational.lib) Segmented.far_rows))
             <-> exists p, In p ["20240101.dat"] /\ Rational.day_id_of_path p = d).
Proof.
  split; [exact stable_argsort_ok|]. split; [vm_compute; reflexivity|].
  apply (completed_run_exports_every_loaded_row (L := Rational.lib) stable_argsort
           Examples.scenario_far_disk Rational.day_id_of_path ["20240101.dat"]
           (generate_standalone_html (L := Rational.lib) Segmented.far_rows)).
  - exact stable_argsort_ok.
  - vm_compute. reflexivity.
Defined.

(* ------------------------------------------------------------------ *)
(** ** The page *)

Lemma pad2_two_digits (n : Z) :
  0 <= n < 100 ->
  exists a b, Calendar.pad2 n = String a (String b EmptyString)
              /\ Page.two_digits a b = Some n.
Proof.
  intros Hn.
  set (pad2_reads_back := fun k : nat =>
         match Calendar.pad2 (Z.of_nat k) with
         | String a (String b EmptyString) =>
             match Page.two_digits a b with
             | Some v => v =? Z.of_nat k
             | None => false
             end
         | _ => false
         end).
  assert (Hall : forallb pad2_reads_back (seq 0 100) = true) by (vm_compute; reflexivity).
  rewrite forallb_forall in Hall.
  assert (Hk : pad2_reads_back (Z.to_nat n) = true).
  { apply Hall. apply in_seq. lia. }
  unfold pad2_reads_back in Hk. rewrite Z2Nat.id in Hk by lia.
  destruct (Calendar.pad2 n) as [|a [|b [|c r]]]; try discriminate.
  exists a, b. split; [reflexivity|].
  destruct (Page.two_digits a b) as [v|]; [|discriminate].
  apply Z.eqb_eq in Hk. now subst v.
Qed.

(** The script reads the time of day of an instant back from its
    ['%H:%M:%S'] text. *)
Lemma get_time_strftime_HMS (t : Z) :
  Page.get_time (Calendar.strftime_HMS t) = Some ((t mod 86400) * 1000).
Proof.
  unfold Calendar.strftime_HMS. cbv zeta.
  set (sod := t mod 86400).
  assert (Hsod : 0 <= sod < 86400) by (apply Z.mod_pos_bound; lia).
  assert (Hh : 0 <= sod / 3600 < 24).
  { split; [apply Z.div_pos; lia | apply Z.div_lt_upper_bound; lia]. }
  assert (Hm : 0 <= (sod mod 3600) / 60 < 60).
  { pose proof (Z.mod_pos_bound sod 3600 ltac:(lia)).
    split; [apply Z.div_pos; lia | apply Z.div_lt_upper_bound; lia]. }
  assert (Hs : 0 <= sod mod 60 < 60) by (apply Z.mod_pos_bound; lia).
  destruct (pad2_two_digits (sod / 3600) ltac:(lia)) as [h1 [h2 [Eh Th]]].
  destruct (pad2_two_digits ((sod mod 3600) / 60) ltac:(lia)) as [m1 [m2 [Em Tm]]].
  destruct (pad2_two_digits (sod mod 60) ltac:(lia)) as [s1 [s2 [Es Ts]]].
  rewrite Eh, Em, Es. cbn [String.append]. unfold Page.get_time.
  rewrite Th, Tm, Ts.
  replace ((sod / 3600 <=? 23) && ((sod mod 3600) / 60 <=? 59) && (sod mod 60 <=? 59))
    with true.
  2:{ symmetry. rewrite !andb_true_iff, !Z.leb_le. lia. }
  cbn [orb]. f_equal.
  pose proof (Z.div_mod sod 3600 ltac:(lia)) as H1.
  pose proof (Z.div_mod (sod mod 3600) 60 ltac:(lia)) as H2.
  assert (H3 : (sod mod 3600) mod 60 = sod mod 60).
  { rewrite (Z.mod_eq sod 3600) by lia.
    replace (sod - 3600 * (sod / 3600)) with (sod + (- 60 * (sod / 3600)) * 60) by lia.
    apply Z.mod_add. lia. }
  lia.
Qed.

Lemma find_by_key {A K : Type} (key : A -> K) (eqb : K -> K -> bool) (l : list A) (x : A) :
  (forall a b, eqb a b = true <-> a = b) ->
  NoDup (map key l) -> In x l ->
  find (fun y => eqb (key y) (key x)) l = Some x.
Proof.
  intros Heqb. induction l as [|y l IH]; intros Hnd Hin; [destruct Hin|].
  cbn [map] in Hnd. apply NoDup_cons_iff in Hnd. destruct Hnd as [Hnotin Hnd].
  cbn [find]. destruct Hin as [-> | Hin].
  - assert (Hx : eqb (key x) (key x) = true) by (now apply Heqb). now rewrite Hx.
  - destruct (eqb (key y) (key x)) eqn:Hk.
    + apply Heqb in Hk. exfalso. apply Hnotin. rewrite Hk. now apply in_map.
    + apply IH; assumption.
Qed.

Lemma series_max_In (x : Z) (l : list Z) : In (series_max (x :: l)) (x :: l).
Proof.
  unfold series_max. revert x. induction l as [|y l IH]; intros x; [now left|].
  cbn [fold_left]. destruct (IH (Z.max x y)) as [Hm | Hm].
  - destruct (Z.max_spec x y) as [[_ Hmax] | [_ Hmax]].
    + right. left. rewrite <- Hm. exact (eq_sym Hmax).
    + left. rewrite <- Hm. exact (eq_sym Hmax).
  - right. right. exact Hm.
Qed.

Lemma series_min_In (x : Z) (l : list Z) : In (series_min (x :: l)) (x :: l).
Proof.
  unfold series_min. revert x. induction l as [|y l IH]; intros x; [now left|].
  cbn [fold_left]. destruct (IH (Z.min x y)) as [Hm | Hm].
  - destruct (Z.min_spec x y) as [[_ Hmin] | [_ Hmin]].
    + left. rewrite <- Hm. exact (eq_sym Hmin).
    + right. left. rewrite <- Hm. exact (eq_sym Hmin).
  - right. right. exact Hm.
Qed.

Lemma series_max_upper (l : list Z) (z : Z) : In z l -> z <= series_max l.
Proof.
  destruct l as [|x l]; [intros []|]. unfold series_max.
  assert (Hge : forall r a, a <= fold_left Z.max r a).
  { induction r as [|y r IH]; simpl; intros a; [lia|].
    specialize (IH (Z.max a y)). lia. }
  revert x. induction l as [|y l IH]; intros x Hin.
  - destruct Hin as [-> | []]. simpl. lia.
  - cbn [fold_left]. destruct Hin as [-> | [-> | Hin]].
    + specialize (Hge l (Z.max z y)). lia.
    + specialize (Hge l (Z.max x z)). lia.
    + apply IH. right. exact Hin.
Qed.

Lemma series_min_lower (l : list Z) (z : Z) : In z l -> series_min l <= z.
Proof.
  destruct l as [|x l]; [intros []|]. unfold series_min.
  assert (Hle : forall r a, fold_left Z.min r a <= a).
  { induction r as [|y r IH]; simpl; intros a; [lia|].
    specialize (IH (Z.min a y)). lia. }
  revert x. induction l as [|y l IH]; intros x Hin.
  - destruct Hin as [-> | []]. simpl. lia.
  - cbn [fold_left]. destruct Hin as [-> | [-> | Hin]].
    + specialize (Hle l (Z.min z y)). lia.
    + specialize (Hle l (Z.min x z)). lia.
    + apply IH. right. exact Hin.
Qed.

Lemma nth_error_expected_time_groups (start_time end_time : Z) (k : nat) :
  nth_error (expected_time_groups start_time end_time) k
  = if (Z.of_nat k <=? (end_time - start_time) / 30) || (k =? 0)%nat
    then Some (mkTimeGroup (Z.of_nat k)
                 (Calendar.strftime_HMS (start_time + 30 * Z.of_nat k)))
    else None.
Proof.
  unfold expected_time_groups.
  set (n := Z.to_nat ((end_time - start_time) / 30)).
  destruct (Nat.lt_ge_cases k (S n)) as [Hlt | Hge].
  - rewrite nth_error_map, (nth_error_nth' _ 0%nat) by (rewrite length_seq; exact Hlt).
    rewrite seq_nth by exact Hlt. cbn [option_map Nat.add].
    replace ((Z.of_nat k <=? (end_time - start_time) / 30) || (k =? 0)%nat) with true;
      [reflexivity|].
    symmetry. apply orb_true_iff. destruct k as [|k]; [right; reflexivity|].
    left. apply Z.leb_le. unfold n in Hlt. lia.
  - replace ((Z.of_nat k <=? (end_time - start_time) / 30) || (k =? 0)%nat) with false.
    + apply nth_error_None. rewrite length_map, length_seq. exact Hge.
    + symmetry. apply orb_false_iff. split.
      * apply Z.leb_gt. unfold n in Hge.
        destruct (Z_lt_le_dec ((end_time - start_time) / 30) 0); lia.
      * apply Nat.eqb_neq. lia.
Qed.

Section PageOfAFrame.

Context {L : PandasNum}.
Variable df : list (Row F).

Lemma day_ids_NoDup : NoDup (map d_day_id (generate_standalone_html df)).
Proof.
  rewrite exported_day_ids. apply sorted_unique_NoDup.
Qed.

Lemma trip_ids_NoDup (day : DayOut F) :
  In day (generate_standalone_html df) -> NoDup (map t_id (d_trips day)).
Proof.
  rewrite generate_standalone_html_map. intros Hday.
  apply in_map_iff in Hday. destruct Hday as [[d day_df] [Hd _]]. subst day.
  cbn [d_trips fst snd]. rewrite map_map. cbn [standalone_trip t_id].
  change (map (fun x : Z * list (Row F) => fst x) (groupby trip_id day_df))
    with (map fst (groupby trip_id day_df)).
  rewrite groupby_keys. apply sorted_unique_NoDup.
Qed.

Lemma find_day_of (day : DayOut F) :
  In day (generate_standalone_html df) ->
  Page.find_day (generate_standalone_html df) (Some (d_day_id day)) = Some day.
Proof.
  intros Hday. unfold Page.find_day.
  apply (find_by_key d_day_id String.eqb); [apply String.eqb_eq | apply day_ids_NoDup | exact Hday].
Qed.

Lemma find_trip_of (day : DayOut F) (trip : TripOut F) :
  In day (generate_standalone_html df) -> In trip (d_trips day) ->
  Page.find_trip day (Some (t_id trip)) = Some trip.
Proof.
  intros Hday Htrip. unfold Page.find_trip.
  apply (find_by_key t_id Z.eqb); [apply Z.eqb_eq | now apply trip_ids_NoDup | exact Htrip].
Qed.

Lemma visible_points_rows (trip_df : list (Row F)) (target : Z) :
  filter (fun p => Page.le_time (Page.get_time (po_time p))
                     (Page.get_time (Calendar.strftime_HMS target)))
         (map exported_point trip_df)
  = map exported_point
      (filter (fun r => (datetime (point r)) mod 86400 <=? target mod 86400) trip_df).
Proof.
  rewrite filter_map_swap. f_equal. apply filter_ext. intros r.
  cbn [exported_point po_time]. rewrite !get_time_strftime_HMS. cbn [Page.le_time].
  apply eq_true_iff_eq. rewrite !Z.leb_le. lia.
Qed.

Lemma slider_max_of_trip (i : Z) (trip_df : list (Row F)) :
  Page.slider_max (standalone_trip i trip_df)
  = (series_max (instants trip_df) - series_min (instants trip_df)) / 30.
Proof.
  unfold Page.slider_max. cbn [standalone_trip t_time_groups].
  pose proof (series_min_le_max (instants trip_df)) as Hle. unfold instants in *.
  rewrite time_groups_loop_expected by exact Hle.
  unfold expected_time_groups. rewrite length_map, length_seq.
  assert (0 <= (series_max (map (fun r : Row F => datetime (point r)) trip_df)
                - series_min (map (fun r : Row F => datetime (point r)) trip_df)) / 30)
    by (apply Z.div_pos; lia).
  lia.
Qed.

Lemma updateMapDisplay_of_trip (day : DayOut F) (i : Z) (trip_df : list (Row F))
  (sliderValue : nat) :
  In day (generate_standalone_html df) ->
  In (standalone_trip i trip_df) (d_trips day) ->
  let start_time := series_min (instants trip_df) in
  let shown :=
    filter (fun r => (datetime (point r)) mod 86400
                     <=? (start_time + 30 * Z.of_nat sliderValue) mod 86400)
           trip_df in
  (Z.of_nat sliderValue <= Page.slider_max (standalone_trip i trip_df) ->
   exists d,
     Page.updateMapDisplay (generate_standalone_html df)
       (Some (d_day_id day)) (Some i) sliderValue = Page.Drawn d
     /\ map Page.m_point (Page.currentMarkers d) = map exported_point shown
     /\ Page.current_time d
        = Calendar.strftime_HMS (start_time + 30 * Z.of_nat sliderValue)
     /\ Page.currentPolyline d
        = if (1 <? List.length shown)%nat
          then Some (map (fun r => (latitude (point r), longitude (point r))) shown)
          else None)
  /\ (Page.slider_max (standalone_trip i trip_df) < Z.of_nat sliderValue ->
      Page.updateMapDisplay (generate_standalone_html df)
        (Some (d_day_id day)) (Some i) sliderValue = Page.Thrown).
Proof.
  intros Hday Htrip. cbv zeta. rewrite slider_max_of_trip.
  pose proof (series_min_le_max (instants trip_df)) as Hle.
  assert (Hnn : 0 <= (series_max (instants trip_df) - series_min (instants trip_df)) / 30)
    by (apply Z.div_pos; lia).
  unfold Page.updateMapDisplay.
  rewrite (find_day_of day Hday).
  pose proof (find_trip_of day (standalone_trip i trip_df) Hday Htrip) as Hfind.
  change (t_id (standalone_trip i trip_df)) with i in Hfind.
  rewrite Hfind.
  cbn [standalone_trip t_time_groups t_points t_id].
  fold (instants trip_df).
  rewrite (time_groups_loop_expected _ _ Hle), nth_error_expected_time_groups.
  split.
  - intros Hk.
    replace ((Z.of_nat sliderValue
              <=? (series_max (instants trip_df) - series_min (instants trip_df)) / 30)
             || (sliderValue =? 0)%nat) with true
      by (symmetry; apply orb_true_iff; left; apply Z.leb_le; exact Hk).
    cbn [tg_time]. eexists. split; [reflexivity|].
    cbn [Page.currentMarkers Page.current_time Page.currentPolyline].
    rewrite map_map. cbn [Page.m_point]. rewrite map_id.
    change (map (fun row : Row F =>
                   {| po_lat := latitude (point row);
                      po_lon := longitude (point row);
                      po_popup := popup_info (point row);
                      po_time := Calendar.strftime_HMS (datetime (point row));
                      po_datetime := Calendar.isoformat (datetime (point row)) |})
                trip_df)
      with (map exported_point trip_df).
    rewrite visible_points_rows.
    split; [reflexivity|]. split; [reflexivity|].
    rewrite !length_map, map_map. reflexivity.
  - intros Hk.
    replace ((Z.of_nat sliderValue
              <=? (series_max (instants trip_df) - series_min (instants trip_df)) / 30)
             || (sliderValue =? 0)%nat) with false; [reflexivity|].
    symmetry. apply orb_false_iff. split; [apply Z.leb_gt; exact Hk|].
    apply Nat.eqb_neq. lia.
Qed.

End PageOfAFrame.

Lemma filter_length_lt {A : Type} (P : A -> bool) (l : list A) (x : A) :
  In x l -> P x = false -> (List.length (filter P l) < List.length l)%nat.
Proof.
  induction l as [|a l IH]; intros Hin Hx; [destruct Hin|].
  cbn [filter]. destruct Hin as [-> | Hin].
  - rewrite Hx. pose proof (filter_length_le P l). simpl. lia.
  - specialize (IH Hin Hx). destruct (P a); simpl; lia.
Qed.

Lemma filter_all {A : Type} (P : A -> bool) (l : list A) :
  (forall a, In a l -> P a = true) -> filter P l = l.
Proof.
  induction l as [|a l IH]; intros Hall; [reflexivity|].
  cbn [filter]. rewrite (Hall a (or_introl eq_refl)). f_equal.
  apply IH. intros b Hb. apply Hall. now right.
Qed.

Lemma same_day_mod (lo hi x y : Z) :
  lo / 86400 = hi / 86400 -> lo <= x <= hi -> lo <= y <= hi ->
  (x mod 86400 <=? y mod 86400) = (x <=? y).
Proof.
  intros Hd Hx Hy.
  assert (Hq : forall z, lo <= z <= hi -> z / 86400 = lo / 86400).
  { intros z Hz.
    pose proof (Z.div_le_mono lo z 86400 ltac:(lia) ltac:(lia)).
    pose proof (Z.div_le_mono z hi 86400 ltac:(lia) ltac:(lia)). lia. }
  rewrite (Z.mod_eq x 86400), (Z.mod_eq y 86400) by lia.
  rewrite (Hq x Hx), (Hq y Hy).
  apply eq_true_iff_eq. rewrite !Z.leb_le. lia.
Qed.




Section ClosestPoint.

Context {T : Type}.
Variable tv : Z.

(** A point the filter of [updateMapDisplay] kept for the target [tv]. *)
Let kept (p : PointOut T) : Prop :=
  exists tp, Page.get_time (po_time p) = Some tp /\ tp <= tv.

Let step (state : option (PointOut T) * option Z) (point : PointOut T) :=
  let pointTime := Page.get_time (po_time point) in
  let timeDiff := Page.abs_diff pointTime (Some tv) in
  if Page.closer timeDiff (snd state) then (Some point, timeDiff) else state.

Lemma closest_point_loop (visible : list (PointOut T)) :
  forall (c : PointOut T) (tc : Z),
    Page.get_time (po_time c) = Some tc -> tc <= tv ->
    Forall kept visible ->
    exists c' tc',
      fst (fold_left step visible (Some c, Some (Z.abs (tc - tv)))) = Some c'
      /\ (c' = c \/ In c' visible)
      /\ Page.get_time (po_time c') = Some tc'
      /\ tc <= tc'
      /\ Forall (fun p => exists tp, Page.get_time (po_time p) = Some tp /\ tp <= tc')
                visible.
Proof.
  induction visible as [|p visible IH]; intros c tc Hc Hle Hall.
  - exists c, tc. cbn [fold_left fst]. repeat split; [now left | exact Hc | lia | constructor].
  - apply Forall_cons_iff in Hall. destruct Hall as [[tp [Hp Hptv]] Hall].
    cbn [fold_left]. unfold step at 2. cbv zeta. rewrite Hp.
    cbn [Page.abs_diff Page.closer snd].
    destruct (Z.abs (tp - tv) <? Z.abs (tc - tv)) eqn:Hlt.
    + apply Z.ltb_lt in Hlt.
      destruct (IH p tp Hp Hptv Hall) as [c' [tc' [Hfold [Hin [Hc' [Hle' Hmax]]]]]].
      exists c', tc'. split; [exact Hfold|]. split.
      * right. destruct Hin as [-> | Hin]; [now left | now right].
      * split; [exact Hc'|]. split; [lia|].
        constructor; [exists tp; split; [exact Hp | exact Hle'] | exact Hmax].
    + apply Z.ltb_ge in Hlt.
      destruct (IH c tc Hc Hle Hall) as [c' [tc' [Hfold [Hin [Hc' [Hle' Hmax]]]]]].
      exists c', tc'. split; [exact Hfold|]. split.
      * destruct Hin as [-> | Hin]; [now left | right; now right].
      * split; [exact Hc'|]. split; [exact Hle'|].
        constructor; [exists tp; split; [exact Hp | lia] | exact Hmax].
Qed.

(** The closest point is a shown point with the latest time of day. *)
Lemma closest_point_latest (visible : list (PointOut T)) :
  Forall kept visible -> visible <> [] ->
  exists c tc,
    Page.closest_point (Some tv) visible = Some c
    /\ In c visible
    /\ Page.get_time (po_time c) = Some tc
    /\ Forall (fun p => exists tp, Page.get_time (po_time p) = Some tp /\ tp <= tc)
              visible.
Proof.
  intros Hall Hne. destruct visible as [|p visible]; [congruence|].
  apply Forall_cons_iff in Hall. destruct Hall as [[tp [Hp Hptv]] Hall].
  unfold Page.closest_point. cbn [fold_left]. rewrite Hp.
  cbn [Page.abs_diff Page.closer snd].
  destruct (closest_point_loop visible p tp Hp Hptv Hall)
    as [c' [tc' [Hfold [Hin [Hc' [Hle' Hmax]]]]]].
  exists c', tc'. split; [exact Hfold|]. split.
  - destruct Hin as [-> | Hin]; [now left | now right].
  - split; [exact Hc'|].
    constructor; [exists tp; split; [exact Hp | exact Hle'] | exact Hmax].
Qed.

End ClosestPoint.

Lemma le_time_true (a b : option Z) :
  Page.le_time a b = true <-> exists x y, a = Some x /\ b = Some y /\ x <= y.
Proof.
  unfold Page.le_time. split.
  - destruct a as [x|], b as [y|]; try discriminate.
    intros H. apply Z.leb_le in H. now exists x, y.
  - intros [x [y [-> [-> H]]]]. now apply Z.leb_le.
Qed.

(** Whenever the script draws points, it highlights one of them, and no
    drawn point is later than this one by time of day. *)
Theorem latest_drawn_point_is_highlighted
  {T : Type} (days : list (DayOut T)) (currentDayId : option string)
  (currentTripId : option Z) (sliderValue : nat) :
  match Page.updateMapDisplay days currentDayId currentTripId sliderValue with
  | Page.Drawn d =>
      Page.currentMarkers d = []
      \/ exists m,
           In m (Page.currentMarkers d)
           /\ Page.m_highlighted m = true
           /\ Forall (fun m' =>
                        Page.le_time (Page.get_time (po_time (Page.m_point m')))
                                     (Page.get_time (po_time (Page.m_point m))) = true)
                     (Page.currentMarkers d)
  | _ => True
  end.
Proof.
  unfold Page.updateMapDisplay.
  destruct (Page.find_day days currentDayId) as [dayData|]; [|exact I].
  destruct (Page.find_trip dayData currentTripId) as [tripData|]; [|exact I].
  destruct (nth_error (t_time_groups tripData) sliderValue) as [group|]; [|exact I].
  cbv zeta. cbn [Page.currentMarkers].
  set (targetTime := Page.get_time (tg_time group)).
  set (visiblePoints := filter (fun p => Page.le_time (Page.get_time (po_time p)) targetTime)
                               (t_points tripData)).
  destruct visiblePoints as [|p0 rest] eqn:Hvis; [left; reflexivity|]. right.
  assert (Hkept : forall p, In p (p0 :: rest) ->
            Page.le_time (Page.get_time (po_time p)) targetTime = true).
  { intros p Hp. rewrite <- Hvis in Hp. unfold visiblePoints in Hp.
    apply filter_In in Hp. apply Hp. }
  destruct targetTime as [tv|] eqn:Htarget.
  2:{ specialize (Hkept p0 (or_introl eq_refl)). apply le_time_true in Hkept.
      destruct Hkept as [x [y [_ [Hy _]]]]. discriminate. }
  destruct (closest_point_latest tv (p0 :: rest)) as [c [tc [Hclosest [Hin [Hc Hmax]]]]].
  { apply Forall_forall. intros p Hp. specialize (Hkept p Hp).
    apply le_time_true in Hkept. destruct Hkept as [x [y [Hx [Hy Hxy]]]].
    inversion Hy; subst y. now exists x. }
  { discriminate. }
  rewrite Hclosest.
  exists (Page.mkMarker c (String.eqb (po_datetime c) (po_datetime c))).
  split; [|split].
  - apply (in_map (fun point => Page.mkMarker point
                                  (String.eqb (po_datetime point) (po_datetime c)))).
    exact Hin.
  - cbn [Page.m_highlighted]. apply String.eqb_refl.
  - apply Forall_forall. intros m' Hm'. apply in_map_iff in Hm'.
    destruct Hm' as [p [Hm' Hp]]. subst m'. cbn [Page.m_point].
    rewrite Forall_forall in Hmax. destruct (Hmax p Hp) as [tp [Htp Hle]].
    apply le_time_true. now exists tp, tc.
Qed.

(** The trip of [Examples.short_trip_frame] lasts 100 seconds: the slider
    stops at 08:01:30, and the point of 08:01:40 is drawn at no slider
    value. *)
Example page_of_a_short_trip :
  let days := generate_standalone_html (L := Rational.lib) Examples.short_trip_frame in
  map (fun t => (t_start_time t, t_end_time t, map po_time (t_points t), Page.slider_max t))
      (all_trips (L := Rational.lib) days)
  = [("08:00:00", "08:01:40", ["08:00:00"; "08:01:40"], 3)]
  /\ map (fun sliderValue =>
            match Page.updateMapDisplay days (Some "01/01/2024") (Some 0) sliderValue with
            | Page.Drawn d =>
                Some (Page.current_time d,
                      map (fun m => (po_time (Page.m_point m), Page.m_highlighted m))
                          (Page.currentMarkers d))
            | _ => None
            end)
         [0; 1; 2; 3; 4]%nat
     = [Some ("08:00:00", [("08:00:00", true)]);
        Some ("08:00:30", [("08:00:00", true)]);
        Some ("08:01:00", [("08:00:00", true)]);
        Some ("08:01:30", [("08:00:00", true)]);
        None].
Proof. vm_compute. split; reflexivity. Qed.

(* ------------------------------------------------------------------ *)
(** ** [add_timeslider] *)

Section SliderGroups.

Context {T : Type}.
Variable df : list (Row T).

Lemma slider_groups_loop_stop (end_time current_time group_index : Z) :
  end_time < current_time ->
  slider_groups_loop df end_time current_time group_index = [].
Proof.
  intros H. rewrite slider_groups_loop_equation_1.
  destruct (Z_le_gt_dec current_time end_time) as [Hle|Hgt]; [lia | reflexivity].
Qed.

Lemma slider_groups_loop_step (end_time current_time group_index : Z) :
  current_time <= end_time ->
  slider_groups_loop df end_time current_time group_index
  = match window df current_time (current_time + 30) with
    | [] => slider_groups_loop df end_time (current_time + 30) group_index
    | r :: group_data =>
        mkSliderGroup group_index current_time
          (Calendar.strftime_HMS current_time) (r :: group_data)
        :: slider_groups_loop df end_time (current_time + 30) (group_index + 1)
    end.
Proof.
  intros H. rewrite slider_groups_loop_equation_1.
  destruct (Z_le_gt_dec current_time end_time) as [Hle|Hgt]; [|lia].
  cbn. destruct (window df current_time (current_time + 30)); reflexivity.
Qed.

Lemma window_split (current_time : Z) :
  Permutation (filter (fun r => current_time <=? datetime (point r)) df)
              (window df current_time (current_time + 30)
               ++ filter (fun r => current_time + 30 <=? datetime (point r)) df).
Proof.
  unfold window. induction df as [|r rows IH]; [constructor|].
  cbn [filter].
  destruct (current_time <=? datetime (point r)) eqn:H1;
    destruct (datetime (point r) <? current_time + 30) eqn:H2;
    destruct (current_time + 30 <=? datetime (point r)) eqn:H3;
    cbn [andb app];
    try (apply Z.leb_le in H1); try (apply Z.leb_gt in H1);
    try (apply Z.ltb_lt in H2); try (apply Z.ltb_ge in H2);
    try (apply Z.leb_le in H3); try (apply Z.leb_gt in H3); try lia.
  - constructor. exact IH.
  - etransitivity; [|apply Permutation_middle]. constructor. exact IH.
  - exact IH.
Qed.

End SliderGroups.

Section SliderGroupsOfAFrame.

Context {T : Type}.
Variable df : list (Row T).
Variable end_time : Z.
Hypothesis end_is_last : Forall (fun r => datetime (point r) <= end_time) df.

Lemma slider_groups_loop_spec (n : nat) :
  forall current_time group_index,
    Z.to_nat (end_time - current_time + 1) = n ->
    let groups := slider_groups_loop df end_time current_time group_index in
    Permutation (flat_map sg_data groups)
                (filter (fun r => current_time <=? datetime (point r)) df)
    /\ map sg_index groups
       = map (fun k => group_index + Z.of_nat k) (seq 0 (List.length groups))
    /\ Forall (fun g => sg_data g <> []
                        /\ sg_data g = window df (sg_time g) (sg_time g + 30)
                        /\ sg_time_str g = Calendar.strftime_HMS (sg_time g)
                        /\ current_time <= sg_time g <= end_time
                        /\ (sg_time g - current_time) mod 30 = 0)
              groups.
Proof.
  induction n as [n IH] using lt_wf_ind. intros cur idx Hn. cbv zeta.
  destruct (Z_le_gt_dec cur end_time) as [Hle | Hgt].
  - rewrite slider_groups_loop_step by exact Hle.
    assert (Hm : (Z.to_nat (end_time - (cur + 30) + 1) < n)%nat) by lia.
    pose proof (window_split df cur) as Hsplit.
    set (group_from := fun (c : Z) (g : SliderGroup T) =>
           sg_data g <> []
           /\ sg_data g = window df (sg_time g) (sg_time g + 30)
           /\ sg_time_str g = Calendar.strftime_HMS (sg_time g)
           /\ c <= sg_time g <= end_time
           /\ (sg_time g - c) mod 30 = 0).
    assert (Hweaken : forall gs, Forall (group_from (cur + 30)) gs ->
                                 Forall (group_from cur) gs).
    { intros gs. apply Forall_impl. intros g [H1 [H2 [H3 [H4 H5]]]].
      repeat split; try assumption; try lia.
      replace (sg_time g - cur) with ((sg_time g - (cur + 30)) + 1 * 30) by lia.
      rewrite Z.mod_add by lia. exact H5. }
    destruct (window df cur (cur + 30)) as [|r group_data] eqn:Hw.
    + destruct (IH _ Hm (cur + 30) idx eq_refl) as [Hperm [Hidx Hall]].
      split; [|split].
      * etransitivity; [exact Hperm|]. symmetry. exact Hsplit.
      * exact Hidx.
      * apply Hweaken. exact Hall.
    + destruct (IH _ Hm (cur + 30) (idx + 1) eq_refl) as [Hperm [Hidx Hall]].
      split; [|split].
      * cbn [flat_map sg_data]. etransitivity; [|symmetry; exact Hsplit].
        apply Permutation_app_head. exact Hperm.
      * cbn [map List.length seq sg_index]. f_equal; [lia|].
        rewrite Hidx, <- seq_shift, map_map. apply map_ext. intros k. lia.
      * constructor; [|apply Hweaken; exact Hall].
        cbn [sg_data sg_time sg_time_str].
        repeat split; try lia; [discriminate | now rewrite Hw |].
        now rewrite Z.sub_diag.
  - rewrite slider_groups_loop_stop by lia. cbn [flat_map map List.length seq].
    split; [|split; [reflexivity | constructor]].
    rewrite filter_none; [constructor|].
    eapply Forall_impl; [|exact end_is_last].
    intros r Hr. cbv beta in Hr. apply Z.leb_gt. lia.
Qed.

End SliderGroupsOfAFrame.


(* ------------------------------------------------------------------ *)
(** ** Frames without two rows at the same instant *)

(** When no two rows of the frame share an instant, the frame that
    [clean_and_transform_data] returns depends neither on the order in
    which the rows were merged nor on the order in which the sort leaves
    equal keys: two runs on the same rows return the same frame. *)
Theorem distinct_instants_give_one_segmentation
  {L : PandasNum} (a b : list Z -> list nat) (has_day_id : bool)
  (df1 df2 : list TaggedRecord) (rows : list (Row F)) :
  argsort_ok a -> argsort_ok b ->
  Permutation df1 df2 ->
  clean_and_transform_data a has_day_id df1 = Ok rows ->
  NoDup (instants rows) ->
  clean_and_transform_data b has_day_id df2 = Ok rows.
Proof.
  intros Ha Hb Hperm Hclean Hnd.
  pose proof (distinct_instants_ignore_merge_order a Ha has_day_id df1 df2 rows
                Hperm Hclean Hnd) as Hclean2.
  rewrite <- Hclean2. symmetry.
  apply clean_and_transform_data_indexer. intros pts Hpts.
  apply argsort_unique; [exact Ha | exact Hb |].
  destruct (clean_and_transform_data_Permutation a Ha has_day_id df2 rows Hclean2)
    as [pts' [Hn Hp]].
  apply normalize_rows in Hpts.
  rewrite (Forall2_functional normalized df2 pts pts' normalized_functional Hpts Hn).
  eapply Permutation_NoDup; [apply Permutation_map; exact Hp|].
  rewrite map_map. exact Hnd.
Qed.

(** [distinct_instants_give_one_segmentation] on the two rows of
    [Segmented.far_merged], merged in either order and sorted by either
    argsort. *)
Lemma distinct_instants_witness :
  argsort_ok stable_argsort
  /\ argsort_ok tie_reversing_argsort
  /\ Permutation Segmented.far_merged (rev Segmented.far_merged)
  /\ clean_and_transform_data (L := Rational.lib) stable_argsort true Segmented.far_merged
     = Ok Segmented.far_rows
  /\ NoDup (instants Segmented.far_rows)
  /\ clean_and_transform_data (L := Rational.lib) tie_reversing_argsort true
       (rev Segmented.far_merged)
     = Ok Segmented.far_rows.
Proof.
  assert (Hnd : NoDup (instants Segmented.far_rows)).
  { repeat (constructor; [cbn; intuition discriminate|]). constructor. }
  split; [exact stable_argsort_ok|]. split; [exact tie_reversing_argsort_ok|].
  split; [apply Permutation_rev|]. split; [vm_compute; reflexivity|].
  split; [exact Hnd|].
  apply (distinct_instants_give_one_segmentation (L := Rational.lib)
           stable_argsort tie_reversing_argsort true
           Segmented.far_merged (rev Segmented.far_merged) Segmented.far_rows).
  - exact stable_argsort_ok.
  - exact tie_reversing_argsort_ok.
  - apply Permutation_rev.
  - vm_compute. reflexivity.
  - exact Hnd.
Defined.
